(** * IntrospectionCurveHandler: a shallow embedding and its properties

    Source: gazebo/gui/plot/IntrospectionCurveHandler.cc.

    The handler keeps a registry of plot curves per variable name, a
    reference-counted introspection filter, and a callback that decodes
    batches of typed parameters into (sim time, value) points.

    Conventions of the embedding:
    - [std::string] is [string]; [std::string::find] and
      [std::string::substr] are written out in [StdString], the latter with
      its [size_t] arithmetic and its [std::out_of_range] exception;
    - [std::map<std::string, CurveVariableSet>] is an association list in
      iteration order, an iterator is the entry it points to;
    - [std::set<std::string>] and [std::map<std::string, int>] of the filter
      are never iterated by the handler: they are a [gset] and a [gmap];
    - [double] is the primitive binary64 [float];
    - [int] is a [Z] in the 32-bit signed range, an overflowing increment or
      decrement is undefined behaviour and makes the operation return [None];
    - a [PlotCurveWeakPtr] is the identity of its control block, the live
      curves and their points are an explicit store;
    - the mutex is not modelled: every operation below runs with the lock
      held, so each one is an atomic state transformer. *)

From Stdlib Require Import ZArith List String Ascii Bool Lia Floats Sorted.
From stdpp Require Import base option list gmap strings.

Set Warnings "-clear-no-such-hyp".

Import ListNotations.
Local Open Scope string_scope.
Local Open Scope Z_scope.

(** ** Results of operations that can throw *)

Inductive exception := out_of_range.

Inductive result (A : Type) :=
| Ok (a : A)
| Throw (e : exception).

Arguments Ok {A} a.
Arguments Throw {A} e.

#[global] Instance result_bind : MBind result := fun A B k r =>
  match r with
  | Ok a => k a
  | Throw e => Throw e
  end.

#[global] Instance result_ret : MRet result := fun A a => Ok a.

(** ** std::string *)

Module StdString.

(** [size_t] is 64 bits wide. *)
Definition size_t_modulus : Z := 2 ^ 64.

Definition size (s : string) : Z := Z.of_nat (String.length s).

Fixpoint starts_with (needle s : string) : bool :=
  match needle, s with
  | EmptyString, _ => true
  | String a needle', String b s' => Ascii.eqb a b && starts_with needle' s'
  | String _ _, EmptyString => false
  end.

(** [s.find(needle)]: the lowest position at which [needle] occurs in [s];
    [None] is [std::string::npos]. *)
Fixpoint find (s needle : string) : option nat :=
  if starts_with needle s then Some 0%nat
  else match s with
       | EmptyString => None
       | String _ s' => option_map S (find s' needle)
       end.

(** [s.find(needle) == 0] *)
Definition find_is_0 (s needle : string) : bool :=
  match find s needle with
  | Some 0%nat => true
  | _ => false
  end.

(** [s.find(needle) != std::string::npos] *)
Definition find_not_npos (s needle : string) : bool :=
  match find s needle with
  | Some _ => true
  | None => false
  end.

Fixpoint drop (n : nat) (s : string) : string :=
  match n, s with
  | O, _ => s
  | S n', String _ s' => drop n' s'
  | S _, EmptyString => EmptyString
  end.

(** [s.substr(pos)]: the characters from [pos] to the end; throws
    [std::out_of_range] when [pos > s.size()]. *)
Definition substr (s : string) (pos : Z) : result string :=
  if size s <? pos then Throw out_of_range
  else Ok (drop (Z.to_nat pos) s).

(** [s.size() - 1] in [size_t] arithmetic. *)
Definition size_minus_1 (s : string) : Z := (size s - 1) mod size_t_modulus.

End StdString.

(** ** ignition::math values *)

Module math.

Record Vector2d := mkVector2d { X2 : float; Y2 : float }.

Record Quaterniond :=
  mkQuaterniond { QW : float; QX : float; QY : float; QZ : float }.

Record Vector3d := mkVector3d { X : float; Y : float; Z : float }.

Record Pose3d := mkPose3d { Pos : Vector3d; Rot : Quaterniond }.

End math.

Abbreviation Vector2d := math.Vector2d.
Abbreviation Vector3d := math.Vector3d.
Abbreviation Quaterniond := math.Quaterniond.
Abbreviation Pose3d := math.Pose3d.

(** ** gazebo::msgs *)

Module msgs.

Record Time := mkTime { sec : Z; nsec : Z }.

(** [msgs::Any::ValueType] *)
Inductive ValueType :=
| NONE | DOUBLE | INT32 | STRING | BOOLEAN | VECTOR3D | COLOR | POSE3D
| QUATERNIOND | TIME.

(** [msgs::Any]: the declared type and one optional field per type. The
    vector, pose and quaternion fields hold the value [msgs::ConvertIgn]
    returns, which copies the components. *)
Record Any := mkAny {
  type : ValueType;
  double_value : option float;
  int_value : option Z;
  bool_value : option bool;
  time_value : option Time;
  pose3d_value : option Pose3d;
  vector3d_value : option Vector3d;
  quaternion_value : option Quaterniond
}.

(** [msgs::Param] *)
Record Param := mkParam { name : string; value : option Any }.

(** [msgs::Param_V] *)
Definition Param_V := list Param.

End msgs.

(** ** Collaborators that are not part of the handler *)

(** [common::URI]: validity, path and the string of the query of the URI
    built from a string. Paths are compared with [==]. *)
Class URIModel := {
  URIPath : Type;
  URIPath_eq_dec :: EqDecision URIPath;
  URI_Valid : string -> bool;
  URI_Path : string -> URIPath;
  URI_Query_Str : string -> string
}.

(** [common::Time::Double] after [msgs::Convert], and
    [ignition::math::Quaterniond::Euler]. *)
Class MathModel := {
  Time_Double : msgs.Time -> float;
  Euler : Quaterniond -> Vector3d
}.

(** Conversion of an [int] to [double]; exact, as an [int] has 32 bits. *)
Definition int_to_double (z : Z) : float :=
  if z <? 0 then PrimFloat.opp (PrimFloat.of_uint63 (Uint63.of_Z (- z)))
  else PrimFloat.of_uint63 (Uint63.of_Z z).

(** ** The query decoders *)

Section Decoders.

Context {M : MathModel}.

(** [IntrospectionCurveHandler::Vector3dFromQuery]; the result is the
    returned [bool] and the content of [_value] afterwards. *)
Definition Vector3dFromQuery (_query : string) (_vec : Vector3d)
    (_value : float) : result (bool * float) :=
  elem ← StdString.substr _query (StdString.size_minus_1 _query);
  if String.eqb elem "x" then Ok (true, math.X _vec)
  else if String.eqb elem "y" then Ok (true, math.Y _vec)
  else if String.eqb elem "z" then Ok (true, math.Z _vec)
  else Ok (false, _value).

(** [IntrospectionCurveHandler::QuaterniondFromQuery]. The test for "yaw"
    is a separate [if], whose [else] returns [false]. *)
Definition QuaterniondFromQuery (_query : string) (_quat : Quaterniond)
    (_value : float) : bool * float :=
  let euler := Euler _quat in
  let _value1 :=
    if StdString.find_not_npos _query "roll" then math.X euler
    else if StdString.find_not_npos _query "pitch" then math.Y euler
    else _value in
  if StdString.find_not_npos _query "yaw" then (true, math.Z euler)
  else (false, _value1).

End Decoders.

(** ** Plot curves and the curve registry *)

(** A [PlotCurveWeakPtr] is identified by its control block; [lock] succeeds
    on the curves that still have an owner. *)
Definition PlotCurveWeakPtr := nat.

Definition lock (live : gset PlotCurveWeakPtr) (_curve : PlotCurveWeakPtr) : bool :=
  bool_decide (_curve ∈ live).

(** [CurveVariableSet]: a [std::set] of weak pointers compared by owner,
    listed in increasing order. *)
Module CurveVariableSet.

Definition t := list PlotCurveWeakPtr.

(** [s.find(c) != s.end()] *)
Fixpoint find (s : t) (c : PlotCurveWeakPtr) : bool :=
  match s with
  | [] => false
  | x :: s' => Nat.eqb x c || find s' c
  end.

Fixpoint insert (c : PlotCurveWeakPtr) (s : t) : t :=
  match s with
  | [] => [c]
  | x :: s' =>
      if Nat.ltb c x then c :: s
      else if Nat.eqb c x then s
      else x :: insert c s'
  end.

Fixpoint erase (c : PlotCurveWeakPtr) (s : t) : t :=
  match s with
  | [] => []
  | x :: s' => if Nat.eqb x c then s' else x :: erase c s'
  end.

Definition empty (s : t) : bool :=
  match s with
  | [] => true
  | _ :: _ => false
  end.

End CurveVariableSet.

(** [std::map<std::string, CurveVariableSet>], as the list of its entries in
    iteration order (increasing keys). *)
Module CurveMap.

Definition entry : Type := string * CurveVariableSet.t.

Definition t := list entry.

(** [m.find(k)]; [None] is [m.end()]. *)
Definition find (m : t) (k : string) : option entry :=
  List.find (fun e => String.eqb (fst e) k) m.

(** [m[k] = v] *)
Fixpoint assign (k : string) (v : CurveVariableSet.t) (m : t) : t :=
  match m with
  | [] => [(k, v)]
  | (k', v') :: m' =>
      match String.compare k k' with
      | Lt => (k, v) :: m
      | Eq => (k, v) :: m'
      | Gt => (k', v') :: assign k v m'
      end
  end.

(** [it->second = f(it->second)] for the iterator [it = m.find(k)]. *)
Fixpoint modify (k : string) (f : CurveVariableSet.t -> CurveVariableSet.t)
    (m : t) : t :=
  match m with
  | [] => []
  | (k', v) :: m' =>
      if String.eqb k' k then (k', f v) :: m' else (k', v) :: modify k f m'
  end.

End CurveMap.

(** ** The handler's private data *)

(** The fields of [IntrospectionCurveHandlerPrivate] the operations read and
    write. *)
Record IntrospectionCurveHandlerPrivate := mkPrivate {
  curves : CurveMap.t;
  introspectFilter : gset string;
  introspectFilterCount : gmap string Z
}.

Definition simTimeVar : string := "data://world/default?p=sim_time".

Definition set_curves (m : CurveMap.t) (d : IntrospectionCurveHandlerPrivate) :=
  mkPrivate m (introspectFilter d) (introspectFilterCount d).

Definition set_filter (f : gset string) (cnt : gmap string Z)
    (d : IntrospectionCurveHandlerPrivate) :=
  mkPrivate (curves d) f cnt.

(** The data of a freshly constructed handler. *)
Definition constructed : IntrospectionCurveHandlerPrivate := mkPrivate [] ∅ ∅.

(** [IntrospectionCurveHandler::SetupIntrospection] when every step succeeds:
    the filter is the sim time variable alone, with count 1. *)
Definition SetupIntrospection (d : IntrospectionCurveHandlerPrivate) :=
  set_filter {[simTimeVar]} (<[simTimeVar := 1]> (introspectFilterCount d)) d.

(** ** [int] arithmetic *)

Definition INT_MAX : Z := 2 ^ 31 - 1.
Definition INT_MIN : Z := - 2 ^ 31.

(** [count++]: undefined on overflow. *)
Definition int_incr (count : Z) : option Z :=
  if count <? INT_MAX then Some (count + 1) else None.

(** [count--]: undefined on overflow. *)
Definition int_decr (count : Z) : option Z :=
  if INT_MIN <? count then Some (count - 1) else None.

(** [count == 0u]: the comparison converts [count] to [unsigned]. *)
Definition int_eq_0u (count : Z) : bool := count mod 2 ^ 32 =? 0.

(** ** The filter *)

Section Filter.

Context {U : URIModel}.

(** The test both loops apply to a remote [item]:
    [itemPath == path] and [itemQuery.Str().find(query.Str()) == 0]. *)
Definition item_matches (_name item : string) : bool :=
  bool_decide (URI_Path _name = URI_Path item)
  && StdString.find_is_0 (URI_Query_Str _name) (URI_Query_Str item).

(** The loop of [AddItemToFilter] over the remote [items]. *)
Fixpoint AddItemToFilter_loop (_name : string) (items : list string)
    (d : IntrospectionCurveHandlerPrivate)
    : option IntrospectionCurveHandlerPrivate :=
  match items with
  | [] => Some d
  | item :: rest =>
      if bool_decide (URI_Path _name = URI_Path item) then
        if StdString.find_is_0 (URI_Query_Str _name) (URI_Query_Str item) then
          if bool_decide (item ∈ introspectFilter d) then
            count ← int_incr (default 0 (introspectFilterCount d !! item));
            Some (set_filter (introspectFilter d)
                    (<[item := count]> (introspectFilterCount d)) d)
          else
            Some (set_filter ({[item]} ∪ introspectFilter d)
                    (<[item := 1]> (introspectFilterCount d)) d)
        else AddItemToFilter_loop _name rest d
      else AddItemToFilter_loop _name rest d
  end.

(** [IntrospectionCurveHandler::AddItemToFilter]; [items] is what the
    introspection client lists at the time of the call. The outcome of
    [UpdateFilter] is only logged. *)
Definition AddItemToFilter (items : list string) (_name : string)
    (d : IntrospectionCurveHandlerPrivate)
    : option IntrospectionCurveHandlerPrivate :=
  if negb (URI_Valid _name) then Some d
  else AddItemToFilter_loop _name items d.

(** The loop of [RemoveItemFromFilter] over the remote [items]. *)
Fixpoint RemoveItemFromFilter_loop (_name : string) (items : list string)
    (d : IntrospectionCurveHandlerPrivate)
    : option IntrospectionCurveHandlerPrivate :=
  match items with
  | [] => Some d
  | item :: rest =>
      if bool_decide (URI_Path _name = URI_Path item) then
        if StdString.find_is_0 (URI_Query_Str _name) (URI_Query_Str item) then
          if bool_decide (item ∈ introspectFilter d) then
            count ← int_decr (default 0 (introspectFilterCount d !! item));
            if int_eq_0u count then
              Some (set_filter (introspectFilter d ∖ {[item]})
                      (delete item (introspectFilterCount d)) d)
            else
              Some (set_filter (introspectFilter d)
                      (<[item := count]> (introspectFilterCount d)) d)
          else Some d
        else RemoveItemFromFilter_loop _name rest d
      else RemoveItemFromFilter_loop _name rest d
  end.

(** [IntrospectionCurveHandler::RemoveItemFromFilter] *)
Definition RemoveItemFromFilter (items : list string) (_name : string)
    (d : IntrospectionCurveHandlerPrivate)
    : option IntrospectionCurveHandlerPrivate :=
  if negb (URI_Valid _name) then Some d
  else RemoveItemFromFilter_loop _name items d.

(** ** The registry operations *)

(** [IntrospectionCurveHandler::AddCurve] *)
Definition AddCurve (items : list string) (live : gset PlotCurveWeakPtr)
    (_name : string) (_curve : PlotCurveWeakPtr)
    (d : IntrospectionCurveHandlerPrivate)
    : option IntrospectionCurveHandlerPrivate :=
  if negb (lock live _curve) then Some d
  else
    match CurveMap.find (curves d) _name with
    | None =>
        let curveSet := CurveVariableSet.insert _curve [] in
        AddItemToFilter items _name
          (set_curves (CurveMap.assign _name curveSet (curves d)) d)
    | Some it =>
        if CurveVariableSet.find (snd it) _curve then Some d
        else Some (set_curves
                     (CurveMap.modify _name (CurveVariableSet.insert _curve)
                        (curves d)) d)
    end.

(** The loop of [RemoveCurve] from the iterator at the head of [m] on: the
    data with its filter updated, and the entries from that iterator on. *)
Fixpoint RemoveCurve_loop (items : list string) (_curve : PlotCurveWeakPtr)
    (d : IntrospectionCurveHandlerPrivate) (m : CurveMap.t)
    : option (IntrospectionCurveHandlerPrivate * CurveMap.t) :=
  match m with
  | [] => Some (d, [])
  | (k, s) :: m' =>
      if CurveVariableSet.find s _curve then
        let s' := CurveVariableSet.erase _curve s in
        if CurveVariableSet.empty s' then
          d' ← RemoveItemFromFilter items k d;
          Some (d', m')
        else Some (d, (k, s') :: m')
      else
        '(d', m'') ← RemoveCurve_loop items _curve d m';
        Some (d', (k, s) :: m'')
  end.

(** [IntrospectionCurveHandler::RemoveCurve] *)
Definition RemoveCurve (items : list string) (live : gset PlotCurveWeakPtr)
    (_curve : PlotCurveWeakPtr) (d : IntrospectionCurveHandlerPrivate)
    : option IntrospectionCurveHandlerPrivate :=
  if negb (lock live _curve) then Some d
  else
    '(d', m) ← RemoveCurve_loop items _curve d (curves d);
    Some (set_curves m d').

End Filter.

(** ** The update callback *)

Section Dispatcher.

Context {U : URIModel} {M : MathModel}.

(** The lookup at the head of the loop body: [curves.find(paramName)], and
    when that fails the first entry whose key has [paramName] at position
    0; [None] is [curves.end()]. *)
Definition resolve (m : CurveMap.t) (paramName : string)
    : option CurveMap.entry :=
  match CurveMap.find m paramName with
  | Some it => Some it
  | None =>
      List.find (fun cIt => StdString.find_is_0 (fst cIt) paramName) m
  end.

(** The [switch] on [paramValue.type()]: [validData] and [data] after it. *)
Definition decode (paramValue : msgs.Any) (curveVarName : string)
    : result (bool * float) :=
  let data := 0%float in
  let validData := true in
  match msgs.type paramValue with
  | msgs.DOUBLE =>
      match msgs.double_value paramValue with
      | Some v => Ok (validData, v)
      | None => Ok (validData, data)
      end
  | msgs.INT32 =>
      match msgs.int_value paramValue with
      | Some v => Ok (validData, int_to_double v)
      | None => Ok (validData, data)
      end
  | msgs.BOOLEAN =>
      match msgs.bool_value paramValue with
      | Some v => Ok (validData, int_to_double (if v then 1 else 0))
      | None => Ok (validData, data)
      end
  | msgs.TIME =>
      match msgs.time_value paramValue with
      | Some t => Ok (validData, Time_Double t)
      | None => Ok (validData, data)
      end
  | msgs.POSE3D =>
      match msgs.pose3d_value paramValue with
      | Some p =>
          let d := 0%float in
          let queryStr := URI_Query_Str curveVarName in
          if StdString.find_not_npos queryStr "position" then
            Vector3dFromQuery queryStr (math.Pos p) d
          else if StdString.find_not_npos queryStr "orientation" then
            Ok (QuaterniondFromQuery queryStr (math.Rot p) d)
          else Ok (false, d)
      | None => Ok (false, data)
      end
  | msgs.VECTOR3D =>
      match msgs.vector3d_value paramValue with
      | Some vec =>
          let d := 0%float in
          let queryStr := URI_Query_Str curveVarName in
          Vector3dFromQuery queryStr vec d
      | None => Ok (false, data)
      end
  | msgs.QUATERNIOND =>
      match msgs.quaternion_value paramValue with
      | Some quat =>
          let d := 0%float in
          let queryStr := URI_Query_Str curveVarName in
          Ok (QuaterniondFromQuery queryStr quat d)
      | None => Ok (false, data)
      end
  | _ => Ok (false, data)
  end.

(** The locals of [OnIntrospection] that live across the first loop. *)
Record locals := mkLocals {
  simTime : float;
  hasSimTime : bool;
  curvesUpdates : list (CurveMap.entry * float)
}.

Definition locals_init : locals := mkLocals 0%float false [].

(** [curvesUpdates.push_back(std::make_pair(it, data))] *)
Definition push_back (l : locals) (it : CurveMap.entry) (data : float)
    : locals :=
  mkLocals (simTime l) (hasSimTime l) (curvesUpdates l ++ [(it, data)]).

(** One iteration of the loop that collects the updates. *)
Definition collect_param (d : IntrospectionCurveHandlerPrivate)
    (l : locals) (param : msgs.Param) : result locals :=
  if String.eqb (msgs.name param) "" then Ok l
  else
    match msgs.value param with
    | None => Ok l
    | Some paramValue =>
        let paramName := msgs.name param in
        let l1 :=
          if negb (hasSimTime l) && String.eqb paramName simTimeVar then
            match msgs.time_value paramValue with
            | Some t => mkLocals (Time_Double t) true (curvesUpdates l)
            | None => l
            end
          else l in
        match resolve (curves d) paramName with
        | None => Ok l1
        | Some it =>
            let curveVarName := fst it in
            '(validData, data) ← decode paramValue curveVarName;
            if negb validData then Ok l1
            else Ok (push_back l1 it data)
        end
    end.

(** The loop that collects the updates. *)
Fixpoint collect (d : IntrospectionCurveHandlerPrivate) (l : locals)
    (params : list msgs.Param) : result locals :=
  match params with
  | [] => Ok l
  | param :: rest =>
      l' ← collect_param d l param;
      collect d l' rest
  end.

(** A call [curve->AddPoint(pt)]. *)
Definition AddPoint_call : Type := PlotCurveWeakPtr * Vector2d.

(** The inner loop of the update: the points added for one update. *)
Definition update_curves (live : gset PlotCurveWeakPtr) (simTime : float)
    (curveUpdate : CurveMap.entry * float) : list AddPoint_call :=
  flat_map
    (fun cIt : PlotCurveWeakPtr =>
       if negb (lock live cIt) then []
       else [(cIt, math.mkVector2d simTime (snd curveUpdate))])
    (snd (fst curveUpdate)).

(** The loop over [curvesUpdates]. *)
Definition update (live : gset PlotCurveWeakPtr) (l : locals)
    : list AddPoint_call :=
  flat_map (update_curves live (simTime l)) (curvesUpdates l).

(** [IntrospectionCurveHandler::OnIntrospection]: the calls of [AddPoint]
    it makes, in order, or the exception that leaves it. The handler's
    data is not written. *)
Definition OnIntrospection (d : IntrospectionCurveHandlerPrivate)
    (live : gset PlotCurveWeakPtr) (_msg : msgs.Param_V)
    : result (list AddPoint_call) :=
  l ← collect d locals_init _msg;
  Ok (update live l).

End Dispatcher.

(** ** Sequences of calls *)

(** A call of the public interface with what the environment provides to it
    (the remote items listed, the curves alive), or a call of a filter
    operation alone. *)
Inductive call :=
| CallAddCurve (items : list string) (live : gset PlotCurveWeakPtr)
    (_name : string) (_curve : PlotCurveWeakPtr)
| CallRemoveCurve (items : list string) (live : gset PlotCurveWeakPtr)
    (_curve : PlotCurveWeakPtr)
| CallAddItemToFilter (items : list string) (_name : string)
| CallRemoveItemFromFilter (items : list string) (_name : string).

Section Runs.

Context {U : URIModel}.

Definition run_call (c : call) (d : IntrospectionCurveHandlerPrivate)
    : option IntrospectionCurveHandlerPrivate :=
  match c with
  | CallAddCurve items live _name _curve => AddCurve items live _name _curve d
  | CallRemoveCurve items live _curve => RemoveCurve items live _curve d
  | CallAddItemToFilter items _name => AddItemToFilter items _name d
  | CallRemoveItemFromFilter items _name => RemoveItemFromFilter items _name d
  end.

Fixpoint run (cs : list call) (d : IntrospectionCurveHandlerPrivate)
    : option IntrospectionCurveHandlerPrivate :=
  match cs with
  | [] => Some d
  | c :: cs' => d' ← run_call c d; run cs' d'
  end.

Definition is_curve_call (c : call) : bool :=
  match c with
  | CallAddCurve _ _ _ _ | CallRemoveCurve _ _ _ => true
  | _ => false
  end.

(** The remote items a call was given. *)
Definition call_items (c : call) : list string :=
  match c with
  | CallAddCurve items _ _ _ | CallRemoveCurve items _ _
  | CallAddItemToFilter items _ | CallRemoveItemFromFilter items _ => items
  end.

End Runs.

(** ** Instances of the collaborators *)

(** Modelled from the spec: [common::URI] (gazebo/common/URI.cc is not among
    the sources). The spec gives the format [scheme://path?query], with
    query strings [key=field/subfield/...]: the path is the text before the
    first [?] (scheme included), the string of the query the text after it,
    and a URI is valid when its path holds [://]. *)
Module SpecURI.

Definition question_mark : ascii := "?"%char.

Fixpoint before_query (s : string) : string :=
  match s with
  | EmptyString => EmptyString
  | String c s' =>
      if Ascii.eqb c question_mark then EmptyString
      else String c (before_query s')
  end.

Fixpoint after_query (s : string) : string :=
  match s with
  | EmptyString => EmptyString
  | String c s' => if Ascii.eqb c question_mark then s' else after_query s'
  end.

Definition Valid (s : string) : bool :=
  StdString.find_not_npos (before_query s) "://".

#[export] Instance model : URIModel := {|
  URIPath := string;
  URI_Valid := Valid;
  URI_Path := before_query;
  URI_Query_Str := after_query
|}.

End SpecURI.

(** Modelled from the spec: [common::Time::Double] (gazebo/common/Time.cc is
    not among the sources); the spec says a time converts to "seconds as
    floating point"; the constant is the [double] closest to [1e-9]. *)
Definition SpecTime_Double (t : msgs.Time) : float :=
  (int_to_double (msgs.sec t) + int_to_double (msgs.nsec t) * 0x1.12e0be826d695p-30)%float.

(** A math model over any conversion to Euler angles. *)
Definition SpecMath (euler : Quaterniond -> Vector3d) : MathModel :=
  {| Time_Double := SpecTime_Double; Euler := euler |}.

(** The instance used to evaluate the model on messages that hold no
    quaternion; its Euler angles are never read there. *)
Definition no_rotation (_ : Quaterniond) : Vector3d :=
  math.mkVector3d 0%float 0%float 0%float.

(** ** Notions used in the statements *)

Section Notions.

Context {U : URIModel} {M : MathModel}.

(** The locals after the sim time test at the head of the loop body. *)
Definition see_sim_time (l : locals) (param : msgs.Param)
    (paramValue : msgs.Any) : locals :=
  if negb (hasSimTime l) && String.eqb (msgs.name param) simTimeVar then
    match msgs.time_value paramValue with
    | Some t => mkLocals (Time_Double t) true (curvesUpdates l)
    | None => l
    end
  else l.

(** The curves of a set that are alive. *)
Definition live_curves (live : gset PlotCurveWeakPtr)
    (s : CurveVariableSet.t) : list PlotCurveWeakPtr :=
  List.filter (lock live) s.

(** A named parameter with a value that resolves to a registry entry
    holding exactly one live curve and whose decode is valid. *)
Definition valid_for_one_live_curve (d : IntrospectionCurveHandlerPrivate)
    (live : gset PlotCurveWeakPtr) (param : msgs.Param) : Prop :=
  exists paramValue it data,
    msgs.name param <> "" /\
    msgs.value param = Some paramValue /\
    resolve (curves d) (msgs.name param) = Some it /\
    decode paramValue (fst it) = Ok (true, data) /\
    length (live_curves live (snd it)) = 1%nat.

(** A parameter named as the sim time variable that carries the time [t]. *)
Definition sim_time_param (param : msgs.Param) (t : msgs.Time) : Prop :=
  msgs.name param = simTimeVar /\
  exists paramValue,
    msgs.value param = Some paramValue /\
    msgs.time_value paramValue = Some t.

(** The remote item the loops of [AddItemToFilter] and
    [RemoveItemFromFilter] stop at for [_name]: the first one that matches,
    when [_name] is a valid URI. *)
Definition selected (items : list string) (_name : string) : option string :=
  if URI_Valid _name then List.find (item_matches _name) items else None.

(** The body of the loop of [AddItemToFilter] at the item it stops at. *)
Definition add_reference (item : string)
    (d : IntrospectionCurveHandlerPrivate)
    : option IntrospectionCurveHandlerPrivate :=
  if bool_decide (item ∈ introspectFilter d) then
    count ← int_incr (default 0 (introspectFilterCount d !! item));
    Some (set_filter (introspectFilter d)
            (<[item := count]> (introspectFilterCount d)) d)
  else
    Some (set_filter ({[item]} ∪ introspectFilter d)
            (<[item := 1]> (introspectFilterCount d)) d).

(** The body of the loop of [RemoveItemFromFilter] at the item it stops
    at. *)
Definition release_reference (item : string)
    (d : IntrospectionCurveHandlerPrivate)
    : option IntrospectionCurveHandlerPrivate :=
  if bool_decide (item ∈ introspectFilter d) then
    count ← int_decr (default 0 (introspectFilterCount d !! item));
    if int_eq_0u count then
      Some (set_filter (introspectFilter d ∖ {[item]})
              (delete item (introspectFilterCount d)) d)
    else
      Some (set_filter (introspectFilter d)
              (<[item := count]> (introspectFilterCount d)) d)
  else Some d.

(** The stored count of an item, 0 when it has none. *)
Definition count_of (d : IntrospectionCurveHandlerPrivate) (item : string)
    : Z :=
  default 0 (introspectFilterCount d !! item).

(** The filter and the count map have the same keys, and every stored
    count is a positive [int]. *)
Definition filter_consistent (d : IntrospectionCurveHandlerPrivate) : Prop :=
  dom (introspectFilterCount d) = introspectFilter d /\
  forall item count,
    introspectFilterCount d !! item = Some count -> 1 <= count <= INT_MAX.

Definition counts_at_most (b : Z) (d : IntrospectionCurveHandlerPrivate)
    : Prop :=
  forall item, count_of d item <= b.

(** The variable names of the registry, in order. *)
Definition names (m : CurveMap.t) : list string := map fst m.

(** The number of registry entries whose name selects [item]. *)
Definition references (items : list string) (item : string)
    (m : CurveMap.t) : nat :=
  length (List.filter
            (fun _name => bool_decide (selected items _name = Some item))
            (names m)).

(** 1 when [_name] selects [item], else 0. *)
Definition selects (items : list string) (_name item : string) : Z :=
  if bool_decide (selected items _name = Some item) then 1 else 0.

(** The reference the setup holds on the sim time variable. *)
Definition setup_reference (item : string) : Z :=
  if bool_decide (item = simTimeVar) then 1 else 0.

Definition counts_track_registry (items : list string)
    (d : IntrospectionCurveHandlerPrivate) : Prop :=
  forall item,
    count_of d item =
      Z.of_nat (references items item (curves d)) + setup_reference item.

(** No variable set of the registry is empty. *)
Definition registry_nonempty (d : IntrospectionCurveHandlerPrivate) : Prop :=
  Forall (fun e : CurveMap.entry => snd e <> []) (curves d).

(** The first entry whose set holds [_curve], with the entries before and
    after it. *)
Fixpoint first_holder (_curve : PlotCurveWeakPtr) (m : CurveMap.t)
    : option (CurveMap.t * CurveMap.entry * CurveMap.t) :=
  match m with
  | [] => None
  | e :: m' =>
      if CurveVariableSet.find (snd e) _curve then Some ([], e, m')
      else
        match first_holder _curve m' with
        | Some (before, h, after) => Some (e :: before, h, after)
        | None => None
        end
  end.

End Notions.

(** ** Inputs of the examples *)

(** A value of the declared type [ty] with no field set. *)
Definition any_of_type (ty : msgs.ValueType) : msgs.Any :=
  msgs.mkAny ty None None None None None None None.

Definition any_time (t : msgs.Time) : msgs.Any :=
  msgs.mkAny msgs.TIME None None None (Some t) None None None.

Definition any_pose3d (p : Pose3d) : msgs.Any :=
  msgs.mkAny msgs.POSE3D None None None None (Some p) None None.

Definition any_vector3d (v : Vector3d) : msgs.Any :=
  msgs.mkAny msgs.VECTOR3D None None None None None (Some v) None.

Definition any_quaternion (q : Quaterniond) : msgs.Any :=
  msgs.mkAny msgs.QUATERNIOND None None None None None None (Some q).

Definition robot_position_x : string :=
  "data://robot?p=pose/world_pose/vector3/position/double/x".

Definition robot_world_pose : string := "data://robot?p=pose/world_pose".

Definition robot_orientation_roll : string :=
  "data://robot?p=pose/world_pose/vector3/orientation/double/roll".

Definition robot_height : string := "data://robot?p=height".

(** The data after a successful setup. *)
Definition after_setup : IntrospectionCurveHandlerPrivate :=
  SetupIntrospection constructed.

Definition any_double (v : float) : msgs.Any :=
  msgs.mkAny msgs.DOUBLE (Some v) None None None None None None.

(** ** The setup with its failures *)

(** What [SetupIntrospection] gets from the introspection client and the
    transport node: the manager ids of [WaitForManagers] in the iteration
    order of the [std::set], the answers of [IsRegistered], the return
    value of [NewFilter] with the filter id and topic it leaves in its
    output arguments, and the return value of [Subscribe]. *)
Record SetupEnvironment := mkSetupEnvironment {
  WaitForManagers : list string;
  IsRegistered : string -> string -> bool;
  NewFilter : string -> gset string -> bool * string * string;
  Subscribe : string -> bool
}.

(** The private data with the fields the setup writes besides the filter. *)
Record HandlerData := mkHandlerData {
  priv : IntrospectionCurveHandlerPrivate;
  managerId : string;
  introspectFilterId : string;
  introspectFilterTopic : string
}.

(** How [SetupIntrospection] ends: one constructor per [gzerr] message, and
    the subscription. *)
Inductive setup_outcome :=
| NoManagers
| EmptyManagerId
| SimTimeNotRegistered
| NewFilterFailed
| SubscribeFailed
| Subscribed.

(** [IntrospectionCurveHandler::SetupIntrospection] with its early returns;
    the filter for the sim time is written by [SetupIntrospection] above. *)
Definition SetupIntrospection_steps (env : SetupEnvironment) (h : HandlerData)
    : HandlerData * setup_outcome :=
  match WaitForManagers env with
  | [] => (h, NoManagers)
  | first :: _ =>
      let h1 :=
        mkHandlerData (priv h) first (introspectFilterId h)
          (introspectFilterTopic h) in
      if String.eqb first "" then (h1, EmptyManagerId)
      else if negb (IsRegistered env first simTimeVar) then
        (h1, SimTimeNotRegistered)
      else
        let d := SetupIntrospection (priv h) in
        let '(ok, id, topic) := NewFilter env first (introspectFilter d) in
        let h2 := mkHandlerData d first id topic in
        if negb ok then (h2, NewFilterFailed)
        else if negb (Subscribe env topic) then (h2, SubscribeFailed)
        else (h2, Subscribed)
  end.

(** The handler as constructed, before the setup. *)
Definition constructed_handler : HandlerData :=
  mkHandlerData constructed "" "" "".

(** An environment in which every step of the setup succeeds, and one in
    which [NewFilter] fails. *)
Definition env_all_good : SetupEnvironment :=
  mkSetupEnvironment ["manager1"; "manager2"]
    (fun _ item => String.eqb item simTimeVar)
    (fun _ _ => (true, "filter1", "/introspection/filter1"))
    (fun _ => true).

Definition env_no_filter : SetupEnvironment :=
  mkSetupEnvironment ["manager1"]
    (fun _ item => String.eqb item simTimeVar)
    (fun _ _ => (false, "", ""))
    (fun _ => true).

(** ** Further notions used in the statements *)

Section FurtherNotions.

Context {M : MathModel}.

(** The time a parameter gives to the batch: it is named as the sim time
    variable and its value has a time. *)
Definition sim_time_of (param : msgs.Param) : option msgs.Time :=
  if String.eqb (msgs.name param) simTimeVar then
    match msgs.value param with
    | Some paramValue => msgs.time_value paramValue
    | None => None
    end
  else None.

(** The first time a parameter of the batch gives. *)
Fixpoint first_sim_time (msg : list msgs.Param) : option msgs.Time :=
  match msg with
  | [] => None
  | param :: rest =>
      match sim_time_of param with
      | Some t => Some t
      | None => first_sim_time rest
      end
  end.

Definition batch_sim_time (msg : list msgs.Param) : float :=
  match first_sim_time msg with
  | Some t => Time_Double t
  | None => 0%float
  end.

(** A parameter the loop body skips at once. *)
Definition unnamed_or_valueless (param : msgs.Param) : Prop :=
  msgs.name param = "" \/ msgs.value param = None.

End FurtherNotions.

(** The entry holds the curve. *)
Definition holds (_curve : PlotCurveWeakPtr) (e : CurveMap.entry) : Prop :=
  In _curve (snd e).

(** The variable sets are in strictly increasing order, as the sets of a
    [std::set] are. *)
Definition sets_sorted (d : IntrospectionCurveHandlerPrivate) : Prop :=
  Forall (fun e : CurveMap.entry => StronglySorted Nat.lt (snd e)) (curves d).

(** The curve is dead at the call. *)
Definition dead_at (_curve : PlotCurveWeakPtr) (c : call) : Prop :=
  match c with
  | CallAddCurve _ live _ _ | CallRemoveCurve _ live _ => _curve ∉ live
  | _ => True
  end.

(** * Properties *)

(** ** std::string *)

Lemma find_is_0_starts_with (s needle : string) :
  StdString.find_is_0 s needle = StdString.starts_with needle s.
Proof.
  unfold StdString.find_is_0.
  destruct s as [|a s]; simpl.
  - destruct (StdString.starts_with needle ""); reflexivity.
  - destruct (StdString.starts_with needle (String a s)); [reflexivity|].
    destruct (StdString.find s needle); reflexivity.
Qed.

Lemma drop_app_length (q : string) (tl : string) :
  StdString.drop (String.length q) (q +:+ tl) = tl.
Proof. induction q as [|a q IH]; simpl; [destruct tl; reflexivity | exact IH]. Qed.

Lemma length_app_string (q tl : string) :
  String.length (q +:+ tl) = (String.length q + String.length tl)%nat.
Proof. induction q as [|a q IH]; simpl; [reflexivity | now rewrite IH]. Qed.

(** With a query that ends in the character [ch], [substr(size() - 1)] is
    that character. *)
Lemma substr_last (q : string) (ch : ascii) :
  StdString.size (q +:+ String ch "") < StdString.size_t_modulus ->
  StdString.substr (q +:+ String ch "")
    (StdString.size_minus_1 (q +:+ String ch "")) = Ok (String ch "").
Proof.
  unfold StdString.substr, StdString.size_minus_1, StdString.size.
  rewrite length_app_string. simpl String.length. intros Hlt.
  replace (Z.of_nat (String.length q + 1) - 1) with (Z.of_nat (String.length q))
    in * by lia.
  rewrite Z.mod_small by lia.
  destruct (Z.ltb_spec (Z.of_nat (String.length q + 1))
              (Z.of_nat (String.length q))) as [Hc|_]; [lia|].
  now rewrite Nat2Z.id, drop_app_length.
Qed.

Lemma substr_empty : StdString.substr "" (StdString.size_minus_1 "") = Throw out_of_range.
Proof. reflexivity. Qed.

Lemma substr_nonempty (q : string) :
  q <> "" -> exists elem, StdString.substr q (StdString.size_minus_1 q) = Ok elem.
Proof.
  intros Hq. unfold StdString.substr, StdString.size_minus_1.
  assert (Hsz : 1 <= StdString.size q).
  { destruct q; [congruence|]. unfold StdString.size. simpl String.length. lia. }
  assert (Hm : (StdString.size q - 1) mod StdString.size_t_modulus
               <= StdString.size q - 1).
  { apply Z.mod_le; [lia | reflexivity]. }
  destruct (Z.ltb_spec (StdString.size q)
              ((StdString.size q - 1) mod StdString.size_t_modulus)); [lia|].
  eauto.
Qed.

(** ** The query decoders *)

Section DecoderProperties.

Context {U : URIModel} {M : MathModel}.

Lemma Vector3dFromQuery_last (q : string) (ch : ascii) (vec : Vector3d)
    (d : float) :
  StdString.size (q +:+ String ch "") < StdString.size_t_modulus ->
  Vector3dFromQuery (q +:+ String ch "") vec d =
    Ok (if Ascii.eqb ch "x" then (true, math.X vec)
        else if Ascii.eqb ch "y" then (true, math.Y vec)
        else if Ascii.eqb ch "z" then (true, math.Z vec)
        else (false, d)).
Proof.
  intros Hlt. unfold Vector3dFromQuery.
  rewrite (substr_last q ch Hlt). simpl.
  repeat (destruct (Ascii.eqb ch _); [reflexivity|]). reflexivity.
Qed.

Lemma QuaterniondFromQuery_yaw (q : string) (quat : Quaterniond) (d : float) :
  fst (QuaterniondFromQuery q quat d) = StdString.find_not_npos q "yaw".
Proof.
  unfold QuaterniondFromQuery.
  destruct (StdString.find_not_npos q "yaw"); reflexivity.
Qed.

(** The points of one buffered update: one per live curve of the entry,
    each at the sim time and with the buffered value. *)
Lemma update_curves_point (live : gset PlotCurveWeakPtr) (t : float)
    (it : CurveMap.entry) (data : float) (c : PlotCurveWeakPtr)
    (pt : Vector2d) :
  In (c, pt) (update_curves live t (it, data)) <->
  In c (snd it) /\ c ∈ live /\ pt = math.mkVector2d t data.
Proof.
  unfold update_curves. rewrite in_flat_map. simpl. split.
  - intros (x & Hx & Hin). unfold lock in Hin.
    case_bool_decide; simpl in Hin; [|contradiction].
    destruct Hin as [Heq|[]]. inversion Heq; subst. auto.
  - intros (Hin & Hl & ->). exists c. split; [assumption|].
    unfold lock. rewrite bool_decide_true by assumption. left. reflexivity.
Qed.

Lemma update_push_back (live : gset PlotCurveWeakPtr) (l : locals)
    (it : CurveMap.entry) (data : float) :
  update live (push_back l it data) =
    (update live l ++ update_curves live (simTime l) (it, data))%list.
Proof.
  unfold update, push_back. simpl.
  rewrite flat_map_app. simpl. now rewrite app_nil_r.
Qed.

Lemma see_sim_time_updates l param paramValue :
  curvesUpdates (see_sim_time l param paramValue) = curvesUpdates l.
Proof.
  unfold see_sim_time.
  destruct (negb (hasSimTime l) && String.eqb (msgs.name param) simTimeVar);
    [|reflexivity].
  destruct (msgs.time_value paramValue); reflexivity.
Qed.

Lemma collect_param_resolved d l param paramValue it :
  msgs.name param <> "" ->
  msgs.value param = Some paramValue ->
  resolve (curves d) (msgs.name param) = Some it ->
  collect_param d l param =
    '(validData, data) ← decode paramValue (fst it);
    if negb validData then Ok (see_sim_time l param paramValue)
    else Ok (push_back (see_sim_time l param paramValue) it data).
Proof.
  intros Hn Hv Hr. unfold collect_param.
  apply String.eqb_neq in Hn. rewrite Hn, Hv, Hr. reflexivity.
Qed.

Lemma collect_cons d l param rest :
  collect d l (param :: rest) = l' ← collect_param d l param; collect d l' rest.
Proof. reflexivity. Qed.

Lemma collect_param_unresolved d l param paramValue :
  msgs.name param <> "" ->
  msgs.value param = Some paramValue ->
  resolve (curves d) (msgs.name param) = None ->
  collect_param d l param = Ok (see_sim_time l param paramValue).
Proof.
  intros Hn Hv Hr. unfold collect_param.
  apply String.eqb_neq in Hn. rewrite Hn, Hv, Hr. reflexivity.
Qed.

End DecoderProperties.

Section DecoderClaims.

Context {U : URIModel} {M : MathModel}.


(** C10. [Vector3dFromQuery] returns normally exactly on the non-empty
    query strings: on the empty one [substr(size() - 1)] is out of bounds
    and throws. The VECTOR3D case calls it for every value that carries a
    vector, the POSE3D case for every pose whose entry's query string
    holds "position", both with the query string of the registry entry;
    so a vector parameter that resolves to an entry with an empty query
    string makes the loop body throw. *)
Theorem C10_Vector3dFromQuery_needs_nonempty_query
    (q : string) (vec : Vector3d) (d : float) :
  (q = "" -> Vector3dFromQuery q vec d = Throw out_of_range) /\
  (q <> "" -> exists r, Vector3dFromQuery q vec d = Ok r) /\
  (forall paramValue curveVarName,
     msgs.type paramValue = msgs.VECTOR3D ->
     msgs.vector3d_value paramValue = Some vec ->
     decode paramValue curveVarName =
       Vector3dFromQuery (URI_Query_Str curveVarName) vec 0%float) /\
  (forall paramValue curveVarName p,
     msgs.type paramValue = msgs.POSE3D ->
     msgs.pose3d_value paramValue = Some p ->
     StdString.find_not_npos (URI_Query_Str curveVarName) "position" = true ->
     decode paramValue curveVarName =
       Vector3dFromQuery (URI_Query_Str curveVarName) (math.Pos p) 0%float) /\
  (forall h l param paramValue it,
     msgs.name param <> "" ->
     msgs.value param = Some paramValue ->
     msgs.type paramValue = msgs.VECTOR3D ->
     msgs.vector3d_value paramValue = Some vec ->
     resolve (curves h) (msgs.name param) = Some it ->
     URI_Query_Str (fst it) = "" ->
     collect_param h l param = Throw out_of_range).
Proof.
  repeat split.
  - intros ->. reflexivity.
  - intros Hq. destruct (substr_nonempty q Hq) as [elem He].
    unfold Vector3dFromQuery. rewrite He. simpl.
    repeat (destruct (String.eqb elem _); [eauto|]). eauto.
  - intros paramValue curveVarName Hty Hvec.
    unfold decode. now rewrite Hty, Hvec.
  - intros paramValue curveVarName p Hty Hp Hpos.
    unfold decode. now rewrite Hty, Hp, Hpos.
  - intros h l param paramValue it Hn Hv Hty Hvec Hr Hq.
    rewrite (collect_param_resolved h l param paramValue it Hn Hv Hr).
    unfold decode. rewrite Hty, Hvec. cbv zeta. rewrite Hq. reflexivity.
Qed.

End DecoderClaims.


(** The instance of C10 at the query strings "" and "p=velocity/z". *)
Lemma C10_witness :
  Vector3dFromQuery "" (math.mkVector3d 1 2 3) 0 = Throw out_of_range /\
  exists r,
    Vector3dFromQuery "p=velocity/z" (math.mkVector3d 1 2 3) 0 = Ok r.
Proof.
  destruct (C10_Vector3dFromQuery_needs_nonempty_query
              (U := SpecURI.model) (M := SpecMath no_rotation)
              "" (math.mkVector3d 1 2 3) 0%float) as (Hempty & _).
  destruct (C10_Vector3dFromQuery_needs_nonempty_query
              (U := SpecURI.model) (M := SpecMath no_rotation)
              "p=velocity/z" (math.mkVector3d 1 2 3) 0%float)
    as (_ & Hnonempty & _).
  split; [apply Hempty; reflexivity | apply Hnonempty; discriminate].
Defined.

(** C1. [QuaterniondFromQuery] is valid exactly when the query holds "yaw",
    and the value is then the Z angle. The entry
    "data://robot?p=pose/world_pose/vector3/orientation/double/roll" (the
    rotation query of the comment in the POSE3D case) gets no point from a
    quaternion parameter, nor from a pose parameter: the decode is invalid
    although "roll" has selected the X angle. *)
Theorem C1_roll_without_yaw_is_invalid (M : MathModel) (quat : Quaterniond)
    (pos : Vector3d) (c : PlotCurveWeakPtr) (f : gset string)
    (cnt : gmap string Z) :
  (forall q d,
     QuaterniondFromQuery q quat d =
       if StdString.find_not_npos q "yaw" then (true, math.Z (Euler quat))
       else (false, snd (QuaterniondFromQuery q quat d))) /\
  QuaterniondFromQuery
    (URI_Query_Str (URIModel := SpecURI.model) robot_orientation_roll) quat 0
    = (false, math.X (Euler quat)) /\
  OnIntrospection (U := SpecURI.model)
    (mkPrivate [(robot_orientation_roll, [c])] f cnt) {[c]}
    [msgs.mkParam robot_orientation_roll (Some (any_quaternion quat))] = Ok [] /\
  OnIntrospection (U := SpecURI.model)
    (mkPrivate [(robot_orientation_roll, [c])] f cnt) {[c]}
    [msgs.mkParam robot_world_pose
       (Some (any_pose3d (math.mkPose3d pos quat)))] = Ok [].
Proof.
  repeat split.
  - intros q d. unfold QuaterniondFromQuery.
    destruct (StdString.find_not_npos q "yaw"); reflexivity.
Qed.

(** C2. A parameter of type DOUBLE, INT32, BOOLEAN or TIME whose value
    field is absent is decoded as valid with the value 0, and its entry's
    curve gets the point (0, 0); only the POSE3D, VECTOR3D and QUATERNIOND
    cases mark an absent field as invalid. *)
Theorem C2_absent_scalar_field_yields_zero_sample (U : URIModel)
    (M : MathModel) (c : PlotCurveWeakPtr) (f : gset string)
    (cnt : gmap string Z) (ty : msgs.ValueType) :
  let d := mkPrivate [(robot_height, [c])] f cnt in
  let batch := [msgs.mkParam robot_height (Some (any_of_type ty))] in
  (ty = msgs.DOUBLE \/ ty = msgs.INT32 \/ ty = msgs.BOOLEAN \/ ty = msgs.TIME ->
   decode (any_of_type ty) robot_height = Ok (true, 0%float) /\
   OnIntrospection d {[c]} batch = Ok [(c, math.mkVector2d 0 0)]) /\
  (ty = msgs.POSE3D \/ ty = msgs.VECTOR3D \/ ty = msgs.QUATERNIOND ->
   decode (any_of_type ty) robot_height = Ok (false, 0%float) /\
   OnIntrospection d {[c]} batch = Ok []).
Proof.
  intros d batch. split.
  - intros Hty. 
    assert (Hdec : decode (any_of_type ty) robot_height = Ok (true, 0%float)).
    { destruct Hty as [->|[->|[->| ->]]]; reflexivity. }
    split; [exact Hdec|].
    unfold OnIntrospection, batch. simpl collect.
    rewrite (collect_param_resolved d locals_init _ (any_of_type ty)
               (robot_height, [c])); [|discriminate|reflexivity|reflexivity].
    simpl fst. rewrite Hdec. simpl.
    rewrite update_push_back. unfold update_curves, lock. simpl.
    rewrite bool_decide_true by set_solver. reflexivity.
  - intros Hty.
    assert (Hdec : decode (any_of_type ty) robot_height = Ok (false, 0%float)).
    { destruct Hty as [->|[->| ->]]; reflexivity. }
    split; [exact Hdec|].
    unfold OnIntrospection, batch. simpl collect.
    rewrite (collect_param_resolved d locals_init _ (any_of_type ty)
               (robot_height, [c])); [|discriminate|reflexivity|reflexivity].
    simpl fst. rewrite Hdec. reflexivity.
Qed.

(** The instance of C2 at the type DOUBLE. *)
Lemma C2_witness :
  OnIntrospection (U := SpecURI.model) (M := SpecMath no_rotation)
    (mkPrivate [(robot_height, [7%nat])] ∅ ∅) {[7%nat]}
    [msgs.mkParam robot_height (Some (any_of_type msgs.DOUBLE))]
  = Ok [(7%nat, math.mkVector2d 0 0)].
Proof.
  apply (C2_absent_scalar_field_yields_zero_sample SpecURI.model
           (SpecMath no_rotation) 7%nat ∅ ∅ msgs.DOUBLE).
  left. reflexivity.
Defined.

(** C8. The registry holds the entry
    "data://robot?p=pose/world_pose/vector3/position/double/x" with the
    single live curve [C]. A batch with the sim time parameter at time 5.0
    and then a pose parameter named "data://robot?p=pose/world_pose" with
    position (1, 2, 3) makes exactly one call of [AddPoint]: the point
    (5.0, 1.0) on [C]. The query string of the entry is the one its URI
    gives: it holds "position" and ends in x. *)
Theorem C8_pose_position_x_example (U : URIModel) (M : MathModel)
    (C : PlotCurveWeakPtr) (f : gset string) (cnt : gmap string Z)
    (t : msgs.Time) (rot : Quaterniond) (q : string) :
  Time_Double t = 5%float ->
  URI_Query_Str robot_position_x = q +:+ "x" ->
  StdString.find_not_npos (URI_Query_Str robot_position_x) "position" = true ->
  StdString.size (URI_Query_Str robot_position_x) < StdString.size_t_modulus ->
  OnIntrospection (mkPrivate [(robot_position_x, [C])] f cnt) {[C]}
    [msgs.mkParam simTimeVar (Some (any_time t));
     msgs.mkParam robot_world_pose
       (Some (any_pose3d (math.mkPose3d (math.mkVector3d 1 2 3) rot)))]
  = Ok [(C, math.mkVector2d 5 1)].
Proof.
  intros Ht Hq Hpos Hlt.
  unfold OnIntrospection. rewrite collect_cons.
  rewrite (collect_param_unresolved _ locals_init _ (any_time t));
    [|discriminate|reflexivity|reflexivity].
  change (Ok ?a ≫= ?k) with (k a). cbv beta. rewrite collect_cons.
  rewrite (collect_param_resolved _ _ _
             (any_pose3d (math.mkPose3d (math.mkVector3d 1 2 3) rot))
             (robot_position_x, [C])); [|discriminate|reflexivity|reflexivity].
  unfold decode. simpl msgs.type. simpl msgs.pose3d_value. cbv zeta iota beta.
  simpl fst. rewrite Hpos. rewrite Hq in Hlt |- *.
  rewrite (Vector3dFromQuery_last q "x" _ _ Hlt). simpl.
  rewrite update_push_back. unfold update_curves, lock, see_sim_time. simpl.
  rewrite bool_decide_true by set_solver. rewrite Ht. reflexivity.
Qed.

(** The instance of C8 with the URI and time models of the spec, the curve
    7 and the sim time of 5 s and 0 ns. *)
Lemma C8_witness :
  OnIntrospection (U := SpecURI.model) (M := SpecMath no_rotation)
    (mkPrivate [(robot_position_x, [7%nat])] ∅ ∅) {[7%nat]}
    [msgs.mkParam simTimeVar (Some (any_time (msgs.mkTime 5 0)));
     msgs.mkParam robot_world_pose
       (Some (any_pose3d (math.mkPose3d (math.mkVector3d 1 2 3)
                            (math.mkQuaterniond 1 0 0 0))))]
  = Ok [(7%nat, math.mkVector2d 5 1)].
Proof.
  apply (C8_pose_position_x_example SpecURI.model (SpecMath no_rotation)
           7%nat ∅ ∅ (msgs.mkTime 5 0) (math.mkQuaterniond 1 0 0 0)
           "p=pose/world_pose/vector3/position/double/").
  - vm_compute. reflexivity.
  - reflexivity.
  - reflexivity.
  - vm_compute. reflexivity.
Defined.

(** ** Batches *)

Section BatchProperties.

Context {U : URIModel} {M : MathModel}.

Lemma update_curves_length live t it data :
  length (update_curves live t (it, data)) = length (live_curves live (snd it)).
Proof.
  unfold update_curves, live_curves. simpl.
  induction (snd it) as [|c s IH]; simpl; [reflexivity|].
  destruct (lock live c); simpl; now rewrite IH.
Qed.

Lemma update_curves_time live t it data :
  Forall (fun call : AddPoint_call => math.X2 (snd call) = t)
    (update_curves live t (it, data)).
Proof.
  apply List.Forall_forall. intros [c pt] Hin.
  apply update_curves_point in Hin. destruct Hin as (_ & _ & ->). reflexivity.
Qed.

(** Once the sim time is known, a run of parameters that are each valid
    for one live curve buffers one update per parameter and leaves the
    sim time alone; each update yields one point. *)
Lemma collect_valid_params d live ps : forall l,
  hasSimTime l = true ->
  Forall (valid_for_one_live_curve d live) ps ->
  exists ups,
    collect d l ps = Ok (mkLocals (simTime l) true (curvesUpdates l ++ ups)) /\
    length ups = length ps /\
    length (flat_map (update_curves live (simTime l)) ups) = length ps.
Proof.
  induction ps as [|p ps IH]; intros l Hl Hall.
  - exists []. simpl. rewrite app_nil_r. destruct l; simpl in *. subst. auto.
  - apply List.Forall_cons_iff in Hall. destruct Hall as [Hp Hall].
    destruct Hp as (paramValue & it & data & Hn & Hv & Hr & Hd & Hone).
    rewrite collect_cons.
    rewrite (collect_param_resolved d l p paramValue it Hn Hv Hr).
    rewrite Hd. simpl.
    assert (Hsee : see_sim_time l p paramValue = l).
    { unfold see_sim_time. now rewrite Hl. }
    rewrite Hsee.
    destruct (IH (push_back l it data) Hl Hall) as (ups & Hc & Hlen & Hpts).
    exists ((it, data) :: ups). simpl in Hc |- *. rewrite Hc.
    rewrite <- app_assoc. simpl. split; [reflexivity|].
    split; [now rewrite Hlen|].
    rewrite length_app, update_curves_length, Hone. simpl in Hpts.
    now rewrite Hpts.
Qed.

Lemma update_time live l :
  Forall (fun call : AddPoint_call => math.X2 (snd call) = simTime l)
    (update live l).
Proof.
  unfold update. induction (curvesUpdates l) as [|[it data] ups IH]; simpl.
  - constructor.
  - apply List.Forall_app. split; [apply update_curves_time | exact IH].
Qed.

(** C3 (amended). A batch of one sim time parameter, which itself resolves
    to no registry entry, followed by N parameters that each decode
    validly and resolve to an entry holding exactly one live curve: the
    first loop runs over all N+1 parameters and buffers N updates without
    a call of [AddPoint]; the second loop then makes exactly N calls, each
    with the decoded sim time as the point's time. *)
Theorem C3_batch_of_N_valid_parameters
    (d : IntrospectionCurveHandlerPrivate) (live : gset PlotCurveWeakPtr)
    (p0 : msgs.Param) (t : msgs.Time) (ps : list msgs.Param) :
  sim_time_param p0 t ->
  resolve (curves d) simTimeVar = None ->
  Forall (valid_for_one_live_curve d live) ps ->
  exists l,
    collect d locals_init (p0 :: ps) = Ok l /\
    simTime l = Time_Double t /\
    length (curvesUpdates l) = length ps /\
    OnIntrospection d live (p0 :: ps) = Ok (update live l) /\
    length (update live l) = length ps /\
    Forall (fun call : AddPoint_call => math.X2 (snd call) = Time_Double t)
      (update live l).
Proof.
  intros (Hname & paramValue & Hv & Ht) Hres Hall.
  assert (Hp0 : collect_param d locals_init p0 =
                Ok (mkLocals (Time_Double t) true [])).
  { rewrite (collect_param_unresolved d locals_init p0 paramValue);
      [| rewrite Hname; discriminate | exact Hv | now rewrite Hname].
    unfold see_sim_time. rewrite Hname, Ht. reflexivity. }
  destruct (collect_valid_params d live ps (mkLocals (Time_Double t) true [])
              eq_refl Hall) as (ups & Hc & Hlen & Hpts).
  simpl in Hc, Hpts.
  exists (mkLocals (Time_Double t) true ups).
  assert (Hcol : collect d locals_init (p0 :: ps) =
                 Ok (mkLocals (Time_Double t) true ups)).
  { rewrite collect_cons, Hp0. exact Hc. }
  split; [exact Hcol|]. split; [reflexivity|]. split; [exact Hlen|].
  split; [unfold OnIntrospection; now rewrite Hcol|].
  split; [exact Hpts|].
  apply (update_time live (mkLocals (Time_Double t) true ups)).
Qed.

End BatchProperties.

(** The instance of C3 with the entry "data://robot?p=height" holding the
    live curve 8, the sim time 5 s and one DOUBLE parameter 2.5. *)
Lemma C3_witness :
  exists l,
    collect (U := SpecURI.model) (M := SpecMath no_rotation)
      (mkPrivate [(robot_height, [8%nat])] ∅ ∅) locals_init
      [msgs.mkParam simTimeVar (Some (any_time (msgs.mkTime 5 0)));
       msgs.mkParam robot_height (Some (any_double 2.5))] = Ok l /\
    simTime l = SpecTime_Double (msgs.mkTime 5 0) /\
    length (curvesUpdates l) = 1%nat /\
    OnIntrospection (U := SpecURI.model) (M := SpecMath no_rotation)
      (mkPrivate [(robot_height, [8%nat])] ∅ ∅) {[8%nat]}
      [msgs.mkParam simTimeVar (Some (any_time (msgs.mkTime 5 0)));
       msgs.mkParam robot_height (Some (any_double 2.5))]
    = Ok (update {[8%nat]} l) /\
    length (update {[8%nat]} l) = 1%nat /\
    Forall (fun call : AddPoint_call =>
              math.X2 (snd call) = SpecTime_Double (msgs.mkTime 5 0))
      (update {[8%nat]} l).
Proof.
  apply (C3_batch_of_N_valid_parameters (U := SpecURI.model)
           (M := SpecMath no_rotation)
           (mkPrivate [(robot_height, [8%nat])] ∅ ∅) {[8%nat]}
           (msgs.mkParam simTimeVar (Some (any_time (msgs.mkTime 5 0))))
           (msgs.mkTime 5 0)
           [msgs.mkParam robot_height (Some (any_double 2.5))]).
  - split; [reflexivity|]. exists (any_time (msgs.mkTime 5 0)).
    split; reflexivity.
  - reflexivity.
  - constructor; [|constructor].
    exists (any_double 2.5), (robot_height, [8%nat]), 2.5%float.
    split; [discriminate|]. repeat split; vm_compute; reflexivity.
Defined.

(** C3 as stated fails when the sim time variable is itself plotted: with
    the entries "data://robot?p=height" (live curve 8) and
    "data://world/default?p=sim_time" (live curve 7), the sim time parameter
    followed by N = 1 valid parameter yields two points, the first one from
    the sim time parameter itself. *)
Lemma C3_counterexample :
  let d := mkPrivate [(robot_height, [8%nat]); (simTimeVar, [7%nat])] ∅ ∅ in
  let live : gset PlotCurveWeakPtr := {[7%nat; 8%nat]} in
  let p0 := msgs.mkParam simTimeVar (Some (any_time (msgs.mkTime 5 0))) in
  let ps := [msgs.mkParam robot_height (Some (any_double 2.5))] in
  sim_time_param p0 (msgs.mkTime 5 0) /\
  Forall (valid_for_one_live_curve (U := SpecURI.model)
            (M := SpecMath no_rotation) d live) ps /\
  OnIntrospection (U := SpecURI.model) (M := SpecMath no_rotation) d live
    (p0 :: ps)
  = Ok [(7%nat, math.mkVector2d 5 5); (8%nat, math.mkVector2d 5 2.5)] /\
  length [(7%nat, math.mkVector2d 5 5); (8%nat, math.mkVector2d 5 2.5)]
    <> length ps.
Proof.
  cbv zeta. split; [|split; [|split]].
  - split; [reflexivity|]. exists (any_time (msgs.mkTime 5 0)).
    split; reflexivity.
  - constructor; [|constructor].
    exists (any_double 2.5), (robot_height, [8%nat]), 2.5%float.
    split; [discriminate|]. repeat split; vm_compute; reflexivity.
  - vm_compute. reflexivity.
  - simpl. discriminate.
Qed.

(** ** The filter *)

Section FilterProperties.

Context {U : URIModel}.

Lemma starts_with_prefix (needle s : string) :
  StdString.starts_with needle s = true <-> exists rest, s = needle +:+ rest.
Proof.
  revert s. induction needle as [|a needle IH]; intros s; simpl.
  - split; [intros _; exists s; reflexivity | reflexivity].
  - destruct s as [|b s].
    + split; [discriminate | intros [rest Hr]; discriminate].
    + rewrite andb_true_iff, Ascii.eqb_eq, IH. split.
      * intros [-> [rest ->]]. exists rest. reflexivity.
      * intros [rest Hr]. inversion Hr. eauto.
Qed.

Lemma AddItemToFilter_loop_find _name items d :
  AddItemToFilter_loop _name items d =
    match List.find (item_matches _name) items with
    | Some item => add_reference item d
    | None => Some d
    end.
Proof.
  induction items as [|item rest IH]; simpl; [reflexivity|].
  unfold item_matches at 1.
  destruct (bool_decide (URI_Path _name = URI_Path item)); simpl; [|exact IH].
  destruct (StdString.find_is_0 (URI_Query_Str _name) (URI_Query_Str item));
    [reflexivity | exact IH].
Qed.

Lemma RemoveItemFromFilter_loop_find _name items d :
  RemoveItemFromFilter_loop _name items d =
    match List.find (item_matches _name) items with
    | Some item => release_reference item d
    | None => Some d
    end.
Proof.
  induction items as [|item rest IH]; simpl; [reflexivity|].
  unfold item_matches at 1.
  destruct (bool_decide (URI_Path _name = URI_Path item)); simpl; [|exact IH].
  destruct (StdString.find_is_0 (URI_Query_Str _name) (URI_Query_Str item));
    [reflexivity | exact IH].
Qed.

Lemma AddItemToFilter_selected items _name d :
  AddItemToFilter items _name d =
    match selected items _name with
    | Some item => add_reference item d
    | None => Some d
    end.
Proof.
  unfold AddItemToFilter, selected.
  destruct (URI_Valid _name); simpl; [apply AddItemToFilter_loop_find | reflexivity].
Qed.

Lemma RemoveItemFromFilter_selected items _name d :
  RemoveItemFromFilter items _name d =
    match selected items _name with
    | Some item => release_reference item d
    | None => Some d
    end.
Proof.
  unfold RemoveItemFromFilter, selected.
  destruct (URI_Valid _name); simpl;
    [apply RemoveItemFromFilter_loop_find | reflexivity].
Qed.

(** The selected item is one of the remote items, has the path of the
    name, and its query string is a prefix of the name's. *)
Lemma selected_matches items _name item :
  selected items _name = Some item ->
  URI_Valid _name = true /\ In item items /\
  URI_Path _name = URI_Path item /\
  exists rest, URI_Query_Str _name = URI_Query_Str item +:+ rest.
Proof.
  unfold selected. destruct (URI_Valid _name); [|discriminate].
  intros Hf. apply List.find_some in Hf. destruct Hf as [Hin Hm].
  unfold item_matches in Hm. apply andb_true_iff in Hm.
  destruct Hm as [Hp Hq]. apply bool_decide_eq_true in Hp.
  rewrite find_is_0_starts_with in Hq. apply starts_with_prefix in Hq.
  auto.
Qed.

Lemma int_eq_0u_spec count :
  -1 <= count <= INT_MAX -> int_eq_0u count = true <-> count = 0.
Proof.
  unfold int_eq_0u, INT_MAX. intros Hr. rewrite Z.eqb_eq. split.
  - intros Hm. destruct (Z.eq_dec count (-1)) as [->|Hne]; [discriminate|].
    rewrite Z.mod_small in Hm by lia. exact Hm.
  - intros ->. reflexivity.
Qed.

(** *** What a reference does to the counts *)

Lemma add_reference_spec item d d' :
  filter_consistent d ->
  add_reference item d = Some d' ->
  curves d' = curves d /\
  filter_consistent d' /\
  count_of d item < INT_MAX /\
  forall i, count_of d' i = count_of d i + (if bool_decide (i = item) then 1 else 0).
Proof.
  intros [Hdom Hpos] Hadd. unfold add_reference in Hadd.
  case_bool_decide as Hin.
  - unfold int_incr in Hadd. fold (count_of d item) in Hadd.
    assert (Hc : introspectFilterCount d !! item = Some (count_of d item)).
    { rewrite <- Hdom in Hin. apply elem_of_dom in Hin.
      destruct Hin as [v Hv]. unfold count_of. now rewrite Hv. }
    destruct (Z.ltb_spec (count_of d item) INT_MAX) as [Hlt|]; [|discriminate].
    simpl in Hadd. inversion Hadd; subst d'; clear Hadd.
    pose proof (Hpos _ _ Hc) as Hr.
    split; [reflexivity|]. split; [|split; [exact Hlt|]].
    + split; simpl.
      * rewrite dom_insert_L, Hdom. set_solver.
      * intros i c. rewrite lookup_insert. case_decide.
        -- intros [= <-]. lia.
        -- apply Hpos.
    + intros i. unfold count_of at 1. simpl.
      destruct (decide (i = item)) as [->|Hne].
      * rewrite lookup_insert_eq, bool_decide_true by reflexivity.
        reflexivity.
      * rewrite lookup_insert_ne, bool_decide_false by congruence.
        unfold count_of. lia.
  - inversion Hadd; subst d'; clear Hadd.
    assert (Hc : introspectFilterCount d !! item = None).
    { apply not_elem_of_dom. now rewrite Hdom. }
    assert (H0 : count_of d item = 0) by (unfold count_of; now rewrite Hc).
    split; [reflexivity|]. split; [|split; [rewrite H0; reflexivity|]].
    + split; simpl.
      * rewrite dom_insert_L, Hdom. reflexivity.
      * intros i c. rewrite lookup_insert. case_decide.
        -- intros [= <-]. unfold INT_MAX. lia.
        -- apply Hpos.
    + intros i. unfold count_of at 1. simpl.
      destruct (decide (i = item)) as [->|Hne].
      * rewrite lookup_insert_eq, bool_decide_true by reflexivity.
        rewrite H0. reflexivity.
      * rewrite lookup_insert_ne, bool_decide_false by congruence.
        unfold count_of. lia.
Qed.

Lemma add_reference_defined item d :
  count_of d item < INT_MAX -> is_Some (add_reference item d).
Proof.
  intros Hlt. unfold add_reference. case_bool_decide; [|eauto].
  unfold int_incr. fold (count_of d item).
  destruct (Z.ltb_spec (count_of d item) INT_MAX); [simpl; eauto | lia].
Qed.

Lemma release_reference_spec item d :
  filter_consistent d ->
  exists d',
    release_reference item d = Some d' /\
    curves d' = curves d /\
    filter_consistent d' /\
    (forall i, i <> item -> count_of d' i = count_of d i) /\
    count_of d' item = Z.max 0 (count_of d item - 1) /\
    (count_of d item = 1 ->
     (item ∉ introspectFilter d') /\ introspectFilterCount d' !! item = None).
Proof.
  intros [Hdom Hpos]. unfold release_reference.
  case_bool_decide as Hin.
  - assert (Hc : introspectFilterCount d !! item = Some (count_of d item)).
    { rewrite <- Hdom in Hin. apply elem_of_dom in Hin.
      destruct Hin as [v Hv]. unfold count_of. now rewrite Hv. }
    pose proof (Hpos _ _ Hc) as Hr.
    unfold int_decr. fold (count_of d item).
    destruct (Z.ltb_spec INT_MIN (count_of d item)) as [_|Hle];
      [|unfold INT_MIN in Hle; lia].
    simpl.
    assert (H0 : int_eq_0u (count_of d item - 1) = true <->
                 count_of d item - 1 = 0) by (apply int_eq_0u_spec; lia).
    destruct (int_eq_0u (count_of d item - 1)) eqn:Hz.
    + assert (Hone : count_of d item = 1) by (apply proj1 in H0; lia).
      eexists. split; [reflexivity|]. split; [reflexivity|].
      split; [|split; [|split]].
      * split; simpl.
        -- rewrite dom_delete_L, Hdom. reflexivity.
        -- intros i c. rewrite lookup_delete. case_decide; [discriminate|].
           apply Hpos.
      * intros i Hne. unfold count_of. simpl.
        now rewrite lookup_delete_ne by congruence.
      * unfold count_of at 1. simpl. rewrite lookup_delete_eq. simpl. lia.
      * intros _. simpl. split; [set_solver | apply lookup_delete_eq].
    + assert (Hne0 : count_of d item - 1 <> 0).
      { intros Heq. apply H0 in Heq. discriminate. }
      eexists. split; [reflexivity|]. split; [reflexivity|].
      split; [|split; [|split]].
      * split; simpl.
        -- rewrite dom_insert_L, Hdom. set_solver.
        -- intros i c. rewrite lookup_insert. case_decide.
           ++ intros [= <-]. lia.
           ++ apply Hpos.
      * intros i Hne. unfold count_of. simpl.
        now rewrite lookup_insert_ne by congruence.
      * unfold count_of at 1. simpl. rewrite lookup_insert_eq. simpl. lia.
      * intros Hone. lia.
  - assert (Hc : introspectFilterCount d !! item = None).
    { apply not_elem_of_dom. now rewrite Hdom. }
    assert (H0 : count_of d item = 0) by (unfold count_of; now rewrite Hc).
    exists d. split; [reflexivity|]. split; [reflexivity|].
    split; [split; assumption|]. split; [reflexivity|].
    split; [rewrite H0; reflexivity|]. intros Hone. lia.
Qed.

End FilterProperties.

(** ** The registry *)

Section RegistryProperties.

Context {U : URIModel}.

Lemma first_holder_Some _curve m before h after :
  first_holder _curve m = Some (before, h, after) ->
  m = (before ++ h :: after)%list /\
  CurveVariableSet.find (snd h) _curve = true /\
  Forall (fun e : CurveMap.entry => CurveVariableSet.find (snd e) _curve = false)
    before.
Proof.
  revert before. induction m as [|e m IH]; intros before; simpl; [discriminate|].
  destruct (CurveVariableSet.find (snd e) _curve) eqn:He.
  - intros [= <- <- <-]. auto.
  - destruct (first_holder _curve m) as [[[b h'] a]|]; [|discriminate].
    intros [= <- <- <-]. destruct (IH b eq_refl) as (-> & Hh & Hb).
    repeat split; [assumption|]. constructor; assumption.
Qed.

Lemma first_holder_None _curve m :
  first_holder _curve m = None <->
  Forall (fun e : CurveMap.entry => CurveVariableSet.find (snd e) _curve = false) m.
Proof.
  induction m as [|e m IH]; simpl.
  - split; [constructor | reflexivity].
  - destruct (CurveVariableSet.find (snd e) _curve) eqn:He.
    + split; [discriminate|]. intros Hall. inversion Hall; congruence.
    + destruct (first_holder _curve m) as [[[b h'] a]|].
      * split; [discriminate|]. intros Hall. inversion Hall; subst.
        apply IH in H2. discriminate.
      * split; [|reflexivity]. intros _. constructor; [assumption|].
        now apply IH.
Qed.

(** The loop of [RemoveCurve] acts on the first entry that holds the
    curve. *)
Lemma RemoveCurve_loop_first_holder items _curve d m :
  RemoveCurve_loop items _curve d m =
    match first_holder _curve m with
    | None => Some (d, m)
    | Some (before, (k, s), after) =>
        let s' := CurveVariableSet.erase _curve s in
        if CurveVariableSet.empty s' then
          d' ← RemoveItemFromFilter items k d;
          Some (d', (before ++ after)%list)
        else Some (d, (before ++ (k, s') :: after)%list)
    end.
Proof.
  induction m as [|[k s] m IH]; simpl; [reflexivity|].
  destruct (CurveVariableSet.find s _curve); [reflexivity|].
  rewrite IH. destruct (first_holder _curve m) as [[[b [k' s']] a]|];
    [|reflexivity].
  simpl. destruct (CurveVariableSet.empty (CurveVariableSet.erase _curve s'));
    [|reflexivity].
  destruct (RemoveItemFromFilter items k' d); reflexivity.
Qed.

Lemma set_curves_same d : set_curves (curves d) d = d.
Proof. destruct d; reflexivity. Qed.

Lemma empty_false_nonempty (s : CurveVariableSet.t) :
  CurveVariableSet.empty s = false <-> s <> [].
Proof. destruct s; simpl; split; congruence. Qed.

Lemma insert_nonempty c (s : CurveVariableSet.t) :
  CurveVariableSet.insert c s <> [].
Proof.
  destruct s as [|x s]; simpl; [discriminate|].
  destruct (Nat.ltb c x); [discriminate|].
  destruct (Nat.eqb c x); discriminate.
Qed.

Lemma assign_Forall (P : CurveMap.entry -> Prop) k v m :
  P (k, v) -> Forall P m -> Forall P (CurveMap.assign k v m).
Proof.
  intros Hk. induction m as [|[k' v'] m IH]; simpl; intros Hall.
  - constructor; [assumption | constructor].
  - inversion Hall; subst.
    destruct (String.compare k k'); constructor; auto.
Qed.

Lemma modify_Forall (P : CurveMap.entry -> Prop) k f m :
  (forall k' v, P (k', f v)) -> Forall P m -> Forall P (CurveMap.modify k f m).
Proof.
  intros Hf. induction m as [|[k' v'] m IH]; simpl; intros Hall;
    [constructor|].
  inversion Hall; subst.
  destruct (String.eqb k' k); constructor; auto.
Qed.

Lemma names_modify k f m : names (CurveMap.modify k f m) = names m.
Proof.
  unfold names. induction m as [|[k' v'] m IH]; simpl; [reflexivity|].
  destruct (String.eqb k' k); simpl; [reflexivity | now rewrite IH].
Qed.

Lemma find_None_head k k' v (m : CurveMap.t) :
  CurveMap.find ((k', v) :: m) k = None ->
  k <> k' /\ CurveMap.find m k = None.
Proof.
  unfold CurveMap.find. simpl. destruct (String.eqb_spec k' k); [discriminate|].
  intros Hf. split; [congruence | exact Hf].
Qed.

(** Assigning to a name the registry does not hold adds one name. *)
Lemma filter_names_assign (P : string -> bool) k v m :
  CurveMap.find m k = None ->
  length (List.filter P (names (CurveMap.assign k v m))) =
    (length (List.filter P (names m)) + if P k then 1 else 0)%nat.
Proof.
  unfold names. induction m as [|[k' v'] m IH]; simpl; intros Hf.
  - destruct (P k); reflexivity.
  - apply find_None_head in Hf. destruct Hf as [Hne Hf].
    destruct (String.compare k k') eqn:Hcmp.
    + apply String.compare_eq_iff in Hcmp. contradiction.
    + simpl. destruct (P k), (P k'); simpl; lia.
    + simpl. specialize (IH Hf). destruct (P k'); simpl; rewrite IH; lia.
Qed.

Lemma length_assign k v m :
  CurveMap.find m k = None ->
  length (CurveMap.assign k v m) = S (length m).
Proof.
  induction m as [|[k' v'] m IH]; simpl; intros Hf; [reflexivity|].
  apply find_None_head in Hf. destruct Hf as [Hne Hf].
  destruct (String.compare k k') eqn:Hcmp; simpl.
  - apply String.compare_eq_iff in Hcmp. contradiction.
  - reflexivity.
  - now rewrite (IH Hf).
Qed.

Lemma length_modify k f m : length (CurveMap.modify k f m) = length m.
Proof.
  induction m as [|[k' v'] m IH]; simpl; [reflexivity|].
  destruct (String.eqb k' k); simpl; [reflexivity | now rewrite IH].
Qed.

End RegistryProperties.

(** ** How the operations change the data *)

Section Steps.

Context {U : URIModel}.

Lemma add_reference_curves item d d' :
  add_reference item d = Some d' -> curves d' = curves d.
Proof.
  unfold add_reference. case_bool_decide.
  - destruct (int_incr _); simpl; [|discriminate]. now intros [= <-].
  - now intros [= <-].
Qed.

Lemma release_reference_curves item d d' :
  release_reference item d = Some d' -> curves d' = curves d.
Proof.
  unfold release_reference. case_bool_decide.
  - destruct (int_decr _) as [count|]; simpl; [|discriminate].
    destruct (int_eq_0u count); now intros [= <-].
  - now intros [= <-].
Qed.

Lemma AddItemToFilter_curves items _name d d' :
  AddItemToFilter items _name d = Some d' -> curves d' = curves d.
Proof.
  rewrite AddItemToFilter_selected.
  destruct (selected items _name); [apply add_reference_curves|].
  now intros [= <-].
Qed.

Lemma RemoveItemFromFilter_curves items _name d d' :
  RemoveItemFromFilter items _name d = Some d' -> curves d' = curves d.
Proof.
  rewrite RemoveItemFromFilter_selected.
  destruct (selected items _name); [apply release_reference_curves|].
  now intros [= <-].
Qed.

Lemma selects_Some items _name item i :
  selected items _name = Some item ->
  selects items _name i = if bool_decide (i = item) then 1 else 0.
Proof.
  intros Hs. unfold selects. rewrite Hs.
  destruct (decide (i = item)) as [->|Hne].
  - now rewrite !bool_decide_true.
  - rewrite !bool_decide_false; [reflexivity | assumption | congruence].
Qed.

Lemma selects_None items _name i :
  selected items _name = None -> selects items _name i = 0.
Proof. intros Hs. unfold selects. rewrite Hs. reflexivity. Qed.

Lemma selects_range items _name i : 0 <= selects items _name i <= 1.
Proof. unfold selects. case_bool_decide; lia. Qed.

Lemma AddItemToFilter_spec items _name d d' :
  filter_consistent d ->
  AddItemToFilter items _name d = Some d' ->
  curves d' = curves d /\
  filter_consistent d' /\
  forall i, count_of d' i = count_of d i + selects items _name i.
Proof.
  intros Hc. rewrite AddItemToFilter_selected.
  destruct (selected items _name) as [item|] eqn:Hs.
  - intros Hadd.
    destruct (add_reference_spec item d d' Hc Hadd) as (Hcu & Hc' & _ & Hn).
    split; [assumption|]. split; [assumption|].
    intros i. rewrite (selects_Some _ _ _ i Hs). apply Hn.
  - intros [= <-]. split; [reflexivity|]. split; [assumption|].
    intros i. rewrite (selects_None _ _ i Hs). lia.
Qed.

Lemma AddItemToFilter_defined items _name d b :
  counts_at_most b d -> b < INT_MAX ->
  is_Some (AddItemToFilter items _name d).
Proof.
  intros Hb Hlt. rewrite AddItemToFilter_selected.
  destruct (selected items _name) as [item|]; [|eauto].
  apply add_reference_defined. specialize (Hb item). lia.
Qed.

Lemma RemoveItemFromFilter_spec items _name d :
  filter_consistent d ->
  exists d',
    RemoveItemFromFilter items _name d = Some d' /\
    curves d' = curves d /\
    filter_consistent d' /\
    forall i,
      count_of d' i =
        if bool_decide (selected items _name = Some i)
        then Z.max 0 (count_of d i - 1) else count_of d i.
Proof.
  intros Hc. rewrite RemoveItemFromFilter_selected.
  destruct (selected items _name) as [item|] eqn:Hs.
  - destruct (release_reference_spec item d Hc)
      as (d' & Hr & Hcu & Hc' & Hother & Hitem & _).
    exists d'. split; [assumption|]. split; [assumption|].
    split; [assumption|].
    intros i. destruct (decide (i = item)) as [->|Hne].
    + now rewrite bool_decide_true.
    + rewrite bool_decide_false by congruence. now apply Hother.
  - exists d. split; [reflexivity|]. split; [reflexivity|].
    split; [assumption|]. intros i.
    now rewrite bool_decide_false.
Qed.

(** [AddCurve] either creates an entry and calls [AddItemToFilter] once,
    or keeps the names and the filter as they are. *)
Lemma AddCurve_cases items live _name _curve d d' :
  AddCurve items live _name _curve d = Some d' ->
  (CurveMap.find (curves d) _name = None /\ _curve ∈ live /\
   AddItemToFilter items _name
     (set_curves (CurveMap.assign _name [_curve] (curves d)) d) = Some d')
  \/
  (names (curves d') = names (curves d) /\
   length (curves d') = length (curves d) /\
   introspectFilter d' = introspectFilter d /\
   introspectFilterCount d' = introspectFilterCount d /\
   (registry_nonempty d -> registry_nonempty d')).
Proof.
  unfold AddCurve, lock. case_bool_decide as Hlive; simpl.
  - destruct (CurveMap.find (curves d) _name) as [it|] eqn:Hf.
    + destruct (CurveVariableSet.find (snd it) _curve).
      * intros [= <-]. right. auto.
      * intros [= <-]. right. simpl.
        rewrite names_modify, length_modify. repeat split.
        unfold registry_nonempty. simpl. apply modify_Forall.
        intros k' v. apply insert_nonempty.
    + intros Hadd. left. auto.
  - intros [= <-]. right. auto.
Qed.

(** [RemoveCurve] either deletes the first entry that holds the curve,
    when the curve was its last, and calls [RemoveItemFromFilter] once
    with that entry's name, or keeps the names and the filter as they
    are. *)
Lemma RemoveCurve_cases items live _curve d d' :
  RemoveCurve items live _curve d = Some d' ->
  (exists before k s after d'',
     first_holder _curve (curves d) = Some (before, (k, s), after) /\
     _curve ∈ live /\
     CurveVariableSet.erase _curve s = [] /\
     RemoveItemFromFilter items k d = Some d'' /\
     d' = set_curves (before ++ after)%list d'')
  \/
  (names (curves d') = names (curves d) /\
   length (curves d') = length (curves d) /\
   introspectFilter d' = introspectFilter d /\
   introspectFilterCount d' = introspectFilterCount d /\
   (registry_nonempty d -> registry_nonempty d')).
Proof.
  unfold RemoveCurve, lock. case_bool_decide as Hlive; simpl.
  - rewrite RemoveCurve_loop_first_holder.
    destruct (first_holder _curve (curves d)) as [[[before [k s]] after]|] eqn:Hh.
    + cbv zeta.
      destruct (CurveVariableSet.empty (CurveVariableSet.erase _curve s)) eqn:He.
      * destruct (RemoveItemFromFilter items k d) as [d''|] eqn:Hr; simpl;
          [|discriminate].
        intros [= <-]. left. exists before, k, s, after, d''.
        repeat split; try assumption.
        destruct (CurveVariableSet.erase _curve s); [reflexivity|discriminate].
      * simpl. intros [= <-]. right. simpl.
        apply first_holder_Some in Hh. destruct Hh as (Hm & _ & _).
        rewrite Hm. unfold names. rewrite !map_app, !length_app. simpl.
        repeat split.
        unfold registry_nonempty. simpl. rewrite Hm.
        rewrite !List.Forall_app. intros [Hb Ha]. split; [assumption|].
        inversion Ha; subst. constructor; [|assumption].
        simpl. now apply empty_false_nonempty.
    + simpl. intros [= <-]. right. rewrite set_curves_same. auto.
  - intros [= <-]. right. auto.
Qed.

End Steps.

(** ** Invariants of the handler's data *)

Section Invariants.

Context {U : URIModel}.

Lemma count_of_nonneg d item : filter_consistent d -> 0 <= count_of d item.
Proof.
  intros [_ Hpos]. unfold count_of.
  destruct (introspectFilterCount d !! item) as [c|] eqn:Hc; simpl; [|lia].
  specialize (Hpos _ _ Hc). lia.
Qed.

Lemma count_of_eq d d' :
  introspectFilterCount d' = introspectFilterCount d ->
  forall i, count_of d' i = count_of d i.
Proof. intros Heq i. unfold count_of. now rewrite Heq. Qed.

Lemma filter_consistent_eq d d' :
  introspectFilter d' = introspectFilter d ->
  introspectFilterCount d' = introspectFilterCount d ->
  filter_consistent d -> filter_consistent d'.
Proof. unfold filter_consistent. intros -> ->. auto. Qed.

Lemma after_setup_consistent : filter_consistent after_setup.
Proof.
  split; simpl.
  - rewrite dom_insert_L, dom_empty_L. set_solver.
  - intros item count. rewrite lookup_insert. case_decide.
    + intros [= <-]. unfold INT_MAX. lia.
    + rewrite lookup_empty. discriminate.
Qed.

Lemma after_setup_count item : count_of after_setup item = setup_reference item.
Proof.
  unfold count_of, setup_reference. simpl.
  destruct (decide (item = simTimeVar)) as [->|Hne].
  - now rewrite lookup_insert_eq, bool_decide_true.
  - rewrite lookup_insert_ne, bool_decide_false by congruence.
    now rewrite lookup_empty.
Qed.

Lemma run_call_consistent c d d' :
  filter_consistent d ->
  run_call c d = Some d' ->
  filter_consistent d' /\
  forall b, counts_at_most b d -> counts_at_most (b + 1) d'.
Proof.
  intros Hc Hrun. destruct c as [items live n cv|items live cv|items n|items n];
    simpl in Hrun.
  - apply AddCurve_cases in Hrun.
    destruct Hrun as [(_ & _ & Hadd)|(_ & _ & Hf & Hcnt & _)].
    + apply AddItemToFilter_spec in Hadd; [|exact Hc].
      destruct Hadd as (_ & Hc' & Hn). split; [exact Hc'|].
      intros b Hb i. rewrite Hn.
      pose proof (selects_range items n i). specialize (Hb i).
      change (count_of (set_curves _ d) i) with (count_of d i). lia.
    + split; [eapply filter_consistent_eq; eassumption|].
      intros b Hb i. rewrite (count_of_eq _ _ Hcnt). specialize (Hb i). lia.
  - apply RemoveCurve_cases in Hrun.
    destruct Hrun as [(before & k & s & after & d'' & _ & _ & _ & Hr & ->)
                     |(_ & _ & Hf & Hcnt & _)].
    + destruct (RemoveItemFromFilter_spec items k d Hc)
        as (d2 & Hr2 & _ & Hc2 & Hn).
      rewrite Hr in Hr2. injection Hr2 as <-.
      split; [exact Hc2|].
      intros b Hb i.
      change (count_of (set_curves _ d'') i) with (count_of d'' i).
      rewrite Hn. specialize (Hb i).
      pose proof (count_of_nonneg d i Hc). case_bool_decide; lia.
    + split; [eapply filter_consistent_eq; eassumption|].
      intros b Hb i. rewrite (count_of_eq _ _ Hcnt). specialize (Hb i). lia.
  - apply AddItemToFilter_spec in Hrun; [|exact Hc].
    destruct Hrun as (_ & Hc' & Hn). split; [exact Hc'|].
    intros b Hb i. rewrite Hn.
    pose proof (selects_range items n i). specialize (Hb i). lia.
  - destruct (RemoveItemFromFilter_spec items n d Hc)
      as (d2 & Hr2 & _ & Hc2 & Hn).
    rewrite Hrun in Hr2. injection Hr2 as <-.
    split; [exact Hc2|].
    intros b Hb i. rewrite Hn. specialize (Hb i).
    pose proof (count_of_nonneg d i Hc). case_bool_decide; lia.
Qed.

Lemma run_call_defined c d b :
  filter_consistent d -> counts_at_most b d -> b < INT_MAX ->
  is_Some (run_call c d).
Proof.
  intros Hc Hb Hlt. destruct c as [items live n cv|items live cv|items n|items n];
    simpl.
  - unfold AddCurve. destruct (negb (lock live cv)); [eauto|].
    destruct (CurveMap.find (curves d) n) as [it|].
    + destruct (CurveVariableSet.find (snd it) cv); eauto.
    + apply (AddItemToFilter_defined items n _ b); [|exact Hlt].
      intros i. apply (Hb i).
  - unfold RemoveCurve. destruct (negb (lock live cv)); [eauto|].
    rewrite RemoveCurve_loop_first_holder.
    destruct (first_holder cv (curves d)) as [[[before [k s]] after]|];
      [|simpl; eauto].
    cbv zeta.
    destruct (CurveVariableSet.empty (CurveVariableSet.erase cv s));
      [|simpl; eauto].
    destruct (RemoveItemFromFilter_spec items k d Hc) as (d2 & -> & _).
    simpl. eauto.
  - apply (AddItemToFilter_defined items n d b); assumption.
  - destruct (RemoveItemFromFilter_spec items n d Hc) as (d2 & -> & _). eauto.
Qed.

(** Every sequence of calls keeps the filter consistent, and is defined
    as long as no count can have reached [INT_MAX]. *)
Lemma run_consistent cs : forall d b,
  filter_consistent d -> counts_at_most b d ->
  (b + Z.of_nat (length cs) <= INT_MAX -> is_Some (run cs d)) /\
  (forall d',
     run cs d = Some d' ->
     filter_consistent d' /\ counts_at_most (b + Z.of_nat (length cs)) d').
Proof.
  induction cs as [|c cs IH]; intros d b Hc Hb.
  - simpl. split; [eauto|]. intros d' [= <-]. split; [exact Hc|].
    intros i. specialize (Hb i). lia.
  - simpl run. split.
    + intros Hlen. simpl length in Hlen.
      destruct (run_call_defined c d b Hc Hb) as [d1 Hd1]; [lia|].
      rewrite Hd1. simpl.
      destruct (run_call_consistent c d d1 Hc Hd1) as [Hc1 Hb1].
      apply (IH d1 (b + 1) Hc1 (Hb1 b Hb)). lia.
    + intros d' Hrun.
      destruct (run_call c d) as [d1|] eqn:Hd1; simpl in Hrun; [|discriminate].
      destruct (run_call_consistent c d d1 Hc Hd1) as [Hc1 Hb1].
      destruct (IH d1 (b + 1) Hc1 (Hb1 b Hb)) as [_ Hpost].
      destruct (Hpost d' Hrun) as [Hc' Hb'].
      split; [exact Hc'|]. intros i. specialize (Hb' i).
      simpl length. lia.
Qed.

Lemma run_after_setup_defined cs :
  Z.of_nat (length cs) < INT_MAX -> is_Some (run cs after_setup).
Proof.
  intros Hlen.
  apply (run_consistent cs after_setup 1 after_setup_consistent); [|lia].
  intros i. rewrite after_setup_count. unfold setup_reference.
  case_bool_decide; lia.
Qed.

Lemma run_after_setup_consistent cs d :
  run cs after_setup = Some d -> filter_consistent d.
Proof.
  intros Hrun.
  eapply (run_consistent cs after_setup 1 after_setup_consistent); [|exact Hrun].
  intros i. rewrite after_setup_count. unfold setup_reference.
  case_bool_decide; lia.
Qed.

Lemma run_call_nonempty c d d' :
  registry_nonempty d -> run_call c d = Some d' -> registry_nonempty d'.
Proof.
  intros Hne Hrun.
  destruct c as [items live n cv|items live cv|items n|items n]; simpl in Hrun.
  - apply AddCurve_cases in Hrun.
    destruct Hrun as [(_ & _ & Hadd)|(_ & _ & _ & _ & Hkeep)]; [|auto].
    apply AddItemToFilter_curves in Hadd. unfold registry_nonempty.
    rewrite Hadd. simpl. apply assign_Forall; [discriminate | exact Hne].
  - apply RemoveCurve_cases in Hrun.
    destruct Hrun as [(before & k & s & after & d'' & Hh & _ & _ & _ & ->)
                     |(_ & _ & _ & _ & Hkeep)]; [|auto].
    apply first_holder_Some in Hh. destruct Hh as (Hm & _ & _).
    unfold registry_nonempty in *. simpl. rewrite Hm in Hne.
    rewrite List.Forall_app in *. destruct Hne as [Hb Ha].
    split; [exact Hb|]. now inversion Ha.
  - apply AddItemToFilter_curves in Hrun. unfold registry_nonempty.
    now rewrite Hrun.
  - apply RemoveItemFromFilter_curves in Hrun. unfold registry_nonempty.
    now rewrite Hrun.
Qed.

Lemma run_nonempty cs : forall d d',
  registry_nonempty d -> run cs d = Some d' -> registry_nonempty d'.
Proof.
  induction cs as [|c cs IH]; intros d d' Hne; simpl.
  - now intros [= <-].
  - destruct (run_call c d) as [d1|] eqn:Hd1; simpl; [|discriminate].
    apply IH. eapply run_call_nonempty; eassumption.
Qed.

(** What [RemoveItemFromFilter] does at the item it stops at, on data whose
    filter and count map agree: nothing when the item is not in the filter,
    the deletion from both at count 1, and the count less one otherwise. *)
Lemma release_reference_effect item d :
  filter_consistent d ->
  exists d',
    release_reference item d = Some d' /\
    curves d' = curves d /\
    (item ∉ introspectFilter d ->
     introspectFilter d' = introspectFilter d /\
     introspectFilterCount d' = introspectFilterCount d) /\
    (introspectFilterCount d !! item = Some 1 ->
     introspectFilter d' = introspectFilter d ∖ {[item]} /\
     introspectFilterCount d' = delete item (introspectFilterCount d)) /\
    (forall count,
       introspectFilterCount d !! item = Some count -> count <> 1 ->
       introspectFilter d' = introspectFilter d /\
       introspectFilterCount d' = <[item := count - 1]> (introspectFilterCount d)).
Proof.
  intros [Hdom Hpos]. unfold release_reference.
  case_bool_decide as Hin.
  - assert (Hc : exists c0, introspectFilterCount d !! item = Some c0).
    { rewrite <- Hdom in Hin. now apply elem_of_dom in Hin. }
    destruct Hc as [c0 Hc0]. pose proof (Hpos _ _ Hc0) as Hr.
    rewrite Hc0. simpl. unfold int_decr.
    destruct (Z.ltb_spec INT_MIN c0) as [_|Hle]; [|unfold INT_MIN in Hle; lia].
    simpl.
    assert (H0 : int_eq_0u (c0 - 1) = true <-> c0 - 1 = 0)
      by (apply int_eq_0u_spec; lia).
    destruct (int_eq_0u (c0 - 1)) eqn:Hz.
    + assert (Hone : c0 = 1) by (apply proj1 in H0; lia).
      eexists. split; [reflexivity|]. split; [reflexivity|]. simpl.
      split; [intros Hout; contradiction|].
      split; [auto|]. intros count Hl Hne. congruence.
    + assert (Hne1 : c0 <> 1).
      { intros ->. destruct H0 as [_ H0]. specialize (H0 eq_refl). discriminate. }
      eexists. split; [reflexivity|]. split; [reflexivity|]. simpl.
      split; [intros Hout; contradiction|].
      split; [intros Hl; congruence|].
      intros count Hl Hne. assert (count = c0) by congruence. subst. auto.
  - assert (Hc : introspectFilterCount d !! item = None).
    { apply not_elem_of_dom. now rewrite Hdom. }
    exists d. split; [reflexivity|]. split; [reflexivity|].
    split; [auto|]. split; [intros Hl; congruence|].
    intros count Hl Hne. congruence.
Qed.

End Invariants.

(** ** The claims on the registry and the filter *)

Section HandlerClaims.

Context {U : URIModel}.

(** C9. [RemoveCurve] with a dead weak pointer, or with a curve that no
    variable set holds, returns the data unchanged (registry, filter and
    count map) and is defined. *)
Theorem C9_RemoveCurve_dead_or_absent_is_noop (items : list string)
    (live : gset PlotCurveWeakPtr) (_curve : PlotCurveWeakPtr)
    (d : IntrospectionCurveHandlerPrivate) :
  _curve ∉ live \/
  Forall (fun e : CurveMap.entry => CurveVariableSet.find (snd e) _curve = false)
    (curves d) ->
  RemoveCurve items live _curve d = Some d.
Proof.
  intros Hcase. unfold RemoveCurve, lock.
  case_bool_decide as Hlive; simpl; [|reflexivity].
  destruct Hcase as [Hdead|Habsent]; [contradiction|].
  rewrite RemoveCurve_loop_first_holder.
  apply first_holder_None in Habsent. rewrite Habsent. simpl.
  now rewrite set_curves_same.
Qed.

(** C5. From the data after setup (the filter holds the sim time
    variable with count 1), every sequence of calls that is defined (any
    sequence of fewer than [INT_MAX] calls is) leaves a filter and a
    count map with the same keys and only positive counts. A
    [RemoveItemFromFilter] that selects an item stored with count 1
    removes it from both; and it removes an item from the filter only
    when that item was selected and stored with count 1. *)
Theorem C5_filter_and_counts_share_keys (cs : list call) :
  (Z.of_nat (length cs) < INT_MAX -> is_Some (run cs after_setup)) /\
  (forall d,
     run cs after_setup = Some d ->
     dom (introspectFilterCount d) = introspectFilter d /\
     (forall item count,
        introspectFilterCount d !! item = Some count -> 0 < count) /\
     (forall items _name item,
        selected items _name = Some item ->
        introspectFilterCount d !! item = Some 1 ->
        exists d',
          RemoveItemFromFilter items _name d = Some d' /\
          (item ∉ introspectFilter d') /\
          introspectFilterCount d' !! item = None) /\
     (forall items _name item d',
        RemoveItemFromFilter items _name d = Some d' ->
        item ∈ introspectFilter d ->
        item ∉ introspectFilter d' ->
        selected items _name = Some item /\
        introspectFilterCount d !! item = Some 1 /\
        introspectFilterCount d' !! item = None)).
Proof.
  split; [apply run_after_setup_defined|].
  intros d Hrun. pose proof (run_after_setup_consistent cs d Hrun) as Hc.
  split; [apply Hc|]. split; [|split].
  - intros item count Hl. destruct Hc as [_ Hpos].
    specialize (Hpos _ _ Hl). lia.
  - intros items n item Hs Hone.
    rewrite RemoveItemFromFilter_selected, Hs.
    destruct (release_reference_spec item d Hc)
      as (d' & Hr & _ & _ & _ & _ & Hgone).
    exists d'. split; [exact Hr|]. apply Hgone.
    unfold count_of. now rewrite Hone.
  - intros items n item d' Hr Hin Hout.
    destruct (RemoveItemFromFilter_spec items n d Hc)
      as (d2 & Hr2 & _ & Hc2 & Hn).
    rewrite Hr in Hr2. injection Hr2 as <-.
    assert (Hnone : introspectFilterCount d' !! item = None).
    { apply not_elem_of_dom. destruct Hc2 as [-> _]. exact Hout. }
    assert (Hsome : exists c, introspectFilterCount d !! item = Some c /\ 1 <= c).
    { destruct Hc as [Hdom Hpos]. rewrite <- Hdom in Hin.
      apply elem_of_dom in Hin. destruct Hin as [c Hl].
      exists c. split; [exact Hl|]. specialize (Hpos _ _ Hl). lia. }
    destruct Hsome as (c & Hl & Hge).
    specialize (Hn item). unfold count_of in Hn. rewrite Hnone, Hl in Hn.
    simpl in Hn. case_bool_decide as Hsel; [|lia].
    split; [exact Hsel|]. split; [|exact Hnone].
    rewrite Hl. f_equal. lia.
Qed.

End HandlerClaims.

(** ** Counts and registry entries *)

Section Tracking.

Context {U : URIModel}.

Lemma references_assign items item k v m :
  CurveMap.find m k = None ->
  Z.of_nat (references items item (CurveMap.assign k v m)) =
    Z.of_nat (references items item m) + selects items k item.
Proof.
  intros Hf. unfold references, selects.
  rewrite (filter_names_assign _ k v m Hf).
  case_bool_decide; lia.
Qed.

Lemma references_delete items item (before after : CurveMap.t)
    (h : CurveMap.entry) :
  Z.of_nat (references items item (before ++ h :: after)%list) =
    Z.of_nat (references items item (before ++ after)%list)
    + selects items (fst h) item.
Proof.
  unfold references, selects, names.
  rewrite !map_app, !List.filter_app, !length_app. simpl.
  case_bool_decide; simpl; lia.
Qed.

Lemma references_names items item (m m' : CurveMap.t) :
  names m' = names m -> references items item m' = references items item m.
Proof. unfold references. now intros ->. Qed.

Lemma references_positive items item (m : CurveMap.t) _name :
  In _name (names m) -> selected items _name = Some item ->
  (1 <= references items item m)%nat.
Proof.
  intros Hin Hs. unfold references.
  assert (Hf : In _name
                 (List.filter
                    (fun n => bool_decide (selected items n = Some item))
                    (names m))).
  { apply List.filter_In. split; [exact Hin|]. now apply bool_decide_eq_true. }
  destruct (List.filter _ (names m)); [contradiction | simpl; lia].
Qed.

(** A call of [AddCurve] or [RemoveCurve] with the remote items [items]
    keeps every count equal to the number of entries that select the item,
    plus the reference of the setup. *)
Lemma run_call_tracks items c d d' :
  is_curve_call c = true -> call_items c = items ->
  filter_consistent d -> counts_track_registry items d ->
  run_call c d = Some d' ->
  counts_track_registry items d'.
Proof.
  intros Hcurve Hitems Hc Htr Hrun.
  destruct c as [its live n cv|its live cv|its n|its n]; try discriminate;
    simpl in Hitems; subst its; simpl in Hrun.
  - apply AddCurve_cases in Hrun.
    destruct Hrun as [(Hf & _ & Hadd)|(Hnames & _ & _ & Hcnt & _)].
    + apply AddItemToFilter_spec in Hadd; [|exact Hc].
      destruct Hadd as (Hcu & _ & Hn). intros i.
      rewrite Hn, Hcu. simpl curves.
      rewrite (references_assign items i n _ _ Hf).
      change (count_of (set_curves _ d) i) with (count_of d i).
      rewrite (Htr i). lia.
    + intros i. rewrite (count_of_eq _ _ Hcnt).
      rewrite (references_names items i _ _ Hnames). apply Htr.
  - apply RemoveCurve_cases in Hrun.
    destruct Hrun as [(before & k & s & after & d'' & Hh & _ & _ & Hr & ->)
                     |(Hnames & _ & _ & Hcnt & _)].
    + destruct (RemoveItemFromFilter_spec items k d Hc)
        as (d2 & Hr2 & _ & _ & Hn).
      rewrite Hr in Hr2. injection Hr2 as <-.
      apply first_holder_Some in Hh. destruct Hh as (Hm & _ & _).
      intros i. simpl curves.
      change (count_of (set_curves _ d'') i) with (count_of d'' i).
      rewrite Hn. specialize (Htr i). rewrite Hm in Htr.
      rewrite (references_delete items i before after (k, s)) in Htr.
      unfold selects in Htr. simpl fst in Htr. unfold setup_reference in *.
      repeat case_bool_decide; lia.
    + intros i. rewrite (count_of_eq _ _ Hcnt).
      rewrite (references_names items i _ _ Hnames). apply Htr.
Qed.

Lemma run_tracks items cs : forall d d',
  Forall (fun c => is_curve_call c = true /\ call_items c = items) cs ->
  filter_consistent d -> counts_track_registry items d ->
  run cs d = Some d' ->
  filter_consistent d' /\ counts_track_registry items d'.
Proof.
  induction cs as [|c cs IH]; intros d d' Hall Hc Htr; simpl.
  - intros [= <-]. auto.
  - apply List.Forall_cons_iff in Hall. destruct Hall as [[Hcurve Hitems] Hall].
    destruct (run_call c d) as [d1|] eqn:Hd1; simpl; [|discriminate].
    apply (IH d1 d' Hall).
    + eapply run_call_consistent; eassumption.
    + eapply run_call_tracks; eassumption.
Qed.

Lemma after_setup_tracks items : counts_track_registry items after_setup.
Proof. intros i. rewrite after_setup_count. reflexivity. Qed.

(** C4 (amended). The calls are [AddCurve] and [RemoveCurve], all made
    with the same remote items, from the data after setup. For every name
    of the registry that is a valid URI with a matching remote item, the
    first such item is in the filter, has the path of the name and a query
    string that is a prefix of the name's, and its count is the number of
    registry entries whose name selects it, plus one when the item is the
    sim time variable, which the setup has subscribed. A call of
    [AddCurve] that creates an entry is one call of [AddItemToFilter] on
    the data with that entry; a call of [RemoveCurve] that deletes an
    entry is one call of [RemoveItemFromFilter] with the entry's name;
    every other call leaves the filter and the counts as they are. *)
Theorem C4_counts_track_registry_entries (items : list string)
    (cs : list call) (d : IntrospectionCurveHandlerPrivate) :
  Forall (fun c => is_curve_call c = true /\ call_items c = items) cs ->
  run cs after_setup = Some d ->
  (forall _name item,
     In _name (names (curves d)) ->
     selected items _name = Some item ->
     item ∈ introspectFilter d /\
     In item items /\
     URI_Path _name = URI_Path item /\
     (exists rest, URI_Query_Str _name = URI_Query_Str item +:+ rest) /\
     introspectFilterCount d !! item =
       Some (Z.of_nat (references items item (curves d))
             + setup_reference item)) /\
  (forall live _name _curve d',
     AddCurve items live _name _curve d = Some d' ->
     (length (curves d') = S (length (curves d)) /\
      AddItemToFilter items _name (set_curves (curves d') d) = Some d')
     \/
     (length (curves d') = length (curves d) /\
      introspectFilter d' = introspectFilter d /\
      introspectFilterCount d' = introspectFilterCount d)) /\
  (forall live _curve d',
     RemoveCurve items live _curve d = Some d' ->
     (S (length (curves d')) = length (curves d) /\
      exists k d'',
        In k (names (curves d)) /\
        RemoveItemFromFilter items k d = Some d'' /\
        d' = set_curves (curves d') d'')
     \/
     (length (curves d') = length (curves d) /\
      introspectFilter d' = introspectFilter d /\
      introspectFilterCount d' = introspectFilterCount d)).
Proof.
  intros Hall Hrun.
  destruct (run_tracks items cs after_setup d Hall after_setup_consistent
              (after_setup_tracks items) Hrun) as [Hc Htr].
  split; [|split].
  - intros n item Hin Hs.
    destruct (selected_matches items n item Hs) as (_ & Hitem & Hpath & Hq).
    pose proof (references_positive items item (curves d) n Hin Hs) as Hpos.
    pose proof (Htr item) as Hcount.
    assert (Hsetup : 0 <= setup_reference item).
    { unfold setup_reference. case_bool_decide; lia. }
    assert (Hl : introspectFilterCount d !! item =
                 Some (Z.of_nat (references items item (curves d))
                       + setup_reference item)).
    { unfold count_of in Hcount.
      destruct (introspectFilterCount d !! item) as [c|]; simpl in Hcount;
        [now rewrite Hcount | lia]. }
    split; [|auto].
    destruct Hc as [<- _]. apply elem_of_dom. eauto.
  - intros live n cv d' Hadd. apply AddCurve_cases in Hadd.
    destruct Hadd as [(Hf & _ & Hadd)|(_ & Hlen & Hfl & Hcnt & _)]; [left|right; auto].
    pose proof (AddItemToFilter_curves _ _ _ _ Hadd) as Hcu. simpl in Hcu.
    rewrite Hcu. split; [apply length_assign; exact Hf | exact Hadd].
  - intros live cv d' Hrem. apply RemoveCurve_cases in Hrem.
    destruct Hrem as [(before & k & s & after & d'' & Hh & _ & _ & Hr & ->)
                     |(_ & Hlen & Hfl & Hcnt & _)]; [left|right; auto].
    apply first_holder_Some in Hh. destruct Hh as (Hm & _ & _).
    simpl curves. split.
    + rewrite Hm, !length_app. simpl. lia.
    + exists k, d''. split; [|split; [exact Hr | reflexivity]].
      rewrite Hm. unfold names. rewrite map_app. apply in_or_app.
      right. left. reflexivity.
Qed.

End Tracking.

(** ** The release of a subscription with the last curve of a name *)

Section Release.

Context {U : URIModel}.

(** C6. From the data after setup, every sequence of calls that is
    defined (any sequence of fewer than [INT_MAX] calls is) leaves a
    registry without an empty variable set. When [RemoveCurve] takes the
    last curve out of the first set that holds it, that same call is
    [RemoveItemFromFilter] for the entry's name followed by the deletion
    of the entry. On data so reached the call is defined, the registry
    after it is the registry without that entry, and the subscription of
    the entry's name is released in it: the remote item the name selects
    has its count lowered by one, and leaves the filter and the count map
    when its count was 1; every other item is as before, and so is the
    whole filter when the name selects no item or the selected item is not
    in the filter. When the calls before were all calls of [AddCurve] and
    [RemoveCurve] with these same remote items, the selected item is in
    the filter with a count of at least 1, so its count does go down. *)
Theorem C6_registry_holds_no_empty_set (cs : list call) :
  (Z.of_nat (length cs) < INT_MAX -> is_Some (run cs after_setup)) /\
  (forall d, run cs after_setup = Some d -> registry_nonempty d) /\
  (forall items live _curve d before k s after,
     _curve ∈ live ->
     first_holder _curve (curves d) = Some (before, (k, s), after) ->
     CurveVariableSet.erase _curve s = [] ->
     RemoveCurve items live _curve d =
       d' ← RemoveItemFromFilter items k d;
       Some (set_curves (before ++ after)%list d')) /\
  (forall d items live _curve before k s after,
     run cs after_setup = Some d ->
     _curve ∈ live ->
     first_holder _curve (curves d) = Some (before, (k, s), after) ->
     CurveVariableSet.erase _curve s = [] ->
     exists d',
       RemoveCurve items live _curve d = Some d' /\
       curves d = (before ++ (k, s) :: after)%list /\
       curves d' = (before ++ after)%list /\
       (selected items k = None ->
        introspectFilter d' = introspectFilter d /\
        introspectFilterCount d' = introspectFilterCount d) /\
       (forall item,
          selected items k = Some item ->
          (item ∉ introspectFilter d ->
           introspectFilter d' = introspectFilter d /\
           introspectFilterCount d' = introspectFilterCount d) /\
          (introspectFilterCount d !! item = Some 1 ->
           introspectFilter d' = introspectFilter d ∖ {[item]} /\
           introspectFilterCount d' = delete item (introspectFilterCount d)) /\
          (forall count,
             introspectFilterCount d !! item = Some count -> count <> 1 ->
             introspectFilter d' = introspectFilter d /\
             introspectFilterCount d' =
               <[item := count - 1]> (introspectFilterCount d)))) /\
  (forall d items _curve before k s after item,
     Forall (fun c => is_curve_call c = true /\ call_items c = items) cs ->
     run cs after_setup = Some d ->
     first_holder _curve (curves d) = Some (before, (k, s), after) ->
     selected items k = Some item ->
     item ∈ introspectFilter d /\
     exists count,
       introspectFilterCount d !! item = Some count /\ 1 <= count).
Proof.
  assert (Heq : forall items live _curve d before k s after,
     _curve ∈ live ->
     first_holder _curve (curves d) = Some (before, (k, s), after) ->
     CurveVariableSet.erase _curve s = [] ->
     RemoveCurve items live _curve d =
       d' ← RemoveItemFromFilter items k d;
       Some (set_curves (before ++ after)%list d')).
  { intros items live cv d before k s after Hlive Hh He.
    unfold RemoveCurve, lock. rewrite bool_decide_true by assumption. simpl.
    rewrite RemoveCurve_loop_first_holder, Hh. cbv zeta. rewrite He. simpl.
    destruct (RemoveItemFromFilter items k d); reflexivity. }
  split; [apply run_after_setup_defined|].
  split; [|split; [exact Heq|split]].
  - intros d. apply run_nonempty. constructor.
  - intros d items live cv before k s after Hrun Hlive Hh He.
    pose proof (run_after_setup_consistent cs d Hrun) as Hc.
    rewrite (Heq items live cv d before k s after Hlive Hh He).
    apply first_holder_Some in Hh. destruct Hh as (Hm & _ & _).
    rewrite RemoveItemFromFilter_selected.
    destruct (selected items k) as [item|] eqn:Hs.
    + destruct (release_reference_effect item d Hc)
        as (d2 & Hr & _ & Hout & Hone & Hmore).
      rewrite Hr. simpl. exists (set_curves (before ++ after)%list d2).
      split; [reflexivity|]. split; [exact Hm|]. split; [reflexivity|].
      split; [discriminate|].
      intros item' [= <-]. simpl. auto.
    + simpl. exists (set_curves (before ++ after)%list d).
      split; [reflexivity|]. split; [exact Hm|]. split; [reflexivity|].
      split; [auto | discriminate].
  - intros d items cv before k s after item Hall Hrun Hh Hs.
    destruct (run_tracks items cs after_setup d Hall after_setup_consistent
                (after_setup_tracks items) Hrun) as [Hc Htr].
    apply first_holder_Some in Hh. destruct Hh as (Hm & _ & _).
    assert (Hin : In k (names (curves d))).
    { rewrite Hm. unfold names. rewrite map_app. apply in_or_app.
      right. now left. }
    pose proof (references_positive items item (curves d) k Hin Hs) as Hpos.
    pose proof (Htr item) as Hcount.
    assert (Hsetup : 0 <= setup_reference item).
    { unfold setup_reference. case_bool_decide; lia. }
    unfold count_of in Hcount.
    destruct (introspectFilterCount d !! item) as [c|] eqn:Hl;
      simpl in Hcount; [|lia].
    split; [|exists c; split; [reflexivity | lia]].
    destruct Hc as [<- _]. apply elem_of_dom. eauto.
Qed.

End Release.

(** ** Instances of the claims on the registry and the filter *)

(** The instance of C9 at a registry that holds the curve 7 only, and the
    curve 5. *)
Lemma C9_witness :
  RemoveCurve (U := SpecURI.model) [robot_world_pose] {[5%nat; 7%nat]} 5%nat
    (set_curves [(robot_position_x, [7%nat])] after_setup)
  = Some (set_curves [(robot_position_x, [7%nat])] after_setup).
Proof.
  apply (C9_RemoveCurve_dead_or_absent_is_noop (U := SpecURI.model)).
  right. simpl. constructor; [reflexivity | constructor].
Defined.

(** The instance of C6 at two curves added under one name and the first
    one removed again; then the removal of the second one, which deletes
    the entry and takes "data://robot?p=pose/world_pose" out of the filter
    and of the count map. *)
Lemma C6_witness :
  is_Some
    (run (U := SpecURI.model)
       [CallAddCurve [robot_world_pose] {[1%nat; 2%nat]} robot_position_x 1%nat;
        CallAddCurve [robot_world_pose] {[1%nat; 2%nat]} robot_position_x 2%nat;
        CallRemoveCurve [robot_world_pose] {[1%nat; 2%nat]} 1%nat]
       after_setup) /\
  registry_nonempty
    (mkPrivate [(robot_position_x, [2%nat])]
       {[simTimeVar; robot_world_pose]}
       {[simTimeVar := 1; robot_world_pose := 1]}) /\
  RemoveCurve (U := SpecURI.model) [robot_world_pose] {[1%nat; 2%nat]} 2%nat
    (mkPrivate [(robot_position_x, [2%nat])]
       {[simTimeVar; robot_world_pose]}
       {[simTimeVar := 1; robot_world_pose := 1]})
  = (d' ← RemoveItemFromFilter (U := SpecURI.model) [robot_world_pose]
            robot_position_x
            (mkPrivate [(robot_position_x, [2%nat])]
               {[simTimeVar; robot_world_pose]}
               {[simTimeVar := 1; robot_world_pose := 1]});
     Some (set_curves [] d')) /\
  exists d',
    RemoveCurve (U := SpecURI.model) [robot_world_pose] {[1%nat; 2%nat]} 2%nat
      (mkPrivate [(robot_position_x, [2%nat])]
         {[simTimeVar; robot_world_pose]}
         {[simTimeVar := 1; robot_world_pose := 1]}) = Some d' /\
    curves d' = [] /\
    introspectFilter d'
    = ({[simTimeVar; robot_world_pose]} : gset string) ∖ {[robot_world_pose]} /\
    introspectFilterCount d'
    = delete robot_world_pose
        ({[simTimeVar := 1; robot_world_pose := 1]} : gmap string Z).
Proof.
  destruct (C6_registry_holds_no_empty_set (U := SpecURI.model)
    [CallAddCurve [robot_world_pose] {[1%nat; 2%nat]} robot_position_x 1%nat;
     CallAddCurve [robot_world_pose] {[1%nat; 2%nat]} robot_position_x 2%nat;
     CallRemoveCurve [robot_world_pose] {[1%nat; 2%nat]} 1%nat])
    as (Hdef & Hne & Hrem & Hrel & _).
  split; [apply Hdef; vm_compute; reflexivity|].
  split; [apply Hne; vm_compute; reflexivity|].
  split.
  - apply (Hrem [robot_world_pose] {[1%nat; 2%nat]} 2%nat _ [] robot_position_x
             [2%nat] []).
    + vm_compute. reflexivity.
    + reflexivity.
    + reflexivity.
  - destruct (Hrel (mkPrivate [(robot_position_x, [2%nat])]
                      {[simTimeVar; robot_world_pose]}
                      {[simTimeVar := 1; robot_world_pose := 1]})
                [robot_world_pose] {[1%nat; 2%nat]} 2%nat [] robot_position_x
                [2%nat] [])
      as (d' & Hrun & _ & Hcurves & _ & Hitem).
    + vm_compute. reflexivity.
    + vm_compute. reflexivity.
    + reflexivity.
    + reflexivity.
    + destruct (Hitem robot_world_pose) as (_ & Hone & _);
        [vm_compute; reflexivity|].
      destruct Hone as [Hf Hcnt]; [vm_compute; reflexivity|].
      exists d'. auto.
Defined.

(** The instance of C5 at two names added to the filter, both selecting
    the remote item "data://robot?p=pose/world_pose", and one of them
    removed: the item is left with count 1, and the removal of the other
    name takes it out of the filter and of the count map. *)
Lemma C5_witness :
  is_Some
    (run (U := SpecURI.model)
       [CallAddItemToFilter [robot_world_pose] robot_position_x;
        CallAddItemToFilter [robot_world_pose] robot_orientation_roll;
        CallRemoveItemFromFilter [robot_world_pose] robot_position_x]
       after_setup) /\
  dom (introspectFilterCount
         (mkPrivate [] {[simTimeVar; robot_world_pose]}
            {[simTimeVar := 1; robot_world_pose := 1]}))
  = introspectFilter
      (mkPrivate [] {[simTimeVar; robot_world_pose]}
         {[simTimeVar := 1; robot_world_pose := 1]}) /\
  exists d',
    RemoveItemFromFilter (U := SpecURI.model) [robot_world_pose]
      robot_orientation_roll
      (mkPrivate [] {[simTimeVar; robot_world_pose]}
         {[simTimeVar := 1; robot_world_pose := 1]}) = Some d' /\
    (robot_world_pose ∉ introspectFilter d') /\
    introspectFilterCount d' !! robot_world_pose = None.
Proof.
  destruct (C5_filter_and_counts_share_keys (U := SpecURI.model)
    [CallAddItemToFilter [robot_world_pose] robot_position_x;
     CallAddItemToFilter [robot_world_pose] robot_orientation_roll;
     CallRemoveItemFromFilter [robot_world_pose] robot_position_x])
    as (Hdef & Hinv).
  split; [apply Hdef; vm_compute; reflexivity|].
  destruct (Hinv (mkPrivate [] {[simTimeVar; robot_world_pose]}
                    {[simTimeVar := 1; robot_world_pose := 1]}))
    as (Hdom & _ & Hzero & _); [vm_compute; reflexivity|].
  split; [exact Hdom|].
  apply (Hzero [robot_world_pose] robot_orientation_roll robot_world_pose);
    vm_compute; reflexivity.
Defined.

(** The instance of C4 at the remote items "data://robot?p=pose/world_pose"
    and the sim time variable: three curves are added under two names that
    both select the first item; its count is 2, the number of names. *)
Lemma C4_witness :
  introspectFilterCount
    (mkPrivate
       [(robot_orientation_roll, [2%nat]); (robot_position_x, [1%nat; 3%nat])]
       {[simTimeVar; robot_world_pose]}
       {[simTimeVar := 1; robot_world_pose := 2]}) !! robot_world_pose
  = Some (Z.of_nat
            (references (U := SpecURI.model) [robot_world_pose; simTimeVar]
               robot_world_pose
               [(robot_orientation_roll, [2%nat]);
                (robot_position_x, [1%nat; 3%nat])])
          + setup_reference robot_world_pose).
Proof.
  destruct (C4_counts_track_registry_entries (U := SpecURI.model)
    [robot_world_pose; simTimeVar]
    [CallAddCurve [robot_world_pose; simTimeVar] {[1%nat; 2%nat; 3%nat]}
       robot_position_x 1%nat;
     CallAddCurve [robot_world_pose; simTimeVar] {[1%nat; 2%nat; 3%nat]}
       robot_orientation_roll 2%nat;
     CallAddCurve [robot_world_pose; simTimeVar] {[1%nat; 2%nat; 3%nat]}
       robot_position_x 3%nat]
    (mkPrivate
       [(robot_orientation_roll, [2%nat]); (robot_position_x, [1%nat; 3%nat])]
       {[simTimeVar; robot_world_pose]}
       {[simTimeVar := 1; robot_world_pose := 2]})) as (Hcount & _).
  - repeat constructor.
  - vm_compute. reflexivity.
  - destruct (Hcount robot_position_x robot_world_pose) as (_ & _ & _ & _ & H).
    + simpl. right. left. reflexivity.
    + vm_compute. reflexivity.
    + exact H.
Defined.

(** C4 as stated fails on the sim time variable: after setup its count is
    1 with no registry entry, and once a curve is added under its name the
    count is 2 with one entry. *)
Lemma C4_counterexample :
  run (U := SpecURI.model)
    [CallAddCurve [simTimeVar] {[1%nat]} simTimeVar 1%nat] after_setup
  = Some (mkPrivate [(simTimeVar, [1%nat])] {[simTimeVar]} {[simTimeVar := 2]}) /\
  selected (U := SpecURI.model) [simTimeVar] simTimeVar = Some simTimeVar /\
  references (U := SpecURI.model) [simTimeVar] simTimeVar
    [(simTimeVar, [1%nat])] = 1%nat /\
  introspectFilterCount
    (mkPrivate [(simTimeVar, [1%nat])] {[simTimeVar]} {[simTimeVar := 2]})
    !! simTimeVar
  <> Some (Z.of_nat
             (references (U := SpecURI.model) [simTimeVar] simTimeVar
                [(simTimeVar, [1%nat])])).
Proof.
  split; [vm_compute; reflexivity|].
  split; [vm_compute; reflexivity|].
  split; [vm_compute; reflexivity|].
  vm_compute. discriminate.
Qed.

(** * Further properties *)

(** ** Batches *)

Section BatchFurther.

Context {U : URIModel} {M : MathModel}.

Lemma collect_app d ps1 : forall l ps2,
  collect d l (ps1 ++ ps2)%list = l1 ← collect d l ps1; collect d l1 ps2.
Proof.
  induction ps1 as [|p ps1 IH]; intros l ps2; [reflexivity|].
  simpl. destruct (collect_param d l p) as [l'|e]; simpl; [apply IH | reflexivity].
Qed.

Lemma sim_time_of_unnamed param :
  msgs.name param = "" -> sim_time_of param = None.
Proof. unfold sim_time_of. now intros ->. Qed.

(** The sim time fields after one iteration. *)
Lemma collect_param_time d l param l' :
  collect_param d l param = Ok l' ->
  (hasSimTime l = true -> simTime l' = simTime l /\ hasSimTime l' = true) /\
  (hasSimTime l = false ->
   match sim_time_of param with
   | Some t => simTime l' = Time_Double t /\ hasSimTime l' = true
   | None => simTime l' = simTime l /\ hasSimTime l' = false
   end).
Proof.
  unfold collect_param.
  destruct (String.eqb_spec (msgs.name param) "") as [Hn|Hn].
  { intros [= <-]. rewrite (sim_time_of_unnamed _ Hn). auto. }
  unfold sim_time_of.
  destruct (msgs.value param) as [paramValue|].
  2:{ intros [= <-]. destruct (String.eqb _ simTimeVar); auto. }
  set (l1 := if negb (hasSimTime l) && String.eqb (msgs.name param) simTimeVar
             then match msgs.time_value paramValue with
                  | Some t => mkLocals (Time_Double t) true (curvesUpdates l)
                  | None => l
                  end
             else l).
  assert (H1 :
    (hasSimTime l = true -> simTime l1 = simTime l /\ hasSimTime l1 = true) /\
    (hasSimTime l = false ->
     match (if String.eqb (msgs.name param) simTimeVar
            then msgs.time_value paramValue else None) with
     | Some t => simTime l1 = Time_Double t /\ hasSimTime l1 = true
     | None => simTime l1 = simTime l /\ hasSimTime l1 = false
     end)).
  { subst l1. destruct (hasSimTime l) eqn:Hh; simpl.
    - split; [auto | discriminate].
    - split; [discriminate|]. intros _.
      destruct (String.eqb (msgs.name param) simTimeVar); [|auto].
      destruct (msgs.time_value paramValue); auto. }
  destruct (resolve (curves d) (msgs.name param)) as [it|].
  2:{ intros [= <-]. exact H1. }
  destruct (decode paramValue (fst it)) as [[validData data]|e]; simpl;
    [|discriminate].
  destruct validData; simpl; intros [= <-]; exact H1.
Qed.

Lemma collect_time d msg : forall l l',
  collect d l msg = Ok l' ->
  (hasSimTime l = true -> simTime l' = simTime l) /\
  (hasSimTime l = false ->
   match first_sim_time msg with
   | Some t => simTime l' = Time_Double t
   | None => simTime l' = simTime l
   end).
Proof.
  induction msg as [|p msg IH]; intros l l'; simpl.
  - intros [= <-]. auto.
  - destruct (collect_param d l p) as [l1|e] eqn:Hp; simpl; [|discriminate].
    intros Hc. destruct (collect_param_time d l p l1 Hp) as [Ht Hf].
    destruct (IH l1 l' Hc) as [IHt IHf]. split.
    + intros Hh. destruct (Ht Hh) as [Hs Hh1]. rewrite (IHt Hh1). exact Hs.
    + intros Hh. specialize (Hf Hh).
      destruct (sim_time_of p) as [t|].
      * destruct Hf as [Hs Hh1]. rewrite (IHt Hh1). exact Hs.
      * destruct Hf as [Hs Hh1]. specialize (IHf Hh1).
        destruct (first_sim_time msg); congruence.
Qed.

(** X1. Every point a batch adds carries the same time: the one of the
    first parameter of the batch that is named as the sim time variable and
    has a time value, wherever that parameter stands in the batch, and 0
    when the batch has none. *)
Theorem batch_points_carry_first_sim_time
    (d : IntrospectionCurveHandlerPrivate) (live : gset PlotCurveWeakPtr)
    (msg : msgs.Param_V) (calls : list AddPoint_call) :
  OnIntrospection d live msg = Ok calls ->
  Forall (fun call : AddPoint_call => math.X2 (snd call) = batch_sim_time msg)
    calls.
Proof.
  unfold OnIntrospection.
  destruct (collect d locals_init msg) as [l|e] eqn:Hc; simpl; [|discriminate].
  intros [= <-].
  destruct (collect_time d msg locals_init l Hc) as [_ Hf].
  specialize (Hf eq_refl). unfold batch_sim_time.
  assert (Ht : simTime l = match first_sim_time msg with
                           | Some t => Time_Double t
                           | None => 0%float
                           end).
  { destruct (first_sim_time msg); exact Hf. }
  rewrite <- Ht. apply update_time.
Qed.

Lemma resolve_In m paramName it :
  resolve m paramName = Some it -> In it m.
Proof.
  unfold resolve, CurveMap.find.
  destruct (List.find (fun e => String.eqb (fst e) paramName) m) as [e|] eqn:Hf.
  - intros [= <-]. now apply List.find_some in Hf.
  - intros Hp. now apply List.find_some in Hp.
Qed.

(** One iteration buffers at most one update, for the entry the parameter
    resolves to. *)
Lemma collect_param_updates d l param l' :
  collect_param d l param = Ok l' ->
  curvesUpdates l' = curvesUpdates l \/
  exists it data,
    resolve (curves d) (msgs.name param) = Some it /\
    curvesUpdates l' = (curvesUpdates l ++ [(it, data)])%list.
Proof.
  unfold collect_param.
  destruct (String.eqb (msgs.name param) ""); [intros [= <-]; auto|].
  destruct (msgs.value param) as [paramValue|]; [|intros [= <-]; auto].
  fold (see_sim_time l param paramValue).
  destruct (resolve (curves d) (msgs.name param)) as [it|].
  2:{ intros [= <-]. left. apply see_sim_time_updates. }
  destruct (decode paramValue (fst it)) as [[validData data]|e]; simpl;
    [|discriminate].
  destruct validData; simpl; intros [= <-].
  - right. exists it, data. split; [reflexivity|].
    unfold push_back. simpl. now rewrite see_sim_time_updates.
  - left. apply see_sim_time_updates.
Qed.

Lemma collect_updates d msg : forall l l',
  collect d l msg = Ok l' ->
  exists ups,
    curvesUpdates l' = (curvesUpdates l ++ ups)%list /\
    (length ups <= length msg)%nat /\
    Forall (fun u : CurveMap.entry * float => In (fst u) (curves d)) ups.
Proof.
  induction msg as [|p msg IH]; intros l l'; simpl.
  - intros [= <-]. exists []. rewrite app_nil_r. auto.
  - destruct (collect_param d l p) as [l1|e] eqn:Hp; simpl; [|discriminate].
    intros Hc. destruct (IH l1 l' Hc) as (ups & Hups & Hlen & Hin).
    destruct (collect_param_updates d l p l1 Hp) as [H1|(it & data & Hr & H1)].
    + exists ups. rewrite Hups, H1. split; [reflexivity|]. split; [lia | exact Hin].
    + exists ((it, data) :: ups). rewrite Hups, H1, <- app_assoc.
      split; [reflexivity|]. split; [simpl; lia|].
      constructor; [simpl; eapply resolve_In; eassumption | exact Hin].
Qed.

Lemma calls_are_held d live msg calls c pt :
  OnIntrospection d live msg = Ok calls ->
  In (c, pt) calls ->
  c ∈ live /\ exists e, In e (curves d) /\ holds c e.
Proof.
  unfold OnIntrospection.
  destruct (collect d locals_init msg) as [l|e] eqn:Hc; simpl; [|discriminate].
  intros [= <-] Hcall.
  destruct (collect_updates d msg locals_init l Hc) as (ups & Hups & _ & Hin).
  simpl in Hups. subst ups.
  unfold update in Hcall. apply in_flat_map in Hcall.
  destruct Hcall as ([it data] & Hu & Hpt).
  apply update_curves_point in Hpt. destruct Hpt as (Hc' & Hl & _).
  split; [exact Hl|]. exists it. split; [|exact Hc'].
  rewrite List.Forall_forall in Hin. apply (Hin (it, data) Hu).
Qed.

(** X2. A batch of n parameters buffers at most n updates, and every point
    it adds goes to a curve that is alive and belongs to the variable set of
    a registry entry: no point for a dead or unregistered curve. *)
Theorem batch_points_go_to_live_registered_curves
    (d : IntrospectionCurveHandlerPrivate) (live : gset PlotCurveWeakPtr)
    (msg : msgs.Param_V) (calls : list AddPoint_call) :
  OnIntrospection d live msg = Ok calls ->
  (exists l,
     collect d locals_init msg = Ok l /\
     (length (curvesUpdates l) <= length msg)%nat) /\
  forall c pt,
    In (c, pt) calls ->
    c ∈ live /\ exists e, In e (curves d) /\ holds c e.
Proof.
  intros Hon. split; [|intros c pt; now apply (calls_are_held d live msg calls)].
  unfold OnIntrospection in Hon.
  destruct (collect d locals_init msg) as [l|e] eqn:Hc; simpl in Hon;
    [|discriminate].
  destruct (collect_updates d msg locals_init l Hc) as (ups & Hups & Hlen & _).
  simpl in Hups. subst ups. eauto.
Qed.

Lemma collect_param_skipped d l param :
  unnamed_or_valueless param -> collect_param d l param = Ok l.
Proof.
  intros [Hn|Hv]; unfold collect_param.
  - now rewrite Hn.
  - rewrite Hv. destruct (String.eqb (msgs.name param) ""); reflexivity.
Qed.

(** X3. A parameter without a name or without a value has no effect on
    its batch: the batch adds the same points as without it. *)
Theorem unnamed_or_valueless_parameter_is_ignored
    (d : IntrospectionCurveHandlerPrivate) (live : gset PlotCurveWeakPtr)
    (before after : list msgs.Param) (param : msgs.Param) :
  unnamed_or_valueless param ->
  OnIntrospection d live (before ++ param :: after)%list =
  OnIntrospection d live (before ++ after)%list.
Proof.
  intros Hskip. unfold OnIntrospection. rewrite !collect_app.
  destruct (collect d locals_init before) as [l|e]; simpl; [|reflexivity].
  now rewrite (collect_param_skipped d l param Hskip).
Qed.

(** X4. A VECTOR3D parameter that carries a vector and resolves to an
    entry whose URI has an empty query string makes the callback throw
    [std::out_of_range] wherever it stands in the batch, and no point is
    added at all: the updates buffered for the parameters before it are
    lost. *)
Theorem vector_on_empty_query_discards_the_batch
    (d : IntrospectionCurveHandlerPrivate) (live : gset PlotCurveWeakPtr)
    (before after : list msgs.Param) (param : msgs.Param) (l : locals)
    (paramValue : msgs.Any) (vec : Vector3d) (it : CurveMap.entry) :
  collect d locals_init before = Ok l ->
  msgs.name param <> "" ->
  msgs.value param = Some paramValue ->
  msgs.type paramValue = msgs.VECTOR3D ->
  msgs.vector3d_value paramValue = Some vec ->
  resolve (curves d) (msgs.name param) = Some it ->
  URI_Query_Str (fst it) = "" ->
  OnIntrospection d live (before ++ param :: after)%list = Throw out_of_range.
Proof.
  intros Hb Hn Hv Hty Hvec Hr Hq.
  unfold OnIntrospection. rewrite collect_app, Hb. simpl.
  rewrite (collect_param_resolved d l param paramValue it Hn Hv Hr).
  unfold decode. rewrite Hty, Hvec. cbv zeta. rewrite Hq. reflexivity.
Qed.

Lemma starts_with_refl (s : string) : StdString.starts_with s s = true.
Proof.
  induction s as [|a s IH]; simpl; [reflexivity|].
  now rewrite Ascii.eqb_refl, IH.
Qed.

(** X5. A parameter resolves to no registry entry exactly when no name of
    the registry starts with the parameter's name; and the entry it
    resolves to is an entry of the registry whose name is the parameter's
    name or extends it. *)
Theorem resolve_is_by_name_prefix (m : CurveMap.t) (paramName : string) :
  (resolve m paramName = None <->
   Forall (fun e : CurveMap.entry =>
             StdString.starts_with paramName (fst e) = false) m) /\
  (forall it,
     resolve m paramName = Some it ->
     In it m /\ exists rest, fst it = paramName +:+ rest).
Proof.
  split.
  - unfold resolve, CurveMap.find. split.
    + destruct (List.find (fun e => String.eqb (fst e) paramName) m);
        [discriminate|].
      intros Hnone. apply List.Forall_forall. intros e He.
      pose proof (List.find_none _ _ Hnone e He) as Hf. simpl in Hf.
      now rewrite find_is_0_starts_with in Hf.
    + intros Hall. rewrite List.Forall_forall in Hall.
      destruct (List.find (fun e => String.eqb (fst e) paramName) m)
        as [e|] eqn:Hf.
      * apply List.find_some in Hf. destruct Hf as [He Heq].
        apply String.eqb_eq in Heq. specialize (Hall e He).
        rewrite Heq, starts_with_refl in Hall. discriminate.
      * destruct (List.find
                    (fun cIt => StdString.find_is_0 (fst cIt) paramName) m)
          as [e|] eqn:Hp; [|reflexivity].
        apply List.find_some in Hp. destruct Hp as [He Hpre].
        rewrite find_is_0_starts_with in Hpre.
        specialize (Hall e He). simpl in Hall. congruence.
  - intros it Hr. split; [eapply resolve_In; eassumption|].
    unfold resolve, CurveMap.find in Hr.
    destruct (List.find (fun e => String.eqb (fst e) paramName) m)
      as [e|] eqn:Hf.
    + injection Hr as <-. apply List.find_some in Hf. destruct Hf as [_ Heq].
      apply String.eqb_eq in Heq. apply starts_with_prefix.
      rewrite Heq. apply starts_with_refl.
    + apply List.find_some in Hr. destruct Hr as [_ Hpre].
      rewrite find_is_0_starts_with in Hpre. now apply starts_with_prefix.
Qed.

(** X6. A pose parameter on an entry whose query string does not hold
    "position" is decoded without an exception, and validly only when the
    query string holds both "orientation" and "yaw"; the value is then the
    Euler Z angle of the rotation. *)
Theorem pose_orientation_is_valid_only_with_yaw (paramValue : msgs.Any)
    (curveVarName : string) (p : Pose3d) :
  msgs.type paramValue = msgs.POSE3D ->
  msgs.pose3d_value paramValue = Some p ->
  StdString.find_not_npos (URI_Query_Str curveVarName) "position" = false ->
  exists validData data,
    decode paramValue curveVarName = Ok (validData, data) /\
    validData =
      StdString.find_not_npos (URI_Query_Str curveVarName) "orientation"
      && StdString.find_not_npos (URI_Query_Str curveVarName) "yaw" /\
    (validData = true -> data = math.Z (Euler (math.Rot p))).
Proof.
  intros Hty Hp Hpos. unfold decode. rewrite Hty, Hp. cbv zeta. rewrite Hpos.
  destruct (StdString.find_not_npos (URI_Query_Str curveVarName) "orientation").
  - unfold QuaterniondFromQuery.
    destruct (StdString.find_not_npos (URI_Query_Str curveVarName) "yaw");
      eexists _, _; split; try reflexivity; split; try reflexivity;
      try discriminate.
  - eexists _, _. split; [reflexivity|]. split; [reflexivity | discriminate].
Qed.

End BatchFurther.

(** ** The filter, further *)

Section FilterFurther.

Context {U : URIModel}.

Lemma set_filter_same d :
  set_filter (introspectFilter d) (introspectFilterCount d) d = d.
Proof. destruct d; reflexivity. Qed.

(** Releasing the reference that was just added gives the data back. *)
Lemma add_release_reference item d d1 :
  filter_consistent d ->
  add_reference item d = Some d1 ->
  release_reference item d1 = Some d.
Proof.
  intros [Hdom Hpos] Hadd. unfold add_reference in Hadd.
  case_bool_decide as Hin.
  - assert (Hc : exists c0, introspectFilterCount d !! item = Some c0).
    { rewrite <- Hdom in Hin. now apply elem_of_dom in Hin. }
    destruct Hc as [c0 Hc0]. pose proof (Hpos _ _ Hc0) as Hr.
    rewrite Hc0 in Hadd. simpl in Hadd. unfold int_incr in Hadd.
    destruct (Z.ltb_spec c0 INT_MAX) as [Hlt|]; [|discriminate].
    simpl in Hadd. injection Hadd as <-.
    unfold release_reference. simpl.
    rewrite bool_decide_true by assumption.
    rewrite lookup_insert_eq. simpl. unfold int_decr.
    destruct (Z.ltb_spec INT_MIN (c0 + 1)) as [_|Hle];
      [|unfold INT_MIN in Hle; lia].
    simpl. replace (c0 + 1 - 1) with c0 by lia.
    assert (Hz : int_eq_0u c0 = false).
    { destruct (int_eq_0u c0) eqn:Hz; [|reflexivity].
      apply int_eq_0u_spec in Hz; lia. }
    rewrite Hz. unfold set_filter. simpl.
    rewrite insert_insert_eq, (insert_id _ _ _ Hc0).
    destruct d; reflexivity.
  - injection Hadd as <-.
    assert (Hc : introspectFilterCount d !! item = None).
    { apply not_elem_of_dom. now rewrite Hdom. }
    unfold release_reference. simpl.
    rewrite bool_decide_true by set_solver.
    rewrite lookup_insert_eq. simpl.
    change (int_decr 1) with (Some 0). simpl.
    change (int_eq_0u 0) with true. cbv iota.
    unfold set_filter. simpl.
    rewrite delete_insert_eq, (delete_id _ _ Hc).
    replace (({[item]} ∪ introspectFilter d) ∖ {[item]}) with (introspectFilter d)
      by set_solver.
    destruct d; reflexivity.
Qed.

(** X7. [RemoveItemFromFilter] undoes [AddItemToFilter]: called with the
    same name and the same remote items on the data [AddItemToFilter]
    returned, it gives back the data [AddItemToFilter] started from, when
    the filter and the count map agreed there. *)
Theorem RemoveItemFromFilter_undoes_AddItemToFilter (items : list string)
    (_name : string) (d d1 : IntrospectionCurveHandlerPrivate) :
  filter_consistent d ->
  AddItemToFilter items _name d = Some d1 ->
  RemoveItemFromFilter items _name d1 = Some d.
Proof.
  intros Hc. rewrite AddItemToFilter_selected, RemoveItemFromFilter_selected.
  destruct (selected items _name) as [item|].
  - now apply add_release_reference.
  - now intros [= <-].
Qed.

(** X8. A name that is not a valid URI, or that no remote item matches
    (as when the client lists no items), subscribes nothing: [AddCurve]
    with it changes neither the filter nor the counts, and the filter
    operations return the data as it is. *)
Theorem unmatched_name_leaves_the_filter (items : list string)
    (live : gset PlotCurveWeakPtr) (_name : string)
    (_curve : PlotCurveWeakPtr) (d : IntrospectionCurveHandlerPrivate) :
  URI_Valid _name = false \/
  Forall (fun item => item_matches _name item = false) items ->
  AddItemToFilter items _name d = Some d /\
  RemoveItemFromFilter items _name d = Some d /\
  exists d',
    AddCurve items live _name _curve d = Some d' /\
    introspectFilter d' = introspectFilter d /\
    introspectFilterCount d' = introspectFilterCount d.
Proof.
  intros Hcase.
  assert (Hsel : selected items _name = None).
  { unfold selected. destruct Hcase as [->|Hall]; [reflexivity|].
    destruct (URI_Valid _name); [|reflexivity].
    destruct (List.find (item_matches _name) items) as [item|] eqn:Hf;
      [|reflexivity].
    apply List.find_some in Hf. destruct Hf as [Hin Hm].
    rewrite List.Forall_forall in Hall. rewrite (Hall item Hin) in Hm.
    discriminate. }
  assert (Hadd : forall d0, AddItemToFilter items _name d0 = Some d0).
  { intros d0. now rewrite AddItemToFilter_selected, Hsel. }
  split; [apply Hadd|].
  split; [now rewrite RemoveItemFromFilter_selected, Hsel|].
  unfold AddCurve. destruct (negb (lock live _curve)); [eauto|].
  destruct (CurveMap.find (curves d) _name) as [it|].
  - destruct (CurveVariableSet.find (snd it) _curve); eauto.
  - rewrite Hadd. eauto.
Qed.

End FilterFurther.

(** ** The registry, further *)

Section RegistryFurther.

Context {U : URIModel}.

Lemma set_find_In (s : CurveVariableSet.t) c :
  CurveVariableSet.find s c = true <-> In c s.
Proof.
  induction s as [|x s IH]; simpl; [split; [discriminate | contradiction]|].
  rewrite orb_true_iff, Nat.eqb_eq, IH. reflexivity.
Qed.

Lemma set_find_false (s : CurveVariableSet.t) c :
  CurveVariableSet.find s c = false <-> ~ In c s.
Proof.
  rewrite <- set_find_In. destruct (CurveVariableSet.find s c); split;
    congruence.
Qed.

Lemma In_set_insert c c' (s : CurveVariableSet.t) :
  In c (CurveVariableSet.insert c' s) <-> c = c' \/ In c s.
Proof.
  induction s as [|x s IH]; simpl; [intuition|].
  destruct (Nat.ltb c' x); simpl; [intuition|].
  destruct (Nat.eqb_spec c' x) as [->|Hne]; simpl; [intuition|].
  rewrite IH. intuition.
Qed.

Lemma In_set_erase c c' (s : CurveVariableSet.t) :
  c <> c' -> In c s -> In c (CurveVariableSet.erase c' s).
Proof.
  intros Hne. induction s as [|x s IH]; simpl; [auto|].
  destruct (Nat.eqb_spec x c') as [->|Hx]; simpl.
  - intros [Heq|Hin]; [congruence | exact Hin].
  - intros [Heq|Hin]; [now left | right; now apply IH].
Qed.

Lemma find_assign k v (m : CurveMap.t) :
  CurveMap.find (CurveMap.assign k v m) k = Some (k, v).
Proof.
  unfold CurveMap.find. induction m as [|[k' v'] m IH]; simpl.
  - now rewrite String.eqb_refl.
  - destruct (String.compare k k') eqn:Hcmp; simpl.
    + now rewrite String.eqb_refl.
    + now rewrite String.eqb_refl.
    + destruct (String.eqb_spec k' k) as [->|Hne]; [|exact IH].
      pose proof (String.compare_antisym k k) as Hanti.
      rewrite Hcmp in Hanti. discriminate.
Qed.

Lemma find_key (m : CurveMap.t) k it :
  CurveMap.find m k = Some it -> fst it = k /\ In it m.
Proof.
  unfold CurveMap.find. intros Hf. apply List.find_some in Hf.
  destruct Hf as [Hin Heq]. apply String.eqb_eq in Heq. auto.
Qed.

Lemma find_modify (m : CurveMap.t) k f it :
  CurveMap.find m k = Some it ->
  CurveMap.find (CurveMap.modify k f m) k = Some (fst it, f (snd it)).
Proof.
  unfold CurveMap.find. induction m as [|[k' v'] m IH]; simpl; [discriminate|].
  destruct (String.eqb k' k) eqn:Heq; simpl; rewrite Heq.
  - now intros [= <-].
  - exact IH.
Qed.

Lemma AddCurve_registers items live _name _curve d d' :
  _curve ∈ live ->
  AddCurve items live _name _curve d = Some d' ->
  exists it,
    CurveMap.find (curves d') _name = Some it /\
    fst it = _name /\ holds _curve it.
Proof.
  intros Hlive Hadd.
  unfold AddCurve, lock in Hadd. rewrite bool_decide_true in Hadd by assumption.
  simpl in Hadd.
  destruct (CurveMap.find (curves d) _name) as [it|] eqn:Hf.
  - destruct (CurveVariableSet.find (snd it) _curve) eqn:Hh.
    + injection Hadd as <-. exists it. split; [exact Hf|].
      split; [eapply find_key; eassumption | now apply set_find_In].
    + injection Hadd as <-. simpl.
      exists (fst it, CurveVariableSet.insert _curve (snd it)).
      split; [now apply find_modify|].
      split; [simpl; eapply find_key; eassumption|].
      unfold holds. simpl. apply In_set_insert. now left.
  - apply AddItemToFilter_curves in Hadd. rewrite Hadd. simpl.
    exists (_name, [_curve]). split; [apply find_assign|].
    split; [reflexivity | now left].
Qed.

(** X9. After [AddCurve] with a live curve, the registry has an entry
    under the given name whose set holds the curve; and a second [AddCurve]
    of the same curve under the same name, whatever the remote items and
    the live curves are then, returns the data unchanged. *)
Theorem AddCurve_registers_and_is_idempotent (items : list string)
    (live : gset PlotCurveWeakPtr) (_name : string)
    (_curve : PlotCurveWeakPtr) (d d' : IntrospectionCurveHandlerPrivate) :
  _curve ∈ live ->
  AddCurve items live _name _curve d = Some d' ->
  (exists it,
     CurveMap.find (curves d') _name = Some it /\
     fst it = _name /\ holds _curve it) /\
  (forall items' live', AddCurve items' live' _name _curve d' = Some d').
Proof.
  intros Hlive Hadd.
  pose proof (AddCurve_registers _ _ _ _ _ _ Hlive Hadd) as Hreg.
  split; [exact Hreg|].
  intros items' live'. destruct Hreg as (it & Hf & _ & Hh).
  unfold AddCurve. destruct (negb (lock live' _curve)); [reflexivity|].
  rewrite Hf. apply set_find_In in Hh. now rewrite Hh.
Qed.

Lemma first_holder_assign c k (m : CurveMap.t) :
  CurveMap.find m k = None ->
  Forall (fun e : CurveMap.entry => CurveVariableSet.find (snd e) c = false) m ->
  exists before after,
    first_holder c (CurveMap.assign k [c] m) = Some (before, (k, [c]), after) /\
    (before ++ after)%list = m.
Proof.
  induction m as [|[k' v'] m IH]; simpl; intros Hf Hall.
  - rewrite Nat.eqb_refl. simpl. exists [], []. auto.
  - apply find_None_head in Hf. destruct Hf as [Hne Hf].
    inversion Hall as [|e m' He Hm]; subst. simpl in He.
    destruct (String.compare k k') eqn:Hcmp; simpl.
    + apply String.compare_eq_iff in Hcmp. contradiction.
    + rewrite Nat.eqb_refl. simpl. exists [], ((k', v') :: m). auto.
    + rewrite He. destruct (IH Hf Hm) as (before & after & Hh & Happ).
      rewrite Hh. exists ((k', v') :: before), after.
      split; [reflexivity | simpl; now rewrite Happ].
Qed.

(** X10. [RemoveCurve] undoes [AddCurve]: for a live curve that no
    variable set holds and a name the registry does not have, with the
    filter and the count map in agreement, [AddCurve] followed by
    [RemoveCurve] (same remote items) gives back exactly the data it
    started from: registry, filter and counts. *)
Theorem RemoveCurve_undoes_AddCurve (items : list string)
    (live : gset PlotCurveWeakPtr) (_name : string)
    (_curve : PlotCurveWeakPtr) (d d1 : IntrospectionCurveHandlerPrivate) :
  _curve ∈ live ->
  CurveMap.find (curves d) _name = None ->
  Forall (fun e : CurveMap.entry => ~ holds _curve e) (curves d) ->
  filter_consistent d ->
  AddCurve items live _name _curve d = Some d1 ->
  RemoveCurve items live _curve d1 = Some d.
Proof.
  intros Hlive Hf Hnone Hc Hadd.
  assert (Hnone' : Forall (fun e : CurveMap.entry =>
                             CurveVariableSet.find (snd e) _curve = false)
                     (curves d)).
  { eapply List.Forall_impl; [|exact Hnone]. intros e He.
    now apply set_find_false. }
  unfold AddCurve, lock in Hadd. rewrite bool_decide_true in Hadd by assumption.
  simpl in Hadd. rewrite Hf in Hadd.
  set (d0 := set_curves (CurveMap.assign _name [_curve] (curves d)) d) in *.
  pose proof (AddItemToFilter_curves _ _ _ _ Hadd) as Hcu.
  assert (Hback : RemoveItemFromFilter items _name d1 = Some d0).
  { revert Hadd.
    rewrite AddItemToFilter_selected, RemoveItemFromFilter_selected.
    destruct (selected items _name) as [item|].
    - now apply add_release_reference.
    - now intros [= <-]. }
  unfold RemoveCurve, lock. rewrite bool_decide_true by assumption. simpl.
  rewrite RemoveCurve_loop_first_holder, Hcu. subst d0. simpl curves.
  destruct (first_holder_assign _curve _name (curves d) Hf Hnone')
    as (before & after & Hh & Happ).
  rewrite Hh. cbv zeta. simpl CurveVariableSet.erase. rewrite Nat.eqb_refl.
  simpl CurveVariableSet.empty. cbv iota. rewrite Hback. simpl.
  rewrite Happ. destruct d; reflexivity.
Qed.

Lemma assign_Exists (P : CurveMap.entry -> Prop) k v (m : CurveMap.t) :
  CurveMap.find m k = None -> Exists P m -> Exists P (CurveMap.assign k v m).
Proof.
  induction m as [|[k' v'] m IH]; simpl; intros Hf Hex; [inversion Hex|].
  apply find_None_head in Hf. destruct Hf as [Hne Hf].
  destruct (String.compare k k') eqn:Hcmp.
  - apply String.compare_eq_iff in Hcmp. contradiction.
  - now apply List.Exists_cons_tl.
  - inversion Hex; subst; [now apply List.Exists_cons_hd|].
    apply List.Exists_cons_tl. now apply IH.
Qed.

Lemma modify_Exists (P : CurveMap.entry -> Prop) k f (m : CurveMap.t) :
  (forall k' v, P (k', v) -> P (k', f v)) ->
  Exists P m -> Exists P (CurveMap.modify k f m).
Proof.
  intros Hf. induction m as [|[k' v'] m IH]; simpl; intros Hex;
    [inversion Hex|].
  destruct (String.eqb k' k); inversion Hex; subst.
  - apply List.Exists_cons_hd. now apply Hf.
  - now apply List.Exists_cons_tl.
  - now apply List.Exists_cons_hd.
  - apply List.Exists_cons_tl. now apply IH.
Qed.

(** A call at which the curve is dead keeps it in the set of its name. *)
Lemma run_call_keeps_dead_curve c _name _curve d d' :
  dead_at _curve c ->
  Exists (fun e : CurveMap.entry => fst e = _name /\ holds _curve e) (curves d) ->
  run_call c d = Some d' ->
  Exists (fun e : CurveMap.entry => fst e = _name /\ holds _curve e) (curves d').
Proof.
  intros Hdead Hex Hrun.
  destruct c as [items live n cv|items live cv|items n|items n];
    simpl in Hdead, Hrun.
  - unfold AddCurve, lock in Hrun. case_bool_decide as Hlive; simpl in Hrun;
      [|now injection Hrun as <-].
    destruct (CurveMap.find (curves d) n) as [it|] eqn:Hf.
    + destruct (CurveVariableSet.find (snd it) cv);
        injection Hrun as <-; [exact Hex|].
      simpl. apply modify_Exists; [|exact Hex].
      intros k' v [Hk Hv]. split; [exact Hk|].
      unfold holds in *. simpl in *. apply In_set_insert. now right.
    + apply AddItemToFilter_curves in Hrun. rewrite Hrun. simpl.
      now apply assign_Exists.
  - unfold RemoveCurve, lock in Hrun. case_bool_decide as Hlive; simpl in Hrun;
      [|now injection Hrun as <-].
    assert (Hne : _curve <> cv) by congruence.
    rewrite RemoveCurve_loop_first_holder in Hrun.
    destruct (first_holder cv (curves d)) as [[[before [k s]] after]|] eqn:Hh.
    2:{ simpl in Hrun. injection Hrun as <-. now rewrite set_curves_same. }
    apply first_holder_Some in Hh. destruct Hh as (Hm & _ & _).
    rewrite Hm in Hex. apply List.Exists_app in Hex.
    cbv zeta in Hrun.
    destruct (CurveVariableSet.empty (CurveVariableSet.erase cv s)) eqn:He.
    + destruct (RemoveItemFromFilter items k d) as [d''|]; simpl in Hrun;
        [|discriminate].
      injection Hrun as <-. simpl. apply List.Exists_app.
      destruct Hex as [Hb|Ha]; [now left|].
      inversion Ha as [e l Hp|]; subst; [|now right].
      destruct Hp as [Hk Hv]. unfold holds in Hv. simpl in Hv.
      apply (In_set_erase _ cv _ Hne) in Hv.
      destruct (CurveVariableSet.erase cv s); [contradiction | discriminate].
    + simpl in Hrun. injection Hrun as <-. simpl. apply List.Exists_app.
      destruct Hex as [Hb|Ha]; [now left|]. right.
      inversion Ha as [e l Hp|]; subst.
      * destruct Hp as [Hk Hv].
        apply List.Exists_cons_hd. split; [exact Hk|].
        unfold holds in *. simpl in *. now apply In_set_erase.
      * now apply List.Exists_cons_tl.
  - apply AddItemToFilter_curves in Hrun. now rewrite Hrun.
  - apply RemoveItemFromFilter_curves in Hrun. now rewrite Hrun.
Qed.

(** X12. A curve that has died while registered stays registered: through
    every sequence of calls at which the curve is dead, the entry of its
    name keeps it in its set, so that entry is never deleted, whichever
    other curves are added and removed. *)
Theorem dead_curve_is_never_unregistered (cs : list call) (_name : string)
    (_curve : PlotCurveWeakPtr) :
  forall d d' : IntrospectionCurveHandlerPrivate,
  Forall (dead_at _curve) cs ->
  Exists (fun e : CurveMap.entry => fst e = _name /\ holds _curve e) (curves d) ->
  run cs d = Some d' ->
  Exists (fun e : CurveMap.entry => fst e = _name /\ holds _curve e) (curves d').
Proof.
  induction cs as [|c cs IH]; intros d d' Hall Hex; simpl.
  - now intros [= <-].
  - apply List.Forall_cons_iff in Hall. destruct Hall as [Hc Hall].
    destruct (run_call c d) as [d1|] eqn:Hd1; simpl; [|discriminate].
    apply (IH d1 d' Hall).
    eapply run_call_keeps_dead_curve; eassumption.
Qed.

End RegistryFurther.

(** ** Subscriptions and registry entries, further *)

Section TrackingFurther.

Context {U : URIModel}.

Lemma count_of_lookup d item :
  filter_consistent d ->
  (item ∈ introspectFilter d <-> 1 <= count_of d item) /\
  (1 <= count_of d item ->
   introspectFilterCount d !! item = Some (count_of d item)).
Proof.
  intros [Hdom Hpos]. unfold count_of. rewrite <- Hdom, elem_of_dom.
  destruct (introspectFilterCount d !! item) as [c|] eqn:Hc; simpl.
  - specialize (Hpos _ _ Hc). split; [|auto]. split; [lia | eauto].
  - split; [|lia]. split; [intros [x Hx]; discriminate | lia].
Qed.

Lemma references_selected items item (m : CurveMap.t) :
  (1 <= references items item m)%nat ->
  exists _name, In _name (names m) /\ selected items _name = Some item.
Proof.
  unfold references. intros Hpos.
  destruct (List.filter
              (fun n => bool_decide (selected items n = Some item)) (names m))
    as [|n rest] eqn:Hf; [simpl in Hpos; lia|].
  assert (Hin : In n (n :: rest)) by now left.
  rewrite <- Hf in Hin. apply List.filter_In in Hin. destruct Hin as [Hin Hs].
  apply bool_decide_eq_true in Hs. eauto.
Qed.

(** X13. Calls of [AddCurve] and [RemoveCurve], all made with the same
    remote items on the data after setup, never release the subscription
    of the sim time variable: it stays in the filter with a count of at
    least 1, also when curves are added and removed under its own name. *)
Theorem sim_time_stays_subscribed (items : list string) (cs : list call)
    (d : IntrospectionCurveHandlerPrivate) :
  Forall (fun c => is_curve_call c = true /\ call_items c = items) cs ->
  run cs after_setup = Some d ->
  simTimeVar ∈ introspectFilter d /\
  exists count,
    introspectFilterCount d !! simTimeVar = Some count /\ 1 <= count.
Proof.
  intros Hall Hrun.
  destruct (run_tracks items cs after_setup d Hall after_setup_consistent
              (after_setup_tracks items) Hrun) as [Hc Htr].
  assert (Hge : 1 <= count_of d simTimeVar).
  { rewrite (Htr simTimeVar). unfold setup_reference.
    rewrite bool_decide_true by reflexivity. lia. }
  destruct (count_of_lookup d simTimeVar Hc) as [Hin Hl].
  split; [now apply Hin|]. exists (count_of d simTimeVar). auto.
Qed.

(** X14. After such calls, every item of the filter other than the sim
    time variable is one of the remote items and is the item selected by
    the name of some registry entry: the filter holds nothing that no
    registered name asks for. *)
Theorem filter_items_are_asked_for (items : list string) (cs : list call)
    (d : IntrospectionCurveHandlerPrivate) (item : string) :
  Forall (fun c => is_curve_call c = true /\ call_items c = items) cs ->
  run cs after_setup = Some d ->
  item ∈ introspectFilter d ->
  item = simTimeVar \/
  (In item items /\
   exists _name,
     In _name (names (curves d)) /\ selected items _name = Some item).
Proof.
  intros Hall Hrun Hin.
  destruct (run_tracks items cs after_setup d Hall after_setup_consistent
              (after_setup_tracks items) Hrun) as [Hc Htr].
  destruct (decide (item = simTimeVar)) as [Heq|Hne]; [now left|right].
  apply (count_of_lookup d item Hc) in Hin.
  rewrite (Htr item) in Hin. unfold setup_reference in Hin.
  rewrite bool_decide_false in Hin by assumption.
  destruct (references_selected items item (curves d)) as (n & Hn & Hs); [lia|].
  split; [|eauto]. now apply (selected_matches items n item).
Qed.

(** X15. Whenever such calls leave the registry empty, the data is exactly
    the data after setup: every subscription taken for a curve has been
    released, and the filter is the sim time variable with count 1. *)
Theorem empty_registry_means_initial_filter (items : list string)
    (cs : list call) (d : IntrospectionCurveHandlerPrivate) :
  Forall (fun c => is_curve_call c = true /\ call_items c = items) cs ->
  run cs after_setup = Some d ->
  curves d = [] ->
  d = after_setup.
Proof.
  intros Hall Hrun Hempty.
  destruct (run_tracks items cs after_setup d Hall after_setup_consistent
              (after_setup_tracks items) Hrun) as [Hc Htr].
  assert (Hcount : forall i, count_of d i = setup_reference i).
  { intros i. rewrite (Htr i), Hempty. unfold references. simpl. lia. }
  assert (Hmap : introspectFilterCount d = <[simTimeVar := 1]> ∅).
  { apply map_eq. intros i. specialize (Hcount i).
    unfold count_of, setup_reference in Hcount. destruct Hc as [_ Hpos].
    destruct (decide (i = simTimeVar)) as [->|Hne].
    - rewrite lookup_insert_eq. rewrite bool_decide_true in Hcount by reflexivity.
      destruct (introspectFilterCount d !! simTimeVar) as [c|] eqn:Hl;
        simpl in Hcount; [now subst | discriminate].
    - rewrite lookup_insert_ne, lookup_empty by congruence.
      rewrite bool_decide_false in Hcount by assumption.
      destruct (introspectFilterCount d !! i) as [c|] eqn:Hl; [|reflexivity].
      simpl in Hcount. specialize (Hpos _ _ Hl). lia. }
  assert (Hfilter : introspectFilter d = {[simTimeVar]}).
  { destruct Hc as [<- _]. rewrite Hmap, dom_insert_L, dom_empty_L.
    set_solver. }
  destruct d as [m f cnt]. simpl in *. subst. reflexivity.
Qed.

End TrackingFurther.

(** ** Registry and batches together *)

Section RegistryAndBatches.

Context {U : URIModel} {M : MathModel}.

(** X16. A curve added with [AddCurve] gets the samples of its name: on
    the data [AddCurve] returned, a batch of one DOUBLE parameter of that
    name with the value v makes a call of [AddPoint] with the point (0, v)
    on the curve, as long as the curve is alive. *)
Theorem added_curve_receives_samples (items : list string)
    (live live' : gset PlotCurveWeakPtr) (_name : string)
    (_curve : PlotCurveWeakPtr) (d d' : IntrospectionCurveHandlerPrivate)
    (v : float) :
  _curve ∈ live ->
  _curve ∈ live' ->
  _name <> "" ->
  AddCurve items live _name _curve d = Some d' ->
  exists calls,
    OnIntrospection d' live' [msgs.mkParam _name (Some (any_double v))]
    = Ok calls /\
    In (_curve, math.mkVector2d 0 v) calls.
Proof.
  intros Hlive Hlive' Hn Hadd.
  destruct (AddCurve_registers _ _ _ _ _ _ Hlive Hadd) as (it & Hf & _ & Hh).
  assert (Hr : resolve (curves d') _name = Some it).
  { unfold resolve. now rewrite Hf. }
  unfold OnIntrospection. rewrite collect_cons.
  rewrite (collect_param_resolved d' locals_init _ (any_double v) it);
    [|exact Hn | reflexivity | exact Hr].
  assert (Hsee : see_sim_time locals_init (msgs.mkParam _name (Some (any_double v)))
                   (any_double v) = locals_init).
  { unfold see_sim_time. simpl.
    destruct (String.eqb _name simTimeVar); reflexivity. }
  rewrite Hsee. simpl.
  eexists. split; [reflexivity|].
  rewrite update_push_back. simpl. apply update_curves_point.
  auto.
Qed.

Lemma insert_sorted c (s : CurveVariableSet.t) :
  StronglySorted Nat.lt s -> StronglySorted Nat.lt (CurveVariableSet.insert c s).
Proof.
  induction s as [|x s IH]; simpl; intros Hs.
  - constructor; constructor.
  - inversion Hs as [|y l Hl Hx]; subst.
    destruct (Nat.ltb_spec c x) as [Hlt|Hge].
    + constructor; [exact Hs|]. constructor; [exact Hlt|].
      eapply List.Forall_impl; [|exact Hx]. intros a Ha. unfold Nat.lt in *. lia.
    + destruct (Nat.eqb_spec c x) as [->|Hne]; [exact Hs|].
      constructor; [now apply IH|].
      apply List.Forall_forall. intros a Ha. apply In_set_insert in Ha.
      destruct Ha as [->|Ha]; [unfold Nat.lt; lia|].
      rewrite List.Forall_forall in Hx. now apply Hx.
Qed.

Lemma In_erase_In c a (s : CurveVariableSet.t) :
  In a (CurveVariableSet.erase c s) -> In a s.
Proof.
  induction s as [|x s IH]; simpl; [auto|].
  destruct (Nat.eqb x c); simpl; [auto|]. intros [Ha|Ha]; auto.
Qed.

Lemma erase_sorted c (s : CurveVariableSet.t) :
  StronglySorted Nat.lt s -> StronglySorted Nat.lt (CurveVariableSet.erase c s).
Proof.
  induction s as [|x s IH]; simpl; intros Hs; [exact Hs|].
  inversion Hs as [|y l Hl Hx]; subst.
  destruct (Nat.eqb x c); [exact Hl|].
  constructor; [now apply IH|].
  apply List.Forall_forall. intros a Ha. apply In_erase_In in Ha.
  rewrite List.Forall_forall in Hx. now apply Hx.
Qed.

Lemma erase_removes c (s : CurveVariableSet.t) :
  StronglySorted Nat.lt s -> ~ In c (CurveVariableSet.erase c s).
Proof.
  induction s as [|x s IH]; simpl; intros Hs; [auto|].
  inversion Hs as [|y l Hl Hx]; subst.
  destruct (Nat.eqb_spec x c) as [->|Hne].
  - intros Hin. rewrite List.Forall_forall in Hx. specialize (Hx c Hin).
    unfold Nat.lt in Hx. lia.
  - intros [Heq|Hin]; [contradiction | now apply IH].
Qed.

Lemma modify_Forall_impl (P : CurveMap.entry -> Prop) k f (m : CurveMap.t) :
  (forall k' v, P (k', v) -> P (k', f v)) ->
  Forall P m -> Forall P (CurveMap.modify k f m).
Proof.
  intros Hf. induction m as [|[k' v'] m IH]; simpl; intros Hall;
    [constructor|].
  inversion Hall; subst.
  destruct (String.eqb k' k); constructor; auto.
Qed.

Lemma run_call_sorted c d d' :
  sets_sorted d -> run_call c d = Some d' -> sets_sorted d'.
Proof.
  intros Hs Hrun. unfold sets_sorted in *.
  destruct c as [items live n cv|items live cv|items n|items n]; simpl in Hrun.
  - unfold AddCurve in Hrun. destruct (negb (lock live cv));
      [now injection Hrun as <-|].
    destruct (CurveMap.find (curves d) n) as [it|].
    + destruct (CurveVariableSet.find (snd it) cv); injection Hrun as <-;
        [exact Hs|].
      simpl. apply modify_Forall_impl; [|exact Hs].
      intros k' v. simpl. apply insert_sorted.
    + apply AddItemToFilter_curves in Hrun. rewrite Hrun. simpl.
      apply assign_Forall; [|exact Hs]. simpl. constructor; constructor.
  - unfold RemoveCurve in Hrun. destruct (negb (lock live cv));
      [now injection Hrun as <-|].
    rewrite RemoveCurve_loop_first_holder in Hrun.
    destruct (first_holder cv (curves d)) as [[[before [k s]] after]|] eqn:Hh.
    2:{ simpl in Hrun. injection Hrun as <-. now rewrite set_curves_same. }
    apply first_holder_Some in Hh. destruct Hh as (Hm & _ & _).
    rewrite Hm in Hs. apply List.Forall_app in Hs. destruct Hs as [Hb Ha].
    inversion Ha as [|e l He Hafter]; subst. cbv zeta in Hrun.
    destruct (CurveVariableSet.empty (CurveVariableSet.erase cv s)).
    + destruct (RemoveItemFromFilter items k d) as [d''|]; simpl in Hrun;
        [|discriminate].
      injection Hrun as <-. simpl. apply List.Forall_app. auto.
    + simpl in Hrun. injection Hrun as <-. simpl. apply List.Forall_app.
      split; [exact Hb|]. constructor; [|exact Hafter].
      simpl in *. now apply erase_sorted.
  - apply AddItemToFilter_curves in Hrun. now rewrite Hrun.
  - apply RemoveItemFromFilter_curves in Hrun. now rewrite Hrun.
Qed.

Lemma run_sorted cs : forall d d',
  sets_sorted d -> run cs d = Some d' -> sets_sorted d'.
Proof.
  induction cs as [|c cs IH]; intros d d' Hs; simpl.
  - now intros [= <-].
  - destruct (run_call c d) as [d1|] eqn:Hd1; simpl; [|discriminate].
    apply IH. eapply run_call_sorted; eassumption.
Qed.

(** X17. On data reached by calls from the data after setup, [RemoveCurve]
    of a live curve that only one entry holds leaves no variable set that
    holds it, and from then on no batch adds a point to that curve. *)
Theorem removed_curve_gets_no_more_points (cs : list call)
    (items : list string) (live : gset PlotCurveWeakPtr)
    (_curve : PlotCurveWeakPtr) (d d' : IntrospectionCurveHandlerPrivate)
    (before after : CurveMap.t) (h : CurveMap.entry) :
  run cs after_setup = Some d ->
  _curve ∈ live ->
  first_holder _curve (curves d) = Some (before, h, after) ->
  Forall (fun e => ~ holds _curve e) after ->
  RemoveCurve items live _curve d = Some d' ->
  Forall (fun e => ~ holds _curve e) (curves d') /\
  forall live' msg calls pt,
    OnIntrospection d' live' msg = Ok calls -> ~ In (_curve, pt) calls.
Proof.
  intros Hrun Hlive Hh Hafter Hrem.
  assert (Hsorted : sets_sorted d).
  { eapply run_sorted; [|exact Hrun]. constructor. }
  assert (Hnone : Forall (fun e => ~ holds _curve e) (curves d')).
  { unfold RemoveCurve, lock in Hrem.
    rewrite bool_decide_true in Hrem by assumption. simpl in Hrem.
    rewrite RemoveCurve_loop_first_holder, Hh in Hrem. destruct h as [k s].
    apply first_holder_Some in Hh. destruct Hh as (Hm & _ & Hbefore).
    assert (Hb : Forall (fun e => ~ holds _curve e) before).
    { eapply List.Forall_impl; [|exact Hbefore]. intros e He.
      now apply set_find_false. }
    unfold sets_sorted in Hsorted. rewrite Hm in Hsorted.
    apply List.Forall_app in Hsorted. destruct Hsorted as [_ Hs].
    inversion Hs as [|e l He _]; subst. simpl in He. cbv zeta in Hrem.
    destruct (CurveVariableSet.empty (CurveVariableSet.erase _curve s)).
    - destruct (RemoveItemFromFilter items k d) as [d''|]; simpl in Hrem;
        [|discriminate].
      injection Hrem as <-. simpl. apply List.Forall_app. auto.
    - simpl in Hrem. injection Hrem as <-. simpl. apply List.Forall_app.
      split; [exact Hb|]. constructor; [|exact Hafter].
      unfold holds. simpl. now apply erase_removes. }
  split; [exact Hnone|].
  intros live' msg calls pt Hon Hin.
  destruct (calls_are_held d' live' msg calls _curve pt Hon Hin)
    as (_ & e & He & Hc).
  rewrite List.Forall_forall in Hnone. exact (Hnone e He Hc).
Qed.

End RegistryAndBatches.

(** ** What [RemoveCurve] removes *)

Section Removal.

Context {U : URIModel}.

(** X11. On data reached by calls from the data after setup,
    [RemoveCurve] of a live curve takes it out of one variable set only,
    the first that holds it. The registry after the call is the entries
    before that one, then that entry with its set less the curve (no
    entry when the curve was the only one of the set), then the entries
    after it: no entry up to and including the first holder holds the
    curve any more, the other curves of its set stay, and every other
    entry is as it was, so a curve that is also held under a later name is
    still registered. *)
Theorem RemoveCurve_unregisters_from_the_first_holder_only
    (cs : list call) (items : list string) (live : gset PlotCurveWeakPtr)
    (_curve : PlotCurveWeakPtr) (d d' : IntrospectionCurveHandlerPrivate)
    (before after : CurveMap.t) (h : CurveMap.entry) :
  run cs after_setup = Some d ->
  _curve ∈ live ->
  first_holder _curve (curves d) = Some (before, h, after) ->
  RemoveCurve items live _curve d = Some d' ->
  holds _curve h /\
  (exists rest,
     curves d' = (before ++ rest ++ after)%list /\
     Forall (fun e => ~ holds _curve e) (before ++ rest)%list /\
     (rest = [] \/
      exists s', rest = [(fst h, s')] /\ s' <> [] /\
        forall x, In x s' <-> In x (snd h) /\ x <> _curve) /\
     (rest = [] <-> forall x, In x (snd h) -> x = _curve)) /\
  Forall (fun e => In e (curves d')) (before ++ after)%list /\
  (Exists (holds _curve) after -> Exists (holds _curve) (curves d')).
Proof.
  intros Hrun Hlive Hh Hrem.
  assert (Hsorted : sets_sorted d).
  { eapply run_sorted; [|exact Hrun]. constructor. }
  unfold RemoveCurve, lock in Hrem.
  rewrite bool_decide_true in Hrem by assumption. simpl in Hrem.
  rewrite RemoveCurve_loop_first_holder, Hh in Hrem. destruct h as [k s].
  apply first_holder_Some in Hh. destruct Hh as (Hm & Hheld & Hbefore).
  simpl in Hheld. apply set_find_In in Hheld.
  assert (Hb : Forall (fun e => ~ holds _curve e) before).
  { eapply List.Forall_impl; [|exact Hbefore]. intros e He.
    now apply set_find_false. }
  unfold sets_sorted in Hsorted. rewrite Hm in Hsorted.
  apply List.Forall_app in Hsorted. destruct Hsorted as [_ Hs].
  inversion Hs as [|e l Hss _]; subst e l. simpl in Hss.
  assert (Herase : forall x,
            In x (CurveVariableSet.erase _curve s) <-> In x s /\ x <> _curve).
  { intros x. split.
    - intros Hx. split; [eapply In_erase_In; eassumption|].
      intros ->. exact (erase_removes _curve s Hss Hx).
    - intros [Hx Hne]. now apply In_set_erase. }
  assert (Hrest : exists rest,
     curves d' = (before ++ rest ++ after)%list /\
     Forall (fun e => ~ holds _curve e) (before ++ rest)%list /\
     (rest = [] \/
      exists s', rest = [(k, s')] /\ s' <> [] /\
        forall x, In x s' <-> In x s /\ x <> _curve) /\
     (rest = [] <-> forall x, In x s -> x = _curve)).
  { cbv zeta in Hrem.
    destruct (CurveVariableSet.empty (CurveVariableSet.erase _curve s)) eqn:He.
    - destruct (RemoveItemFromFilter items k d) as [d''|]; simpl in Hrem;
        [|discriminate].
      injection Hrem as <-. exists []. simpl.
      split; [reflexivity|]. split; [now rewrite app_nil_r|].
      split; [now left|]. split; [|reflexivity].
      intros _ x Hx. destruct (Nat.eq_dec x _curve) as [Heq|Hne]; [exact Heq|].
      assert (Hin : In x (CurveVariableSet.erase _curve s))
        by (apply Herase; auto).
      destruct (CurveVariableSet.erase _curve s); [contradiction | discriminate].
    - simpl in Hrem. injection Hrem as <-.
      exists [(k, CurveVariableSet.erase _curve s)]. simpl.
      split; [reflexivity|]. split.
      + apply List.Forall_app. split; [exact Hb|].
        constructor; [|constructor]. unfold holds. simpl.
        now apply erase_removes.
      + split.
        * right. exists (CurveVariableSet.erase _curve s).
          split; [reflexivity|]. split; [|exact Herase].
          now apply empty_false_nonempty.
        * split; [discriminate|]. intros Hall. exfalso.
          destruct (CurveVariableSet.erase _curve s) as [|y t] eqn:Hy;
            [discriminate|].
          assert (Hin : In y (y :: t)) by now left.
          apply Herase in Hin. destruct Hin as [Hin Hne].
          now apply Hne, Hall. }
  split; [exact Hheld|]. split; [exact Hrest|].
  destruct Hrest as (rest & Hcu & _).
  assert (Hall : Forall (fun e => In e (curves d')) (before ++ after)%list).
  { rewrite Hcu. apply List.Forall_forall. intros e He.
    apply in_app_or in He. apply in_or_app.
    destruct He as [He|He]; [now left|]. right. apply in_or_app. now right. }
  split; [exact Hall|].
  intros Hex. apply List.Exists_exists in Hex. destruct Hex as (e & He & Hc).
  apply List.Exists_exists. exists e. split; [|exact Hc].
  rewrite List.Forall_forall in Hall. apply Hall. apply in_or_app. now right.
Qed.

End Removal.

(** ** The setup *)

Section SetupProperties.

Context {U : URIModel}.

(** X18. What [SetupIntrospection] leaves behind. The registry is never
    touched. When it ends before the sim time variable is found registered
    (no manager, empty manager id, variable not registered), filter and
    counts are as before. From then on the filter is the sim time variable
    alone, with count 1, also when [NewFilter] or [Subscribe] fails. It
    ends subscribed only with the first manager id, non-empty, on which the
    sim time variable is registered, a successful [NewFilter] for the
    filter of the sim time variable, and a successful [Subscribe] to the
    topic [NewFilter] gave. *)
Theorem SetupIntrospection_outcomes (env : SetupEnvironment)
    (h h' : HandlerData) (r : setup_outcome) :
  SetupIntrospection_steps env h = (h', r) ->
  curves (priv h') = curves (priv h) /\
  (r = NoManagers \/ r = EmptyManagerId \/ r = SimTimeNotRegistered ->
   priv h' = priv h /\
   introspectFilterId h' = introspectFilterId h /\
   introspectFilterTopic h' = introspectFilterTopic h) /\
  (r = NewFilterFailed \/ r = SubscribeFailed \/ r = Subscribed ->
   introspectFilter (priv h') = {[simTimeVar]} /\
   introspectFilterCount (priv h') !! simTimeVar = Some 1) /\
  (r = Subscribed ->
   exists rest,
     WaitForManagers env = managerId h' :: rest /\
     managerId h' <> "" /\
     IsRegistered env (managerId h') simTimeVar = true /\
     NewFilter env (managerId h') {[simTimeVar]}
       = (true, introspectFilterId h', introspectFilterTopic h') /\
     Subscribe env (introspectFilterTopic h') = true).
Proof.
  unfold SetupIntrospection_steps.
  destruct (WaitForManagers env) as [|first rest] eqn:Hw.
  { intros [= <- <-]. repeat split; try discriminate; intuition discriminate. }
  destruct (String.eqb_spec first "") as [He|He].
  { intros [= <- <-]. simpl. repeat split; try discriminate;
      intuition discriminate. }
  destruct (IsRegistered env first simTimeVar) eqn:Hreg; simpl.
  2:{ intros [= <- <-]. simpl. repeat split; try discriminate;
        intuition discriminate. }
  destruct (NewFilter env first {[simTimeVar]}) as [[ok id] topic] eqn:Hnew.
  assert (Hlookup :
    (<[simTimeVar := 1]> (introspectFilterCount (priv h)) : gmap string Z)
      !! simTimeVar = Some 1) by apply lookup_insert_eq.
  destruct ok; simpl.
  - destruct (Subscribe env topic) eqn:Hsub; simpl; intros [= <- <-]; simpl.
    + split; [reflexivity|]. split; [intuition discriminate|].
      split; [auto|]. intros _. exists rest. auto.
    + split; [reflexivity|]. split; [intuition discriminate|].
      split; [auto | discriminate].
  - intros [= <- <-]. simpl.
    split; [reflexivity|]. split; [intuition discriminate|].
    split; [auto | discriminate].
Qed.

(** X19. Whatever way the setup of a constructed handler ends, its data
    starts every sequence of calls well: a sequence of fewer than [INT_MAX]
    calls is defined, and after any defined sequence the filter and the
    count map have the same keys, every count is positive, and no variable
    set of the registry is empty. *)
Theorem invariants_hold_after_any_setup (env : SetupEnvironment)
    (h : HandlerData) (r : setup_outcome) (cs : list call) :
  SetupIntrospection_steps env constructed_handler = (h, r) ->
  (Z.of_nat (length cs) < INT_MAX -> is_Some (run cs (priv h))) /\
  forall d,
    run cs (priv h) = Some d ->
    dom (introspectFilterCount d) = introspectFilter d /\
    (forall item count,
       introspectFilterCount d !! item = Some count -> 0 < count) /\
    registry_nonempty d.
Proof.
  intros Hsetup.
  assert (Hpriv : priv h = constructed \/ priv h = after_setup).
  { unfold SetupIntrospection_steps in Hsetup.
    destruct (WaitForManagers env) as [|first rest];
      [injection Hsetup as <- <-; now left|].
    destruct (String.eqb first ""); [injection Hsetup as <- <-; now left|].
    destruct (negb (IsRegistered env first simTimeVar));
      [injection Hsetup as <- <-; now left|].
    simpl in Hsetup.
    destruct (NewFilter env first {[simTimeVar]}) as [[ok id] topic].
    destruct (negb ok); [injection Hsetup as <- <-; now right|].
    destruct (negb (Subscribe env topic)); injection Hsetup as <- <-;
      now right. }
  assert (Hc : filter_consistent (priv h)).
  { destruct Hpriv as [-> | ->]; [|apply after_setup_consistent].
    split; simpl; [apply dom_empty_L|].
    intros item count. rewrite lookup_empty. discriminate. }
  assert (Hb : counts_at_most 1 (priv h)).
  { intros i. destruct Hpriv as [-> | ->].
    - unfold count_of. simpl. rewrite lookup_empty. simpl. lia.
    - rewrite after_setup_count. unfold setup_reference. case_bool_decide; lia. }
  assert (Hne : registry_nonempty (priv h)).
  { destruct Hpriv as [-> | ->]; constructor. }
  destruct (run_consistent cs (priv h) 1 Hc Hb) as [Hdef Hinv].
  split; [intros Hlen; apply Hdef; lia|].
  intros d Hrun. destruct (Hinv d Hrun) as [[Hdom Hpos] _].
  split; [exact Hdom|]. split.
  - intros item count Hl. specialize (Hpos _ _ Hl). lia.
  - eapply run_nonempty; eassumption.
Qed.

End SetupProperties.

(** ** Instances of the further properties *)

(** X1 at a batch whose sim time parameter comes after the sample. *)
Lemma batch_points_carry_first_sim_time_witness :
  Forall (fun call : AddPoint_call =>
            math.X2 (snd call) =
            batch_sim_time (M := SpecMath no_rotation)
              [msgs.mkParam robot_height (Some (any_double 2.5));
               msgs.mkParam simTimeVar (Some (any_time (msgs.mkTime 5 0)))])
    [(8%nat, math.mkVector2d 5 2.5)].
Proof.
  apply (batch_points_carry_first_sim_time (U := SpecURI.model)
           (M := SpecMath no_rotation)
           (mkPrivate [(robot_height, [8%nat])] ∅ ∅) {[8%nat]}).
  vm_compute. reflexivity.
Defined.

(** X2 at a batch of two parameters, one of them for no entry. *)
Lemma batch_points_go_to_live_registered_curves_witness :
  (exists l,
     collect (U := SpecURI.model) (M := SpecMath no_rotation)
       (mkPrivate [(robot_height, [8%nat; 9%nat])] ∅ ∅) locals_init
       [msgs.mkParam robot_height (Some (any_double 2.5));
        msgs.mkParam robot_world_pose (Some (any_double 1))] = Ok l /\
     (length (curvesUpdates l) <= 2)%nat) /\
  forall c pt,
    In (c, pt) [(8%nat, math.mkVector2d 0 2.5)] ->
    c ∈ ({[8%nat]} : gset PlotCurveWeakPtr) /\
    exists e, In e [(robot_height, [8%nat; 9%nat])] /\ holds c e.
Proof.
  apply (batch_points_go_to_live_registered_curves (U := SpecURI.model)
           (M := SpecMath no_rotation)
           (mkPrivate [(robot_height, [8%nat; 9%nat])] ∅ ∅) {[8%nat]}
           [msgs.mkParam robot_height (Some (any_double 2.5));
            msgs.mkParam robot_world_pose (Some (any_double 1))]).
  vm_compute. reflexivity.
Defined.

(** X3 at a parameter without a name. *)
Lemma unnamed_or_valueless_parameter_is_ignored_witness :
  OnIntrospection (U := SpecURI.model) (M := SpecMath no_rotation)
    (mkPrivate [(robot_height, [8%nat])] ∅ ∅) {[8%nat]}
    ([msgs.mkParam robot_height (Some (any_double 2.5))]
     ++ msgs.mkParam "" (Some (any_double 7))
     :: [msgs.mkParam robot_height (Some (any_double 3.5))])%list
  = OnIntrospection (U := SpecURI.model) (M := SpecMath no_rotation)
      (mkPrivate [(robot_height, [8%nat])] ∅ ∅) {[8%nat]}
      ([msgs.mkParam robot_height (Some (any_double 2.5))]
       ++ [msgs.mkParam robot_height (Some (any_double 3.5))])%list.
Proof.
  apply (unnamed_or_valueless_parameter_is_ignored (U := SpecURI.model)
           (M := SpecMath no_rotation)).
  left. reflexivity.
Defined.

(** X4 at the entry "data://robot", whose URI has no query. *)
Lemma vector_on_empty_query_discards_the_batch_witness :
  OnIntrospection (U := SpecURI.model) (M := SpecMath no_rotation)
    (mkPrivate [("data://robot", [4%nat]); (robot_height, [8%nat])] ∅ ∅)
    {[4%nat; 8%nat]}
    ([msgs.mkParam robot_height (Some (any_double 2.5))]
     ++ msgs.mkParam "data://robot"
          (Some (any_vector3d (math.mkVector3d 1 2 3)))
     :: [])%list
  = Throw out_of_range.
Proof.
  apply (vector_on_empty_query_discards_the_batch (U := SpecURI.model)
           (M := SpecMath no_rotation) _ _ _ _ _
           (mkLocals 0 false [((robot_height, [8%nat]), 2.5%float)])
           (any_vector3d (math.mkVector3d 1 2 3)) (math.mkVector3d 1 2 3)
           ("data://robot", [4%nat])).
  - vm_compute. reflexivity.
  - discriminate.
  - reflexivity.
  - reflexivity.
  - reflexivity.
  - vm_compute. reflexivity.
  - reflexivity.
Defined.

(** X5 at a pose parameter and the entry of its x position. *)
Lemma resolve_is_by_name_prefix_witness :
  In (robot_position_x, [7%nat]) [(robot_position_x, [7%nat])] /\
  exists rest, robot_position_x = robot_world_pose +:+ rest.
Proof.
  apply (resolve_is_by_name_prefix [(robot_position_x, [7%nat])]
           robot_world_pose).
  vm_compute. reflexivity.
Defined.

(** X6 at the roll entry: the decode is invalid. *)
Lemma pose_orientation_is_valid_only_with_yaw_witness :
  exists validData data,
    decode (U := SpecURI.model) (M := SpecMath no_rotation)
      (any_pose3d (math.mkPose3d (math.mkVector3d 1 2 3)
                     (math.mkQuaterniond 1 0 0 0)))
      robot_orientation_roll = Ok (validData, data) /\
    validData =
      StdString.find_not_npos
        (URI_Query_Str (URIModel := SpecURI.model) robot_orientation_roll)
        "orientation"
      && StdString.find_not_npos
           (URI_Query_Str (URIModel := SpecURI.model) robot_orientation_roll)
           "yaw" /\
    (validData = true ->
     data = math.Z (no_rotation (math.mkQuaterniond 1 0 0 0))).
Proof.
  apply (pose_orientation_is_valid_only_with_yaw (U := SpecURI.model)
           (M := SpecMath no_rotation)
           (any_pose3d (math.mkPose3d (math.mkVector3d 1 2 3)
                          (math.mkQuaterniond 1 0 0 0)))
           robot_orientation_roll
           (math.mkPose3d (math.mkVector3d 1 2 3)
              (math.mkQuaterniond 1 0 0 0))); reflexivity.
Defined.

(** X7 at a name that selects "data://robot?p=pose/world_pose". *)
Lemma RemoveItemFromFilter_undoes_AddItemToFilter_witness :
  RemoveItemFromFilter (U := SpecURI.model) [robot_world_pose] robot_position_x
    (mkPrivate [] {[simTimeVar; robot_world_pose]}
       {[simTimeVar := 1; robot_world_pose := 1]})
  = Some after_setup.
Proof.
  apply (RemoveItemFromFilter_undoes_AddItemToFilter (U := SpecURI.model)).
  - apply after_setup_consistent.
  - vm_compute. reflexivity.
Defined.

(** X8 at a client that lists no items. *)
Lemma unmatched_name_leaves_the_filter_witness :
  AddItemToFilter (U := SpecURI.model) [] robot_position_x after_setup
    = Some after_setup /\
  RemoveItemFromFilter (U := SpecURI.model) [] robot_position_x after_setup
    = Some after_setup /\
  exists d',
    AddCurve (U := SpecURI.model) [] {[1%nat]} robot_position_x 1%nat
      after_setup = Some d' /\
    introspectFilter d' = introspectFilter after_setup /\
    introspectFilterCount d' = introspectFilterCount after_setup.
Proof.
  apply (unmatched_name_leaves_the_filter (U := SpecURI.model)).
  right. constructor.
Defined.

(** X9 at the first curve of a name. *)
Lemma AddCurve_registers_and_is_idempotent_witness :
  (exists it,
     CurveMap.find
       (curves (mkPrivate [(robot_position_x, [1%nat])]
                  {[simTimeVar; robot_world_pose]}
                  {[simTimeVar := 1; robot_world_pose := 1]}))
       robot_position_x = Some it /\
     fst it = robot_position_x /\ holds 1%nat it) /\
  (forall items' live',
     AddCurve (U := SpecURI.model) items' live' robot_position_x 1%nat
       (mkPrivate [(robot_position_x, [1%nat])]
          {[simTimeVar; robot_world_pose]}
          {[simTimeVar := 1; robot_world_pose := 1]})
     = Some (mkPrivate [(robot_position_x, [1%nat])]
               {[simTimeVar; robot_world_pose]}
               {[simTimeVar := 1; robot_world_pose := 1]})).
Proof.
  apply (AddCurve_registers_and_is_idempotent (U := SpecURI.model)
           [robot_world_pose] {[1%nat]} robot_position_x 1%nat after_setup
           (mkPrivate [(robot_position_x, [1%nat])]
              {[simTimeVar; robot_world_pose]}
              {[simTimeVar := 1; robot_world_pose := 1]})).
  - vm_compute. reflexivity.
  - vm_compute. reflexivity.
Defined.

(** X10 at the first curve of a name. *)
Lemma RemoveCurve_undoes_AddCurve_witness :
  RemoveCurve (U := SpecURI.model) [robot_world_pose] {[1%nat]} 1%nat
    (mkPrivate [(robot_position_x, [1%nat])]
       {[simTimeVar; robot_world_pose]}
       {[simTimeVar := 1; robot_world_pose := 1]})
  = Some after_setup.
Proof.
  apply (RemoveCurve_undoes_AddCurve (U := SpecURI.model)
           [robot_world_pose] {[1%nat]} robot_position_x 1%nat after_setup).
  - vm_compute. reflexivity.
  - reflexivity.
  - constructor.
  - apply after_setup_consistent.
  - vm_compute. reflexivity.
Defined.

(** X11 at the curve 1 held under two names, with the curve 2 beside it
    in the first set. *)
Lemma RemoveCurve_unregisters_from_the_first_holder_only_witness :
  holds 1%nat (robot_orientation_roll, [1%nat; 2%nat]) /\
  (exists rest,
     curves (mkPrivate
               [(robot_orientation_roll, [2%nat]); (robot_position_x, [1%nat])]
               {[simTimeVar; robot_world_pose]}
               {[simTimeVar := 1; robot_world_pose := 2]})
     = ([] ++ rest ++ [(robot_position_x, [1%nat])])%list /\
     Forall (fun e => ~ holds 1%nat e) ([] ++ rest)%list /\
     (rest = [] \/
      exists s', rest = [(fst (robot_orientation_roll, [1%nat; 2%nat]), s')] /\
        s' <> [] /\
        forall x, In x s' <->
                  In x (snd (robot_orientation_roll, [1%nat; 2%nat]))
                  /\ x <> 1%nat) /\
     (rest = [] <->
      forall x, In x (snd (robot_orientation_roll, [1%nat; 2%nat])) ->
                x = 1%nat)) /\
  Forall (fun e =>
            In e (curves (mkPrivate
                            [(robot_orientation_roll, [2%nat]);
                             (robot_position_x, [1%nat])]
                            {[simTimeVar; robot_world_pose]}
                            {[simTimeVar := 1; robot_world_pose := 2]})))
    ([] ++ [(robot_position_x, [1%nat])])%list /\
  (Exists (holds 1%nat) [(robot_position_x, [1%nat])] ->
   Exists (holds 1%nat)
     (curves (mkPrivate
                [(robot_orientation_roll, [2%nat]); (robot_position_x, [1%nat])]
                {[simTimeVar; robot_world_pose]}
                {[simTimeVar := 1; robot_world_pose := 2]}))).
Proof.
  apply (RemoveCurve_unregisters_from_the_first_holder_only
           (U := SpecURI.model)
           [CallAddCurve [robot_world_pose] {[1%nat; 2%nat]}
              robot_orientation_roll 1%nat;
            CallAddCurve [robot_world_pose] {[1%nat; 2%nat]}
              robot_orientation_roll 2%nat;
            CallAddCurve [robot_world_pose] {[1%nat; 2%nat]}
              robot_position_x 1%nat]
           [robot_world_pose] {[1%nat; 2%nat]} 1%nat
           (mkPrivate
              [(robot_orientation_roll, [1%nat; 2%nat]);
               (robot_position_x, [1%nat])]
              {[simTimeVar; robot_world_pose]}
              {[simTimeVar := 1; robot_world_pose := 2]})
           _ [] [(robot_position_x, [1%nat])]
           (robot_orientation_roll, [1%nat; 2%nat])).
  - vm_compute. reflexivity.
  - vm_compute. reflexivity.
  - reflexivity.
  - vm_compute. reflexivity.
Defined.

(** X12 at the curve 1, dead while another curve is added and removed
    under its name and [RemoveCurve] is called for it. *)
Lemma dead_curve_is_never_unregistered_witness :
  Exists (fun e : CurveMap.entry => fst e = robot_position_x /\ holds 1%nat e)
    (curves (mkPrivate [(robot_position_x, [1%nat])]
               {[simTimeVar; robot_world_pose]}
               {[simTimeVar := 1; robot_world_pose := 1]})).
Proof.
  apply (dead_curve_is_never_unregistered (U := SpecURI.model)
           [CallRemoveCurve [robot_world_pose] {[2%nat]} 1%nat;
            CallAddCurve [robot_world_pose] {[2%nat]} robot_position_x 2%nat;
            CallRemoveCurve [robot_world_pose] {[2%nat]} 2%nat]
           robot_position_x 1%nat
           (mkPrivate [(robot_position_x, [1%nat])]
              {[simTimeVar; robot_world_pose]}
              {[simTimeVar := 1; robot_world_pose := 1]})).
  - repeat constructor; simpl; set_solver.
  - left. split; [reflexivity | now left].
  - vm_compute. reflexivity.
Defined.

(** X13 at a curve added and removed under the name of the sim time
    variable. *)
Lemma sim_time_stays_subscribed_witness :
  simTimeVar ∈ introspectFilter after_setup /\
  exists count,
    introspectFilterCount after_setup !! simTimeVar = Some count /\ 1 <= count.
Proof.
  apply (sim_time_stays_subscribed (U := SpecURI.model) [simTimeVar]
           [CallAddCurve [simTimeVar] {[1%nat]} simTimeVar 1%nat;
            CallRemoveCurve [simTimeVar] {[1%nat]} 1%nat]).
  - repeat constructor.
  - vm_compute. reflexivity.
Defined.

(** X14 at the item "data://robot?p=pose/world_pose". *)
Lemma filter_items_are_asked_for_witness :
  robot_world_pose = simTimeVar \/
  (In robot_world_pose [robot_world_pose; simTimeVar] /\
   exists _name,
     In _name
       (names (curves (mkPrivate [(robot_position_x, [1%nat])]
                         {[simTimeVar; robot_world_pose]}
                         {[simTimeVar := 1; robot_world_pose := 1]}))) /\
     selected (U := SpecURI.model) [robot_world_pose; simTimeVar] _name
     = Some robot_world_pose).
Proof.
  apply (filter_items_are_asked_for (U := SpecURI.model)
           [robot_world_pose; simTimeVar]
           [CallAddCurve [robot_world_pose; simTimeVar] {[1%nat]}
              robot_position_x 1%nat]).
  - repeat constructor.
  - vm_compute. reflexivity.
  - simpl. set_solver.
Defined.

(** X15 at two curves added under two names and removed again. *)
Lemma empty_registry_means_initial_filter_witness :
  mkPrivate [] {[simTimeVar]} {[simTimeVar := 1]} = after_setup.
Proof.
  apply (empty_registry_means_initial_filter (U := SpecURI.model)
           [robot_world_pose; simTimeVar]
           [CallAddCurve [robot_world_pose; simTimeVar] {[1%nat; 2%nat]}
              robot_position_x 1%nat;
            CallAddCurve [robot_world_pose; simTimeVar] {[1%nat; 2%nat]}
              robot_orientation_roll 2%nat;
            CallRemoveCurve [robot_world_pose; simTimeVar] {[1%nat; 2%nat]}
              1%nat;
            CallRemoveCurve [robot_world_pose; simTimeVar] {[1%nat; 2%nat]}
              2%nat]).
  - repeat constructor.
  - vm_compute. reflexivity.
  - reflexivity.
Defined.

(** X16 at the first curve of "data://robot?p=height". *)
Lemma added_curve_receives_samples_witness :
  exists calls,
    OnIntrospection (U := SpecURI.model) (M := SpecMath no_rotation)
      (mkPrivate [(robot_height, [8%nat])] {[simTimeVar]} {[simTimeVar := 1]})
      {[8%nat]} [msgs.mkParam robot_height (Some (any_double 2.5))]
    = Ok calls /\
    In (8%nat, math.mkVector2d 0 2.5) calls.
Proof.
  apply (added_curve_receives_samples (U := SpecURI.model)
           (M := SpecMath no_rotation) [] {[8%nat]} {[8%nat]} robot_height
           8%nat after_setup).
  - set_solver.
  - set_solver.
  - discriminate.
  - vm_compute. reflexivity.
Defined.

(** X17 at a curve registered under one name. *)
Lemma removed_curve_gets_no_more_points_witness :
  Forall (fun e => ~ holds 1%nat e) (curves after_setup) /\
  forall live' msg calls pt,
    OnIntrospection (U := SpecURI.model) (M := SpecMath no_rotation)
      after_setup live' msg = Ok calls ->
    ~ In (1%nat, pt) calls.
Proof.
  apply (removed_curve_gets_no_more_points (U := SpecURI.model)
           (M := SpecMath no_rotation)
           [CallAddCurve [robot_world_pose] {[1%nat]} robot_position_x 1%nat]
           [robot_world_pose] {[1%nat]} 1%nat
           (mkPrivate [(robot_position_x, [1%nat])]
              {[simTimeVar; robot_world_pose]}
              {[simTimeVar := 1; robot_world_pose := 1]})
           after_setup [] [] (robot_position_x, [1%nat])).
  - vm_compute. reflexivity.
  - set_solver.
  - reflexivity.
  - constructor.
  - vm_compute. reflexivity.
Defined.

(** X18 at an environment where every step succeeds. *)
Lemma SetupIntrospection_outcomes_witness :
  curves (priv (mkHandlerData after_setup "manager1" "filter1"
                  "/introspection/filter1"))
  = curves (priv constructed_handler) /\
  introspectFilter after_setup = {[simTimeVar]} /\
  introspectFilterCount after_setup !! simTimeVar = Some 1 /\
  Subscribe env_all_good "/introspection/filter1" = true.
Proof.
  destruct (SetupIntrospection_outcomes env_all_good constructed_handler
              (mkHandlerData after_setup "manager1" "filter1"
                 "/introspection/filter1") Subscribed)
    as (Hcurves & _ & Hfilter & Hsub); [vm_compute; reflexivity|].
  destruct Hfilter as [Hf Hc]; [auto|].
  destruct Hsub as (rest & _ & _ & _ & _ & Hs); [reflexivity|].
  auto.
Defined.

(** X19 at an environment where [NewFilter] fails. *)
Lemma invariants_hold_after_any_setup_witness :
  is_Some
    (run (U := SpecURI.model)
       [CallAddCurve [robot_world_pose] {[1%nat]} robot_position_x 1%nat]
       after_setup) /\
  registry_nonempty
    (mkPrivate [(robot_position_x, [1%nat])]
       {[simTimeVar; robot_world_pose]}
       {[simTimeVar := 1; robot_world_pose := 1]}).
Proof.
  destruct (invariants_hold_after_any_setup (U := SpecURI.model) env_no_filter
              (mkHandlerData after_setup "manager1" "" "") NewFilterFailed
              [CallAddCurve [robot_world_pose] {[1%nat]} robot_position_x 1%nat])
    as (Hdef & Hinv); [vm_compute; reflexivity|].
  split; [apply Hdef; vm_compute; reflexivity|].
  apply Hinv. vm_compute. reflexivity.
Defined.

(** ** One entry per parameter *)

Section FirstExtension.

Context {U : URIModel} {M : MathModel}.

Lemma find_app_first {A} (f : A -> bool) (m1 m2 : list A) (e : A) :
  Forall (fun x => f x = false) m1 -> f e = true ->
  List.find f (m1 ++ e :: m2) = Some e.
Proof.
  induction m1 as [|x m1 IH]; simpl; intros Hall He.
  - now rewrite He.
  - inversion Hall as [|y l Hx Hrest]; subst. rewrite Hx. now apply IH.
Qed.

(** X20. When no registry name equals the parameter's name, the parameter
    feeds only the first entry, in the order of the registry, whose name
    starts with it: the one update it can buffer is for that entry, and an
    entry further on whose name also starts with the parameter's name (the
    y component beside the x component of one pose, say) gets nothing from
    it. *)
Theorem parameter_feeds_first_extension_only
    (d : IntrospectionCurveHandlerPrivate) (l l' : locals)
    (param : msgs.Param) (m1 m2 : CurveMap.t) (e : CurveMap.entry) :
  curves d = (m1 ++ e :: m2)%list ->
  Forall (fun x : CurveMap.entry => fst x <> msgs.name param) (curves d) ->
  Forall (fun x : CurveMap.entry =>
            StdString.starts_with (msgs.name param) (fst x) = false) m1 ->
  StdString.starts_with (msgs.name param) (fst e) = true ->
  collect_param d l param = Ok l' ->
  resolve (curves d) (msgs.name param) = Some e /\
  (curvesUpdates l' = curvesUpdates l \/
   exists data, curvesUpdates l' = (curvesUpdates l ++ [(e, data)])%list).
Proof.
  intros Hm Hne Hm1 He Hc.
  assert (Hr : resolve (curves d) (msgs.name param) = Some e).
  { unfold resolve, CurveMap.find.
    destruct (List.find (fun x => String.eqb (fst x) (msgs.name param))
                (curves d)) as [x|] eqn:Hf.
    - apply List.find_some in Hf. destruct Hf as [Hin Heq].
      apply String.eqb_eq in Heq. rewrite List.Forall_forall in Hne.
      now specialize (Hne x Hin).
    - rewrite Hm. apply find_app_first.
      + eapply List.Forall_impl; [|exact Hm1]. intros x Hx. simpl.
        now rewrite find_is_0_starts_with.
      + now rewrite find_is_0_starts_with. }
  split; [exact Hr|].
  destruct (collect_param_updates d l param l' Hc) as [H|(it & data & Hr' & H)];
    [now left|].
  right. exists data. rewrite Hr in Hr'. now injection Hr' as <-.
Qed.

End FirstExtension.

(** X20 at the entries of the y and x positions of one pose: the pose
    parameter feeds the x entry, which comes first. *)
Lemma parameter_feeds_first_extension_only_witness :
  resolve
    (curves (mkPrivate
               [(robot_position_x, [7%nat]);
                ("data://robot?p=pose/world_pose/vector3/position/double/y",
                 [8%nat])] ∅ ∅))
    robot_world_pose
  = Some (robot_position_x, [7%nat]) /\
  (curvesUpdates
     (mkLocals 0 false [((robot_position_x, [7%nat]), 1%float)])
   = curvesUpdates locals_init \/
   exists data,
     curvesUpdates
       (mkLocals 0 false [((robot_position_x, [7%nat]), 1%float)])
     = (curvesUpdates locals_init ++ [((robot_position_x, [7%nat]), data)])%list).
Proof.
  apply (parameter_feeds_first_extension_only (U := SpecURI.model)
           (M := SpecMath no_rotation)
           (mkPrivate
              [(robot_position_x, [7%nat]);
               ("data://robot?p=pose/world_pose/vector3/position/double/y",
                [8%nat])] ∅ ∅)
           locals_init _
           (msgs.mkParam robot_world_pose
              (Some (any_pose3d (math.mkPose3d (math.mkVector3d 1 2 3)
                                   (math.mkQuaterniond 1 0 0 0)))))
           []
           [("data://robot?p=pose/world_pose/vector3/position/double/y",
             [8%nat])]
           (robot_position_x, [7%nat])).
  - reflexivity.
  - repeat constructor; discriminate.
  - constructor.
  - reflexivity.
  - vm_compute. reflexivity.
Defined.
